(** * MoneyBalance: the storage service, the report analytics and the budget check

    A shallow embedding of
      - [src/services/database/models.ts]      (the entity shapes and the default categories),
      - [src/services/database/storage.ts]     (class [DatabaseService]),
      - [src/app/(tabs)/reports.tsx]           (function [calculateAnalytics]),
      - [src/services/notifications/notificationService.ts]
                                               ([scheduleBudgetAlert], [checkBudgetAlerts]),
    followed by the properties of these functions.

    Modelling conventions.
      - A JavaScript [number] holding an amount is a rational ([Q]).  The
        stored records hold the numbers as the stored text writes them, in
        decimal; the code computes with the doubles [JSON.parse] makes of
        them.  Module [Double] is the arithmetic of doubles, each operation
        rounded to the nearest double; infinities and not-a-number are
        outside the model.
        The functions that compute with amounts are given with exact
        arithmetic (in [DatabaseService], [Reports], [Dashboard]) for the
        statements that do not depend on rounding: which entries are
        counted, in which order, what is read and written.  Where a
        statement depends on the arithmetic (the balance against the sums
        by type, the breakdown against the total, the thresholds of the
        budget check) the function is the one of module [Binary64] or of
        [NotificationService], which round as the platform does.
      - A [Date] is its time value: milliseconds on the local time line
        (a fixed zone offset, no daylight-saving jumps), as a [Z].
      - [AsyncStorage] is a record with one slot per storage key.  A slot is
        absent ([None]) or holds a text; the text of a JSON slot is empty,
        unparseable, or the [JSON.stringify] image of a value of the slot's
        kind (the only texts the service itself ever writes there).
      - Every request to a platform service ([AsyncStorage], the notification
        scheduler) may be rejected; the world carries the schedule of
        rejections.  The clock and [Math.random] are oracles of the world.
      - [console.error] calls are not modelled.

    The statements on what an operation computes are about runs in which
    the platform serves the requests the operation makes; what happens when
    a request is rejected is the subject of the statements on the reads and
    writes. *)

From Stdlib Require Import ZArith QArith Qround Qabs Qpower.
From Stdlib Require Import List String Ascii Bool Lia Lqa.
From Stdlib Require Import Permutation Sorted.
From Stdlib Require Floats.
Import ListNotations.

Local Open Scope Z_scope.

(* ------------------------------------------------------------------ *)
(** ** JavaScript [Date] on the local time line

    Time values are not clipped to the range of [Date] and there is no
    invalid date. *)

Module JSDate.

Definition msPerDay : Z := 86400000.

(** Day number (days since 1970-01-01) of the civil date [y]-[m]-[d],
    [m] in 1..12, in the proleptic Gregorian calendar. *)
Definition days_from_civil (y m d : Z) : Z :=
  let y' := if m <=? 2 then y - 1 else y in
  let era := y' / 400 in
  let yoe := y' - era * 400 in
  let mp := if 2 <? m then m - 3 else m + 9 in
  let doy := (153 * mp + 2) / 5 + d - 1 in
  let doe := yoe * 365 + yoe / 4 - yoe / 100 + doy in
  era * 146097 + doe - 719468.

(** Civil date (year, month 1..12, day of month) of a day number. *)
Definition civil_from_days (n : Z) : Z * Z * Z :=
  let z := n + 719468 in
  let era := z / 146097 in
  let doe := z - era * 146097 in
  let yoe := (doe - doe / 1460 + doe / 36524 - doe / 146096) / 365 in
  let y := yoe + era * 400 in
  let doy := doe - (365 * yoe + yoe / 4 - yoe / 100) in
  let mp := (5 * doy + 2) / 153 in
  let d := doy - (153 * mp + 2) / 5 + 1 in
  let m := if mp <? 10 then mp + 3 else mp - 9 in
  (if m <=? 2 then y + 1 else y, m, d).

(** ECMAScript [Day(t)]. *)
Definition Day (t : Z) : Z := t / msPerDay.

(** [d.getFullYear()], [d.getMonth()] (0..11) and [d.getDate()]. *)
Definition getFullYear (t : Z) : Z := fst (fst (civil_from_days (Day t))).
Definition getMonth (t : Z) : Z := snd (fst (civil_from_days (Day t))) - 1.
Definition getDate (t : Z) : Z := snd (civil_from_days (Day t)).

(** ECMAScript [MakeDay(year, month, date)]: the month may lie outside
    0..11 and the date outside the month; both carry over. *)
Definition MakeDay (year month date : Z) : Z :=
  let ym := year + month / 12 in
  let mn := month mod 12 in
  days_from_civil ym (mn + 1) 1 + date - 1.

(** [new Date(year, month, date)]: local midnight; a year in 0..99 means
    1900 + year. *)
Definition ymd (year month date : Z) : Z :=
  let yr := if (0 <=? year) && (year <=? 99) then 1900 + year else year in
  MakeDay yr month date * msPerDay.

(** [new Date(year, month, date, hours, minutes)], used to write instants
    down in examples. *)
Definition ymdhm (year month date hours minutes : Z) : Z :=
  ymd year month date + hours * 3600000 + minutes * 60000.

(** [d.toLocaleDateString('en-US', { month: 'short' })]. *)
Definition monthShort (t : Z) : string :=
  nth (Z.to_nat (getMonth t))
      ["Jan"; "Feb"; "Mar"; "Apr"; "May"; "Jun";
       "Jul"; "Aug"; "Sep"; "Oct"; "Nov"; "Dec"]%string EmptyString.

End JSDate.

(* ------------------------------------------------------------------ *)
(** ** [Number.prototype.toString(36)] on integers *)

Module Base36.

Definition digit (d : Z) : ascii :=
  if d <? 10 then ascii_of_nat (48 + Z.to_nat d)
  else ascii_of_nat (87 + Z.to_nat d).

Fixpoint digits (fuel : nat) (n : Z) (acc : string) : string :=
  match fuel with
  | O => acc
  | S fuel' =>
      let acc' := String (digit (n mod 36)) acc in
      if n / 36 =? 0 then acc' else digits fuel' (n / 36) acc'
  end.

(** The text of the integer [n] in base 36, lower case. *)
Definition toString36 (n : Z) : string :=
  let body := digits (S (Z.to_nat (Z.log2 (Z.abs n)))) (Z.abs n) EmptyString in
  if n <? 0 then String "-"%char body else body.

End Base36.

(* ------------------------------------------------------------------ *)
(** ** The data model ([models.ts]) *)

Inductive TransactionType := income | expense.

Definition TransactionType_eqb (a b : TransactionType) : bool :=
  match a, b with
  | income, income | expense, expense => true
  | _, _ => false
  end.

Module Transaction.
Record t := mk {
  id : string;
  type : TransactionType;
  amount : Q;
  category : string;
  description : string;
  notes : string;
  photos : list string;
  date : Z;
  tags : list string;
  createdAt : Z;
  updatedAt : Z
}.

(** [Omit<Transaction, 'id' | 'createdAt' | 'updatedAt'>]. *)
Record draft := mkDraft {
  d_type : TransactionType;
  d_amount : Q;
  d_category : string;
  d_description : string;
  d_notes : string;
  d_photos : list string;
  d_date : Z;
  d_tags : list string
}.

(** [Partial<Transaction>]: each field named or not. *)
Record partial := mkPartial {
  p_id : option string;
  p_type : option TransactionType;
  p_amount : option Q;
  p_category : option string;
  p_description : option string;
  p_notes : option string;
  p_photos : option (list string);
  p_date : option Z;
  p_tags : option (list string);
  p_createdAt : option Z;
  p_updatedAt : option Z
}.

Definition nothing : partial :=
  mkPartial None None None None None None None None None None None.
End Transaction.

Module Category.
Record t := mk {
  id : string;
  name : string;
  type : TransactionType;
  color : string;
  icon : string;
  budgetLimit : Q
}.

(** [Omit<Category, 'id'>]. *)
Record draft := mkDraft {
  d_name : string;
  d_type : TransactionType;
  d_color : string;
  d_icon : string;
  d_budgetLimit : Q
}.
End Category.

Module Note.
Record t := mk {
  id : string;
  title : string;
  content : string;
  tags : list string;
  attachments : list string;
  transactionId : option string;
  createdAt : Z;
  updatedAt : Z
}.

Record draft := mkDraft {
  d_title : string;
  d_content : string;
  d_tags : list string;
  d_attachments : list string;
  d_transactionId : option string
}.

Record partial := mkPartial {
  p_id : option string;
  p_title : option string;
  p_content : option string;
  p_tags : option (list string);
  p_attachments : option (list string);
  p_transactionId : option (option string);
  p_createdAt : option Z;
  p_updatedAt : option Z
}.
End Note.

Inductive BudgetPeriod := weekly | monthly.

Module Budget.
Record t := mk {
  id : string;
  categoryId : string;
  amount : Q;
  period : BudgetPeriod;
  startDate : Z;
  notifications : bool
}.

Record draft := mkDraft {
  d_categoryId : string;
  d_amount : Q;
  d_period : BudgetPeriod;
  d_startDate : Z;
  d_notifications : bool
}.
End Budget.

Inductive Theme := light | dark | system.

Module AppSettings.
Record t := mk {
  currency : string;
  dateFormat : string;
  theme : Theme;
  notificationsEnabled : bool;
  budgetAlerts : bool;
  dailySummary : bool
}.
End AppSettings.

Definition DEFAULT_INCOME_CATEGORIES : list Category.draft :=
  [ Category.mkDraft "Salary" income "#16a34a" "briefcase" 0;
    Category.mkDraft "Freelance" income "#059669" "laptop" 0;
    Category.mkDraft "Investment" income "#0d9488" "trending-up" 0;
    Category.mkDraft "Gift" income "#0891b2" "gift" 0;
    Category.mkDraft "Other" income "#0284c7" "plus-circle" 0 ]%string.

Definition DEFAULT_EXPENSE_CATEGORIES : list Category.draft :=
  [ Category.mkDraft "Food & Dining" expense "#dc2626" "utensils" 500;
    Category.mkDraft "Transportation" expense "#ea580c" "car" 200;
    Category.mkDraft "Shopping" expense "#d97706" "shopping-bag" 300;
    Category.mkDraft "Entertainment" expense "#ca8a04" "film" 150;
    Category.mkDraft "Bills & Utilities" expense "#65a30d" "file-text" 400;
    Category.mkDraft "Healthcare" expense "#16a34a" "heart" 200;
    Category.mkDraft "Education" expense "#0891b2" "book" 100;
    Category.mkDraft "Travel" expense "#0284c7" "map-pin" 300;
    Category.mkDraft "Other" expense "#7c3aed" "more-horizontal" 100 ]%string.

(* ------------------------------------------------------------------ *)
(** ** The platform: storage medium, clock, random source, scheduler *)

(** The text held under a JSON key. *)
Inductive text (A : Type) :=
| EmptyText                     (* the empty string *)
| Unparseable                   (* a text [JSON.parse] rejects *)
| Json (v : A).                 (* [JSON.stringify v] *)
Arguments EmptyText {A}.
Arguments Unparseable {A}.
Arguments Json {A} v.

Record Store := mkStore {
  transactions_item : option (text (list Transaction.t));
  categories_item : option (text (list Category.t));
  notes_item : option (text (list Note.t));
  budgets_item : option (text (list Budget.t));
  settings_item : option (text AppSettings.t);
  initialized_item : option string
}.

(** A storage key, with the kind of text kept under it. *)
Record key (V : Type) := mkKey {
  item : Store -> option V;
  put : option V -> Store -> Store
}.
Arguments item {V} k s.
Arguments put {V} k v s.

Inductive some_key :=
| a_key (V : Type) (k : key V).
Arguments a_key {V} k.

Module STORAGE_KEYS.
Definition TRANSACTIONS : key (text (list Transaction.t)) :=
  mkKey _ transactions_item
    (fun v s => mkStore v (categories_item s) (notes_item s) (budgets_item s)
                        (settings_item s) (initialized_item s)).
Definition CATEGORIES : key (text (list Category.t)) :=
  mkKey _ categories_item
    (fun v s => mkStore (transactions_item s) v (notes_item s) (budgets_item s)
                        (settings_item s) (initialized_item s)).
Definition NOTES : key (text (list Note.t)) :=
  mkKey _ notes_item
    (fun v s => mkStore (transactions_item s) (categories_item s) v (budgets_item s)
                        (settings_item s) (initialized_item s)).
Definition BUDGETS : key (text (list Budget.t)) :=
  mkKey _ budgets_item
    (fun v s => mkStore (transactions_item s) (categories_item s) (notes_item s) v
                        (settings_item s) (initialized_item s)).
Definition SETTINGS : key (text AppSettings.t) :=
  mkKey _ settings_item
    (fun v s => mkStore (transactions_item s) (categories_item s) (notes_item s)
                        (budgets_item s) v (initialized_item s)).
Definition INITIALIZED : key string :=
  mkKey _ initialized_item
    (fun v s => mkStore (transactions_item s) (categories_item s) (notes_item s)
                        (budgets_item s) (settings_item s) v).
End STORAGE_KEYS.

(** What [scheduleBudgetAlert] hands to the scheduler: the title chosen and
    the values its body text is formatted from. *)
Inductive AlertTitle := BudgetExceeded | BudgetWarning.

Record Notification := mkNotification {
  title : AlertTitle;
  alert_category : string;
  alert_spent : Q;
  alert_limit : Q
}.

Record World := mkWorld {
  storage : Store;
  rejections : list bool;      (* fate of the coming platform requests,
                                  [true] = rejected; none left = accepted *)
  now : Z;                     (* the clock *)
  ticks : list Z;              (* time elapsing after each reading of it *)
  randoms : list string;       (* coming [Math.random().toString(36).substr(2)] *)
  scheduled : list Notification
}.

Definition with_storage (s : Store) (w : World) : World :=
  mkWorld s (rejections w) (now w) (ticks w) (randoms w) (scheduled w).
Definition with_rejections (r : list bool) (w : World) : World :=
  mkWorld (storage w) r (now w) (ticks w) (randoms w) (scheduled w).
Definition with_clock (n : Z) (t : list Z) (w : World) : World :=
  mkWorld (storage w) (rejections w) n t (randoms w) (scheduled w).
Definition with_randoms (r : list string) (w : World) : World :=
  mkWorld (storage w) (rejections w) (now w) (ticks w) r (scheduled w).
Definition with_scheduled (n : list Notification) (w : World) : World :=
  mkWorld (storage w) (rejections w) (now w) (ticks w) (randoms w) n.

(** *** Asynchronous computations that may throw *)

Inductive error := MediumError | SyntaxError.

Inductive result (A : Type) :=
| Ok (a : A)
| Thrown (e : error).
Arguments Ok {A} a.
Arguments Thrown {A} e.

Definition Promise (A : Type) : Type := World -> result A * World.

Definition ret {A} (a : A) : Promise A := fun w => (Ok a, w).

Definition throw {A} (e : error) : Promise A := fun w => (Thrown e, w).

Definition bind {A B} (c : Promise A) (k : A -> Promise B) : Promise B :=
  fun w =>
    match c w with
    | (Ok a, w') => k a w'
    | (Thrown e, w') => (Thrown e, w')
    end.

Definition try_catch {A} (body : Promise A) (handler : error -> Promise A)
  : Promise A :=
  fun w =>
    match body w with
    | (Ok a, w') => (Ok a, w')
    | (Thrown e, w') => handler e w'
    end.

Declare Scope promise_scope.
Delimit Scope promise_scope with promise.
Notation "x <- c ;; k" := (bind c (fun x => k))
  (at level 61, c at next level, right associativity) : promise_scope.
Notation "c ;;; k" := (bind c (fun _ => k))
  (at level 61, right associativity) : promise_scope.
Notation "'try' b 'catch' h" := (try_catch b h)
  (at level 62, b at level 61, h at level 61) : promise_scope.
Local Open Scope promise_scope.

(** [array.map] with an effectful callback, in index order. *)
Fixpoint mapM {A B} (f : A -> Promise B) (l : list A) : Promise (list B) :=
  match l with
  | [] => ret []
  | a :: l' => b <- f a ;; bs <- mapM f l' ;; ret (b :: bs)
  end.

(** [for (const x of l) { await body(x) }]. *)
Fixpoint for_of {A} (l : list A) (body : A -> Promise unit) : Promise unit :=
  match l with
  | [] => ret tt
  | a :: l' => body a ;;; for_of l' body
  end.

(** A request to a platform service: rejected or carried out. *)
Definition request {A} (f : World -> A * World) : Promise A :=
  fun w =>
    match rejections w with
    | true :: rs => (Thrown MediumError, with_rejections rs w)
    | false :: rs => let (a, w') := f (with_rejections rs w) in (Ok a, w')
    | [] => let (a, w') := f w in (Ok a, w')
    end.

Module AsyncStorage.
Definition getItem {V} (k : key V) : Promise (option V) :=
  request (fun w => (item k (storage w), w)).

Definition setItem {V} (k : key V) (v : V) : Promise unit :=
  request (fun w => (tt, with_storage (put k (Some v) (storage w)) w)).

Definition remove_key (s : Store) (k : some_key) : Store :=
  match k with a_key k' => put k' None s end.

Definition multiRemove (ks : list some_key) : Promise unit :=
  request (fun w => (tt, with_storage (fold_left remove_key ks (storage w)) w)).
End AsyncStorage.

Module Notifications.
Definition scheduleNotificationAsync (n : Notification) : Promise unit :=
  request (fun w => (tt, with_scheduled (scheduled w ++ [n]) w)).
End Notifications.

(** [new Date()] / [Date.now()]. *)
Definition new_Date : Promise Z :=
  fun w =>
    (Ok (now w),
     match ticks w with
     | d :: ts => with_clock (now w + d) ts w
     | [] => w
     end).

(** [Math.random().toString(36).substr(2)]. *)
Definition Math_random_digits : Promise string :=
  fun w =>
    match randoms w with
    | r :: rs => (Ok r, with_randoms rs w)
    | [] => (Ok EmptyString, w)
    end.

Module JSON.
Definition parse {A} (t : text A) : Promise A :=
  match t with
  | Json v => ret v
  | EmptyText | Unparseable => throw SyntaxError
  end.

Definition stringify {A} (v : A) : text A := Json v.
End JSON.

(** Truthiness of a [string | null]: [null] and the empty string are falsy. *)
Class Text (V : Type) := is_empty : V -> bool.
#[export] Instance Text_text {A} : Text (text A) :=
  fun t => match t with EmptyText => true | _ => false end.
#[export] Instance Text_string : Text string :=
  fun s => match s with EmptyString => true | _ => false end.

Definition truthy {V} `{Text V} (data : option V) : bool :=
  match data with
  | Some v => negb (is_empty v)
  | None => false
  end.

(* ------------------------------------------------------------------ *)
(** ** JavaScript arrays as lists *)

(** [array.findIndex(p)]: the first index whose element satisfies [p], -1
    when there is none. *)
Fixpoint findIndex {A} (p : A -> bool) (l : list A) : Z :=
  match l with
  | [] => -1
  | a :: l' =>
      if p a then 0
      else let i := findIndex p l' in if i =? -1 then -1 else i + 1
  end.

(** [array[index] = v] for an index inside the array (the only use made of
    it; outside, the list is left as it is). *)
Fixpoint array_set {A} (index : nat) (v : A) (l : list A) : list A :=
  match l, index with
  | [], _ => []
  | _ :: l', O => v :: l'
  | a :: l', S i => a :: array_set i v l'
  end.

(** The value an object spread gives a field: the one the later object
    names when it names the field, the one of the earlier object otherwise. *)
Definition or_else {A} (o : option A) (a : A) : A :=
  match o with Some x => x | None => a end.

(* ------------------------------------------------------------------ *)
(** ** [DatabaseService] ([storage.ts]) *)

Module DatabaseService.
Import STORAGE_KEYS.

(** [Date.now().toString(36) + Math.random().toString(36).substr(2)] *)
Definition generateId : Promise string :=
  t <- new_Date ;;
  r <- Math_random_digits ;;
  ret (Base36.toString36 t ++ r)%string.

(** *** Transactions *)

Definition getTransactions : Promise (list Transaction.t) :=
  try (data <- AsyncStorage.getItem TRANSACTIONS ;;
       match data with
       | Some t => if truthy data then JSON.parse t else ret []
       | None => ret []
       end)
  catch (fun _ => ret []).

(** [{ ...transaction, id, createdAt, updatedAt }] *)
Definition newTransaction (d : Transaction.draft) (id : string)
    (createdAt updatedAt : Z) : Transaction.t :=
  Transaction.mk id (Transaction.d_type d) (Transaction.d_amount d)
    (Transaction.d_category d) (Transaction.d_description d)
    (Transaction.d_notes d) (Transaction.d_photos d) (Transaction.d_date d)
    (Transaction.d_tags d) createdAt updatedAt.

Definition saveTransaction (transaction : Transaction.draft)
  : Promise Transaction.t :=
  try (transactions <- getTransactions ;;
       id <- generateId ;;
       createdAt <- new_Date ;;
       updatedAt <- new_Date ;;
       let newT := newTransaction transaction id createdAt updatedAt in
       AsyncStorage.setItem TRANSACTIONS (JSON.stringify (transactions ++ [newT])) ;;;
       ret newT)
  catch (fun e => throw e).

(** [{ ...old, ...updates, updatedAt }] *)
Definition spreadTransaction (old : Transaction.t)
    (updates : Transaction.partial) (updatedAt : Z) : Transaction.t :=
  Transaction.mk
    (or_else (Transaction.p_id updates) (Transaction.id old))
    (or_else (Transaction.p_type updates) (Transaction.type old))
    (or_else (Transaction.p_amount updates) (Transaction.amount old))
    (or_else (Transaction.p_category updates) (Transaction.category old))
    (or_else (Transaction.p_description updates) (Transaction.description old))
    (or_else (Transaction.p_notes updates) (Transaction.notes old))
    (or_else (Transaction.p_photos updates) (Transaction.photos old))
    (or_else (Transaction.p_date updates) (Transaction.date old))
    (or_else (Transaction.p_tags updates) (Transaction.tags old))
    (or_else (Transaction.p_createdAt updates) (Transaction.createdAt old))
    updatedAt.

Definition updateTransaction (id : string) (updates : Transaction.partial)
  : Promise unit :=
  try (transactions <- getTransactions ;;
       let index := findIndex (fun t => String.eqb (Transaction.id t) id) transactions in
       if negb (index =? -1) then
         match nth_error transactions (Z.to_nat index) with
         | Some old =>
             updatedAt <- new_Date ;;
             AsyncStorage.setItem TRANSACTIONS
               (JSON.stringify
                  (array_set (Z.to_nat index)
                     (spreadTransaction old updates updatedAt) transactions))
         | None => ret tt   (* no such case: [index] lies inside the array *)
         end
       else ret tt)
  catch (fun e => throw e).

Definition deleteTransaction (id : string) : Promise unit :=
  try (transactions <- getTransactions ;;
       let filtered :=
         filter (fun t => negb (String.eqb (Transaction.id t) id)) transactions in
       AsyncStorage.setItem TRANSACTIONS (JSON.stringify filtered))
  catch (fun e => throw e).

(** *** Categories *)

Definition getCategories : Promise (list Category.t) :=
  try (data <- AsyncStorage.getItem CATEGORIES ;;
       match data with
       | Some t => if truthy data then JSON.parse t else ret []
       | None => ret []
       end)
  catch (fun _ => ret []).

Definition saveCategories (categories : list Category.t) : Promise unit :=
  try (AsyncStorage.setItem CATEGORIES (JSON.stringify categories))
  catch (fun e => throw e).

(** [{ ...category, id }] *)
Definition newCategory (d : Category.draft) (id : string) : Category.t :=
  Category.mk id (Category.d_name d) (Category.d_type d) (Category.d_color d)
    (Category.d_icon d) (Category.d_budgetLimit d).

Definition addCategory (category : Category.draft) : Promise Category.t :=
  try (categories <- getCategories ;;
       id <- generateId ;;
       let newC := newCategory category id in
       saveCategories (categories ++ [newC]) ;;;
       ret newC)
  catch (fun e => throw e).

(** *** Notes *)

Definition getNotes : Promise (list Note.t) :=
  try (data <- AsyncStorage.getItem NOTES ;;
       match data with
       | Some t => if truthy data then JSON.parse t else ret []
       | None => ret []
       end)
  catch (fun _ => ret []).

Definition newNote (d : Note.draft) (id : string) (createdAt updatedAt : Z)
  : Note.t :=
  Note.mk id (Note.d_title d) (Note.d_content d) (Note.d_tags d)
    (Note.d_attachments d) (Note.d_transactionId d) createdAt updatedAt.

Definition saveNote (note : Note.draft) : Promise Note.t :=
  try (notes <- getNotes ;;
       id <- generateId ;;
       createdAt <- new_Date ;;
       updatedAt <- new_Date ;;
       let newN := newNote note id createdAt updatedAt in
       AsyncStorage.setItem NOTES (JSON.stringify (notes ++ [newN])) ;;;
       ret newN)
  catch (fun e => throw e).

Definition spreadNote (old : Note.t) (updates : Note.partial) (updatedAt : Z)
  : Note.t :=
  Note.mk
    (or_else (Note.p_id updates) (Note.id old))
    (or_else (Note.p_title updates) (Note.title old))
    (or_else (Note.p_content updates) (Note.content old))
    (or_else (Note.p_tags updates) (Note.tags old))
    (or_else (Note.p_attachments updates) (Note.attachments old))
    (or_else (Note.p_transactionId updates) (Note.transactionId old))
    (or_else (Note.p_createdAt updates) (Note.createdAt old))
    updatedAt.

Definition updateNote (id : string) (updates : Note.partial) : Promise unit :=
  try (notes <- getNotes ;;
       let index := findIndex (fun n => String.eqb (Note.id n) id) notes in
       if negb (index =? -1) then
         match nth_error notes (Z.to_nat index) with
         | Some old =>
             updatedAt <- new_Date ;;
             AsyncStorage.setItem NOTES
               (JSON.stringify
                  (array_set (Z.to_nat index)
                     (spreadNote old updates updatedAt) notes))
         | None => ret tt
         end
       else ret tt)
  catch (fun e => throw e).

Definition deleteNote (id : string) : Promise unit :=
  try (notes <- getNotes ;;
       let filtered := filter (fun n => negb (String.eqb (Note.id n) id)) notes in
       AsyncStorage.setItem NOTES (JSON.stringify filtered))
  catch (fun e => throw e).

(** *** Budgets *)

Definition getBudgets : Promise (list Budget.t) :=
  try (data <- AsyncStorage.getItem BUDGETS ;;
       match data with
       | Some t => if truthy data then JSON.parse t else ret []
       | None => ret []
       end)
  catch (fun _ => ret []).

Definition newBudget (d : Budget.draft) (id : string) : Budget.t :=
  Budget.mk id (Budget.d_categoryId d) (Budget.d_amount d) (Budget.d_period d)
    (Budget.d_startDate d) (Budget.d_notifications d).

Definition saveBudget (budget : Budget.draft) : Promise Budget.t :=
  try (budgets <- getBudgets ;;
       id <- generateId ;;
       let newB := newBudget budget id in
       AsyncStorage.setItem BUDGETS (JSON.stringify (budgets ++ [newB])) ;;;
       ret newB)
  catch (fun e => throw e).

(** *** Settings *)

Definition getSettings : Promise (option AppSettings.t) :=
  try (data <- AsyncStorage.getItem SETTINGS ;;
       match data with
       | Some t => if truthy data then (s <- JSON.parse t ;; ret (Some s)) else ret None
       | None => ret None
       end)
  catch (fun _ => ret None).

Definition saveSettings (settings : AppSettings.t) : Promise unit :=
  try (AsyncStorage.setItem SETTINGS (JSON.stringify settings))
  catch (fun e => throw e).

(** *** Bootstrap and reset *)

Definition defaultSettings : AppSettings.t :=
  AppSettings.mk "USD" "MM/DD/YYYY" system true true true.

(** [cat => ({ ...cat, id: this.generateId() })] *)
Definition withGeneratedId (cat : Category.draft) : Promise Category.t :=
  id <- generateId ;; ret (newCategory cat id).

Definition initialize : Promise unit :=
  try (isInitialized <- AsyncStorage.getItem INITIALIZED ;;
       if negb (truthy isInitialized) then
         incomes <- mapM withGeneratedId DEFAULT_INCOME_CATEGORIES ;;
         expenses <- mapM withGeneratedId DEFAULT_EXPENSE_CATEGORIES ;;
         saveCategories (incomes ++ expenses) ;;;
         saveSettings defaultSettings ;;;
         AsyncStorage.setItem INITIALIZED "true"%string
       else ret tt)
  catch (fun _ => ret tt).

Definition clearAll : Promise unit :=
  try (AsyncStorage.multiRemove
         [a_key TRANSACTIONS; a_key CATEGORIES; a_key NOTES;
          a_key BUDGETS; a_key SETTINGS; a_key INITIALIZED])
  catch (fun e => throw e).

(** *** Analytics helpers *)

Definition getBalance : Promise Q :=
  try (transactions <- getTransactions ;;
       ret (fold_left
              (fun balance transaction =>
                 match Transaction.type transaction with
                 | income => balance + Transaction.amount transaction
                 | expense => balance - Transaction.amount transaction
                 end)%Q
              transactions 0%Q))
  catch (fun _ => ret 0%Q).

Definition getMonthlySpending (month year : Z) : Promise Q :=
  try (transactions <- getTransactions ;;
       ret (fold_left (fun total t => total + Transaction.amount t)%Q
              (filter (fun t =>
                         let date := Transaction.date t in
                         TransactionType_eqb (Transaction.type t) expense
                         && (JSDate.getMonth date =? month)
                         && (JSDate.getFullYear date =? year))
                      transactions)
              0%Q))
  catch (fun _ => ret 0%Q).


End DatabaseService.

(* ------------------------------------------------------------------ *)
(** ** Comparisons and containers of the JavaScript side *)

(** [a >= b], [a > b] and [a || 0] on numbers. *)
Definition num_ge (a b : Q) : bool := Qle_bool b a.
Definition num_gt (a b : Q) : bool := negb (Qle_bool a b).
Definition or_zero (o : option Q) : Q :=
  match o with
  | Some v => if Qeq_bool v 0 then 0%Q else v
  | None => 0%Q
  end.

(** [l.reduce((sum, t) => sum + f(t), 0)]. *)
Definition reduce_sum {A} (f : A -> Q) (l : list A) : Q :=
  fold_left (fun sum t => sum + f t)%Q l 0%Q.

(** ** The arithmetic of doubles

    A JavaScript number is an IEEE 754 double (binary64).  A finite double
    is a rational, and an operation on doubles returns the double nearest
    to the exact result, the one whose last place is even when two are
    equally near.  A double has 53 significant bits and no place below
    2^-1074.  Results of magnitude 2^1024 and more, which are [Infinity]
    in JavaScript, stay finite here, zero has no sign, and a division by
    zero gives 0; the code divides amounts by positive numbers only. *)
Module Double.

Definition pow2 (e : Z) : Q := (2 ^ e)%Q.

(** [floor (log2 q)] for a positive [q]. *)
Definition ilog2 (q : Q) : Z :=
  let k := Z.log2 (Qnum q) - Z.log2 (Zpos (Qden q)) in
  if Qle_bool (pow2 k) q then k else k - 1.

(** The exponent of the last place of the doubles next to [q]. *)
Definition ulp_exponent (q : Q) : Z := Z.max (ilog2 (Qabs q) - 52) (-1074).

(** The integer nearest to [q], the even one of the two when [q] lies
    halfway between them. *)
Definition nearest_even (q : Q) : Z :=
  let f := Qfloor q in
  match (q - inject_Z f ?= 1 # 2)%Q with
  | Lt => f
  | Gt => f + 1
  | Eq => if Z.even f then f else f + 1
  end.

(** The double nearest to [q]. *)
Definition round (q : Q) : Q :=
  let q := Qred q in
  if Qeq_bool q 0 then 0%Q
  else
    let e := ulp_exponent q in
    Qred (inject_Z (nearest_even (q / pow2 e)) * pow2 e).

(** [a + b], [a - b], [a * b] and [a / b] on doubles. *)
Definition add (a b : Q) : Q := round (a + b).
Definition sub (a b : Q) : Q := round (a - b).
Definition mul (a b : Q) : Q := round (a * b).
Definition div (a b : Q) : Q := round (a / b).

(** A decimal number of the source text ([0.8]) or of a stored text, as
    the double it is read as. *)
Definition number (decimal : Q) : Q := round decimal.

(** [l.reduce((sum, t) => sum + f(t), 0)] on doubles. *)
Definition reduce_sum {A} (f : A -> Q) (l : list A) : Q :=
  fold_left (fun sum t => add sum (f t)) l 0%Q.

End Double.

(** The doubles of the machine, to compare [Double] with: the value of a
    finite double as a rational, and the double nearest to the quotient of
    two integers below 2^53. *)
Module Machine.

Definition value (x : PrimFloat.float) : option Q :=
  match FloatOps.Prim2SF x with
  | SpecFloat.S754_zero _ => Some 0%Q
  | SpecFloat.S754_finite s m e =>
      Some (Qred ((if s then -1 else 1) * inject_Z (Zpos m) * 2 ^ e)%Q)
  | _ => None
  end.

Definition of_Z (z : Z) : PrimFloat.float :=
  match z with
  | Z0 => PrimFloat.zero
  | Zpos _ => PrimFloat.of_uint63 (Uint63.of_Z z)
  | Zneg p => PrimFloat.opp (PrimFloat.of_uint63 (Uint63.of_Z (Zpos p)))
  end.

Definition number (decimal : Q) : PrimFloat.float :=
  PrimFloat.div (of_Z (Qnum decimal)) (of_Z (Zpos (Qden decimal))).

(** The four operations of the machine on [x] and [y] give the values
    [Double] gives on the values of [x] and [y], wherever the machine's
    result is finite. *)
Definition agrees (x y : PrimFloat.float) : bool :=
  match value x, value y with
  | Some a, Some b =>
      let same r v := match value r with Some u => Qeq_bool u v | None => true end in
      same (PrimFloat.add x y) (Double.add a b)
      && same (PrimFloat.sub x y) (Double.sub a b)
      && same (PrimFloat.mul x y) (Double.mul a b)
      && same (PrimFloat.div x y) (Double.div a b)
  | _, _ => true
  end.

End Machine.

(** A [Map<string, number>]: the entries in insertion order. *)
Module JSMap.
Definition t := list (string * Q).

Fixpoint get (k : string) (m : t) : option Q :=
  match m with
  | [] => None
  | (k', v) :: m' => if String.eqb k' k then Some v else get k m'
  end.

(** [m.set(k, v)]: an existing key keeps its place, a new one goes last. *)
Fixpoint set (k : string) (v : Q) (m : t) : t :=
  match m with
  | [] => [(k, v)]
  | (k', v') :: m' =>
      if String.eqb k' k then (k', v) :: m' else (k', v') :: set k v m'
  end.
End JSMap.

(** [array.sort(compare)]: the sort is stable, so for a comparator that
    orders its arguments consistently the result is the one stable
    insertion gives: each element goes in front of the first one it does
    not have to follow. *)
Module JSArray.
Section Sort.
Context {A : Type} (compare : A -> A -> Q).

Fixpoint insert (x : A) (l : list A) : list A :=
  match l with
  | [] => [x]
  | y :: l' => if Qle_bool (compare x y) 0 then x :: y :: l' else y :: insert x l'
  end.

Definition sort (l : list A) : list A := fold_right insert [] l.
End Sort.
End JSArray.

(* ------------------------------------------------------------------ *)
(** ** The reports screen ([reports.tsx]) *)

Inductive PeriodType := week | month | year.

Module CategoryData.
Record t := mk {
  name : string;
  amount : Q;
  color : string;
  percentage : Q
}.
End CategoryData.

Module MonthlyData.
Record t := mk {
  month : string;
  income : Q;
  expenses : Q
}.
End MonthlyData.

Module Reports.

(** [calculateAnalytics] closes over the screen's [period] and reads the
    clock once on entry ([const now = new Date()]); both are arguments
    here.  [loadData] calls it on whatever the reads returned, the effect
    hook only when both lists are non-empty.

    The values it hands to the state setters: *)
Record Analytics := mkAnalytics {
  totalIncome : Q;
  totalExpenses : Q;
  categoryData : list CategoryData.t;
  topCategories : list CategoryData.t;
  monthlyData : list MonthlyData.t
}.

Definition is_type (ty : TransactionType) (t : Transaction.t) : bool :=
  TransactionType_eqb (Transaction.type t) ty.

(** [transactionDate >= lo && transactionDate <= hi] *)
Definition between (lo hi : Z) (t : Transaction.t) : bool :=
  (lo <=? Transaction.date t) && (Transaction.date t <=? hi).

Definition startDate (period : PeriodType) (now : Z) : Z :=
  match period with
  | week => now - 7 * 24 * 60 * 60 * 1000
  | month => JSDate.ymd (JSDate.getFullYear now) (JSDate.getMonth now) 1
  | year => JSDate.ymd (JSDate.getFullYear now) 0 1
  end.

Definition periodTransactions (period : PeriodType) (now : Z)
    (allTransactions : list Transaction.t) : list Transaction.t :=
  filter (between (startDate period now) now) allTransactions.

(** The [forEach] filling the [categoryBreakdown] map. *)
Definition categoryBreakdown (l : list Transaction.t) : JSMap.t :=
  fold_left
    (fun m t =>
       let current := or_zero (JSMap.get (Transaction.category t) m) in
       JSMap.set (Transaction.category t) (current + Transaction.amount t)%Q m)
    (filter (is_type expense) l) [].

(** [category?.color || '#666'] *)
Definition colorOf (allCategories : list Category.t) (categoryName : string)
  : string :=
  match find (fun c => String.eqb (Category.name c) categoryName) allCategories with
  | Some c => if is_empty (Category.color c) then "#666"%string else Category.color c
  | None => "#666"%string
  end.

Definition categoryEntry (allCategories : list Category.t) (expenses : Q)
    (e : string * Q) : CategoryData.t :=
  let (categoryName, amount) := e in
  CategoryData.mk categoryName amount (colorOf allCategories categoryName)
    (if num_gt expenses 0 then (amount / expenses) * 100 else 0)%Q.

Definition categoryDataArray (allCategories : list Category.t) (expenses : Q)
    (breakdown : JSMap.t) : list CategoryData.t :=
  JSArray.sort (fun a b => CategoryData.amount b - CategoryData.amount a)%Q
    (map (categoryEntry allCategories expenses) breakdown).

(** One pass of the monthly loop, for the month [i] months back. *)
Definition monthPoint (now : Z) (allTransactions : list Transaction.t) (i : Z)
  : MonthlyData.t :=
  let date := JSDate.ymd (JSDate.getFullYear now) (JSDate.getMonth now - i) 1 in
  let monthStart := JSDate.ymd (JSDate.getFullYear date) (JSDate.getMonth date) 1 in
  let monthEnd := JSDate.ymd (JSDate.getFullYear date) (JSDate.getMonth date + 1) 0 in
  let monthTransactions := filter (between monthStart monthEnd) allTransactions in
  let monthIncome :=
    reduce_sum Transaction.amount (filter (is_type income) monthTransactions) in
  let monthExpenses :=
    reduce_sum Transaction.amount (filter (is_type expense) monthTransactions) in
  MonthlyData.mk (JSDate.monthShort date) monthIncome monthExpenses.

(** [for (let i = n; i >= 0; i--) monthlyTrend.push(...)] *)
Fixpoint monthlyLoop (now : Z) (allTransactions : list Transaction.t)
    (i : nat) (monthlyTrend : list MonthlyData.t) : list MonthlyData.t :=
  let pushed := monthlyTrend ++ [monthPoint now allTransactions (Z.of_nat i)] in
  match i with
  | O => pushed
  | S i' => monthlyLoop now allTransactions i' pushed
  end.

Definition monthlyTrend (now : Z) (allTransactions : list Transaction.t)
  : list MonthlyData.t :=
  monthlyLoop now allTransactions 5 [].

Definition calculateAnalytics (period : PeriodType) (now : Z)
    (allTransactions : list Transaction.t) (allCategories : list Category.t)
  : Analytics :=
  let inPeriod := periodTransactions period now allTransactions in
  let incomeSum := reduce_sum Transaction.amount (filter (is_type income) inPeriod) in
  let expenses := reduce_sum Transaction.amount (filter (is_type expense) inPeriod) in
  let data := categoryDataArray allCategories expenses (categoryBreakdown inPeriod) in
  mkAnalytics incomeSum expenses data (firstn 5 data)
    (monthlyTrend now allTransactions).

End Reports.

(* ------------------------------------------------------------------ *)
(** ** [getBalance] and [calculateAnalytics] in the arithmetic of doubles

    The same functions with every operation on amounts rounded as the
    platform rounds it. *)

Module Binary64.

(** [t.amount] and [c.budgetLimit] as the code has them in hand: the
    doubles read from the stored text. *)
Definition amount (t : Transaction.t) : Q := Double.number (Transaction.amount t).
Definition budgetLimit (c : Category.t) : Q := Double.number (Category.budgetLimit c).

Definition getBalance : Promise Q :=
  try (transactions <- DatabaseService.getTransactions ;;
       ret (fold_left
              (fun balance transaction =>
                 match Transaction.type transaction with
                 | income => Double.add balance (amount transaction)
                 | expense => Double.sub balance (amount transaction)
                 end)
              transactions 0%Q))
  catch (fun _ => ret 0%Q).

(** The [forEach] filling the [categoryBreakdown] map. *)
Definition categoryBreakdown (l : list Transaction.t) : JSMap.t :=
  fold_left
    (fun m t =>
       let current := or_zero (JSMap.get (Transaction.category t) m) in
       JSMap.set (Transaction.category t) (Double.add current (amount t)) m)
    (filter (Reports.is_type expense) l) [].

Definition categoryEntry (allCategories : list Category.t) (expenses : Q)
    (e : string * Q) : CategoryData.t :=
  let (categoryName, amount) := e in
  CategoryData.mk categoryName amount (Reports.colorOf allCategories categoryName)
    (if num_gt expenses 0 then Double.mul (Double.div amount expenses) 100 else 0%Q).

Definition categoryDataArray (allCategories : list Category.t) (expenses : Q)
    (breakdown : JSMap.t) : list CategoryData.t :=
  JSArray.sort (fun a b => Double.sub (CategoryData.amount b) (CategoryData.amount a))
    (map (categoryEntry allCategories expenses) breakdown).

Definition monthPoint (now : Z) (allTransactions : list Transaction.t) (i : Z)
  : MonthlyData.t :=
  let date := JSDate.ymd (JSDate.getFullYear now) (JSDate.getMonth now - i) 1 in
  let monthStart := JSDate.ymd (JSDate.getFullYear date) (JSDate.getMonth date) 1 in
  let monthEnd := JSDate.ymd (JSDate.getFullYear date) (JSDate.getMonth date + 1) 0 in
  let monthTransactions :=
    filter (Reports.between monthStart monthEnd) allTransactions in
  let monthIncome :=
    Double.reduce_sum amount (filter (Reports.is_type income) monthTransactions) in
  let monthExpenses :=
    Double.reduce_sum amount (filter (Reports.is_type expense) monthTransactions) in
  MonthlyData.mk (JSDate.monthShort date) monthIncome monthExpenses.

Fixpoint monthlyLoop (now : Z) (allTransactions : list Transaction.t)
    (i : nat) (monthlyTrend : list MonthlyData.t) : list MonthlyData.t :=
  let pushed := monthlyTrend ++ [monthPoint now allTransactions (Z.of_nat i)] in
  match i with
  | O => pushed
  | S i' => monthlyLoop now allTransactions i' pushed
  end.

Definition calculateAnalytics (period : PeriodType) (now : Z)
    (allTransactions : list Transaction.t) (allCategories : list Category.t)
  : Reports.Analytics :=
  let inPeriod := Reports.periodTransactions period now allTransactions in
  let incomeSum :=
    Double.reduce_sum amount (filter (Reports.is_type income) inPeriod) in
  let expenses :=
    Double.reduce_sum amount (filter (Reports.is_type expense) inPeriod) in
  let data := categoryDataArray allCategories expenses (categoryBreakdown inPeriod) in
  Reports.mkAnalytics incomeSum expenses data (firstn 5 data)
    (monthlyLoop now allTransactions 5 []).

End Binary64.

(* ------------------------------------------------------------------ *)
(** ** [NotificationService] ([notificationService.ts])

    The thresholds of the budget check are tests on computed doubles, so
    the arithmetic here is the one of [Double]. *)

Module NotificationService.

(** [settings?.flag]: falsy when there are no settings. *)
Definition flag (f : AppSettings.t -> bool) (settings : option AppSettings.t)
  : bool :=
  match settings with Some s => f s | None => false end.

Definition scheduleBudgetAlert (categoryName : string)
    (currentSpent budgetLimit : Q) : Promise unit :=
  try (settings <- DatabaseService.getSettings ;;
       if negb (flag AppSettings.notificationsEnabled settings)
          || negb (flag AppSettings.budgetAlerts settings)
       then ret tt
       else
         let percentage := Double.mul (Double.div currentSpent budgetLimit) 100 in
         let title :=
           if num_ge percentage 100 then Some BudgetExceeded
           else if num_ge percentage 80 then Some BudgetWarning
           else None in
         match title with
         | Some t =>
             Notifications.scheduleNotificationAsync
               (mkNotification t categoryName currentSpent budgetLimit)
         | None => ret tt
         end)
  catch (fun _ => ret tt).

(** The filter and sum inside the loop of [checkBudgetAlerts]. *)
Definition monthlySpent (transactions : list Transaction.t)
    (category : Category.t) (currentMonth currentYear : Z) : Q :=
  Double.reduce_sum Binary64.amount
    (filter (fun t =>
               let transactionDate := Transaction.date t in
               TransactionType_eqb (Transaction.type t) expense
               && String.eqb (Transaction.category t) (Category.name category)
               && (JSDate.getMonth transactionDate =? currentMonth)
               && (JSDate.getFullYear transactionDate =? currentYear))
            transactions).

Definition checkBudgetAlerts : Promise unit :=
  try (transactions <- DatabaseService.getTransactions ;;
       categories <- DatabaseService.getCategories ;;
       budgets <- DatabaseService.getBudgets ;;
       currentDate <- new_Date ;;
       let currentMonth := JSDate.getMonth currentDate in
       let currentYear := JSDate.getFullYear currentDate in
       for_of categories (fun category =>
         if num_gt (Binary64.budgetLimit category) 0 then
           let spent := monthlySpent transactions category currentMonth currentYear in
           if num_ge spent
                (Double.mul (Binary64.budgetLimit category) (Double.number (8 # 10)))
           then
             scheduleBudgetAlert (Category.name category) spent
               (Binary64.budgetLimit category)
           else ret tt
         else ret tt))
  catch (fun _ => ret tt).

End NotificationService.

(* ================================================================== *)
(** * Vocabulary of the statements *)

(** The coming request is rejected. *)
Definition rejected (w : World) : bool :=
  match rejections w with
  | true :: _ => true
  | _ => false
  end.

(** The world once the platform has taken a request. *)
Definition served (w : World) : World := with_rejections (tl (rejections w)) w.

(** No request is rejected from here on. *)
Definition calm (w : World) : bool := forallb negb (rejections w).

(** What a list read makes of a slot. *)
Definition listed {A} (slot : option (text (list A))) : list A :=
  match slot with
  | Some (Json l) => l
  | _ => []
  end.

(** What [getSettings] makes of its slot. *)
Definition settled (slot : option (text AppSettings.t)) : option AppSettings.t :=
  match slot with
  | Some (Json s) => Some s
  | _ => None
  end.

Definition emptyStore : Store := mkStore None None None None None None.

(** The world once the clock has been read. *)
Definition ticked (w : World) : World :=
  match ticks w with
  | d :: ts => with_clock (now w + d) ts w
  | [] => w
  end.

(** The world once an identifier has been generated. *)
Definition drawn (w : World) : World :=
  match randoms (ticked w) with
  | r :: rs => with_randoms rs (ticked w)
  | [] => ticked w
  end.

(** [new] is [old] with the fields named in [updates] replaced and
    [updatedAt] set to [stamp]. *)
Definition patched (old : Transaction.t) (updates : Transaction.partial)
    (stamp : Z) (new : Transaction.t) : Prop :=
  Transaction.id new = or_else (Transaction.p_id updates) (Transaction.id old)
  /\ Transaction.type new = or_else (Transaction.p_type updates) (Transaction.type old)
  /\ Transaction.amount new = or_else (Transaction.p_amount updates) (Transaction.amount old)
  /\ Transaction.category new
     = or_else (Transaction.p_category updates) (Transaction.category old)
  /\ Transaction.description new
     = or_else (Transaction.p_description updates) (Transaction.description old)
  /\ Transaction.notes new = or_else (Transaction.p_notes updates) (Transaction.notes old)
  /\ Transaction.photos new = or_else (Transaction.p_photos updates) (Transaction.photos old)
  /\ Transaction.date new = or_else (Transaction.p_date updates) (Transaction.date old)
  /\ Transaction.tags new = or_else (Transaction.p_tags updates) (Transaction.tags old)
  /\ Transaction.createdAt new
     = or_else (Transaction.p_createdAt updates) (Transaction.createdAt old)
  /\ Transaction.updatedAt new = stamp.

(** ** Sample data *)

Module Sample.

(** 15 March 2024, 10:00. *)
Definition morning : Z := JSDate.ymdhm 2024 2 15 10 0.

Definition tx (id : string) (ty : TransactionType) (amount : Q)
    (category : string) (date : Z) : Transaction.t :=
  Transaction.mk id ty amount category EmptyString EmptyString [] date [] date date.

Definition lunch : Transaction.t := tx "a" expense 50 "Food" (JSDate.ymdhm 2024 2 3 13 0).
Definition dinner : Transaction.t := tx "b" expense 30 "Food" (JSDate.ymdhm 2024 2 4 20 0).
Definition salary : Transaction.t := tx "c" income 1000 "Salary" (JSDate.ymdhm 2024 2 1 9 0).

Definition ledger : list Transaction.t := [lunch; dinner; salary].

Definition food : Category.t := Category.mk "k1" "Food" expense "#dc2626" "utensils" 100.

Definition store : Store :=
  mkStore (Some (Json ledger)) (Some (Json [food])) None None
          (Some (Json DatabaseService.defaultSettings)) (Some "true"%string).

(** A world whose platform serves every request. *)
Definition world : World := mkWorld store [] morning [5; 7; 11] ["k3j9x"; "q0zz1"]%string [].

Definition coffee : Transaction.draft :=
  Transaction.mkDraft expense (7 # 2) "Food" "coffee" EmptyString [] morning
    ["daily"]%string.

(** [{ amount: 55, notes: 'with tip' }] *)
Definition tip : Transaction.partial :=
  Transaction.mkPartial None None (Some 55%Q) None None (Some "with tip"%string)
    None None None None None.

(** [{ id: 'z' }] *)
Definition rename : Transaction.partial :=
  Transaction.mkPartial (Some "z"%string) None None None None None None None None None None.

End Sample.

(** ** Outcomes *)

(** Run from [w], the computation returns [a] / throws. *)
Definition returns {A} (c : Promise A) (w : World) (a : A) : Prop := fst (c w) = Ok a.
Definition throws {A} (c : Promise A) (w : World) : Prop :=
  exists e, fst (c w) = Thrown e.

(** The sample world with a platform that rejects the coming request only. *)
Definition Sample_deaf : World := with_rejections [true] Sample.world.

(** The sample world with a platform that serves the coming request and
    rejects the one after it. *)
Definition Sample_readonly : World := with_rejections [false; true] Sample.world.

(** ** Bootstrap *)

(** A category without its id. *)
Definition withoutId (c : Category.t) : Category.draft :=
  Category.mkDraft (Category.name c) (Category.type c) (Category.color c)
    (Category.icon c) (Category.budgetLimit c).

(** The storage holds the seed: the default categories, each under some id,
    the default settings and the marker. *)
Definition seeded (s : Store) : Prop :=
  exists categories,
    categories_item s = Some (Json categories)
    /\ map withoutId categories = DEFAULT_INCOME_CATEGORIES ++ DEFAULT_EXPENSE_CATEGORIES
    /\ settings_item s = Some (Json DatabaseService.defaultSettings)
    /\ initialized_item s = Some "true"%string.

(** The sample world after the user has deleted every category. *)
Definition Sample_emptied : World :=
  with_storage (put STORAGE_KEYS.CATEGORIES (Some (Json [])) Sample.store) Sample.world.

(** A first run: nothing stored yet. *)
Definition Sample_fresh : World := with_storage emptyStore Sample.world.

(** ** Sums *)

(** The sum of the amounts of the transactions of one type. *)
Definition sumOf (ty : TransactionType) (T : list Transaction.t) : Q :=
  fold_right Qplus 0%Q (map Transaction.amount (filter (Reports.is_type ty) T)).


(** ** Monthly trend *)

(** An expense entered at noon on 29 February 2024, the last day of its
    month. *)
Definition Sample_leapDayTea : Transaction.t :=
  Sample.tx "e" expense 7 "Fun" (JSDate.ymdhm 2024 1 29 12 0).

Definition Sample_leapWorld : World :=
  with_storage
    (put STORAGE_KEYS.TRANSACTIONS (Some (Json [Sample_leapDayTea])) Sample.store)
    Sample.world.

(** A trend point as a triple. *)
Definition pointOf (p : MonthlyData.t) : string * Q * Q :=
  (MonthlyData.month p, MonthlyData.income p, MonthlyData.expenses p).

(** ** Doubles *)


(** The amounts of [l] added one by one in list order, from 0, each
    addition rounded to a double: the sum as a [reduce] of the code forms
    it. *)
Definition roundedSum (l : list Transaction.t) : Q :=
  fold_left (fun sum t => Double.add sum (Binary64.amount t)) l 0%Q.

(** The balance reached from [balance] by taking the transactions of [l]
    in order, an income added and an expense subtracted, each step rounded
    to a double. *)
Fixpoint runningBalance (balance : Q) (l : list Transaction.t) : Q :=
  match l with
  | [] => balance
  | t :: l' =>
      runningBalance
        (match Transaction.type t with
         | income => Double.add balance (Binary64.amount t)
         | expense => Double.sub balance (Binary64.amount t)
         end) l'
  end.

(** The stored amounts of [l] are whole numbers whose magnitudes add up to
    less than 2^53: every sum of some of them is a double, so no addition
    or subtraction among them is rounded. *)
Definition isWhole (q : Q) : bool := Qeq_bool (inject_Z (Qfloor q)) q.
Definition magnitude (l : list Transaction.t) : Q :=
  fold_right Qplus 0%Q (map (fun t => Qabs (Transaction.amount t)) l).
Definition wholeAmounts (l : list Transaction.t) : bool :=
  forallb (fun t => isWhole (Transaction.amount t)) l
  && negb (Qle_bool (inject_Z (2 ^ 53)) (magnitude l)).






(** ** Budget check *)

(** The transaction is dated in the calendar month of [now]. *)
Definition inMonthOf (now : Z) (t : Transaction.t) : bool :=
  (JSDate.getMonth (Transaction.date t) =? JSDate.getMonth now)
  && (JSDate.getFullYear (Transaction.date t) =? JSDate.getFullYear now).

(** The sum of the expenses of the calendar month of [now] whose category
    string is [name], added in stored order. *)
Definition spentInMonth (T : list Transaction.t) (name : string) (now : Z) : Q :=
  roundedSum
    (filter (fun t => Reports.is_type expense t
                      && String.eqb (Transaction.category t) name
                      && inMonthOf now t) T).

(** The two figures the budget check compares a sum with: the double
    computed for 80% of the limit, and the percentage the sum is computed
    to be of the limit. *)
Definition gate (limit : Q) : Q := Double.mul limit (Double.number (8 # 10)).
Definition percentageOf (spent limit : Q) : Q :=
  Double.mul (Double.div spent limit) 100.

(** The verdict of the budget check on a sum spent against a limit:
    nothing without a positive limit, below the gate or at a percentage
    below 80; a warning at a percentage from 80 to below 100; exceeded
    from 100. *)
Definition verdict (spent limit : Q) : option AlertTitle :=
  if Qlt_le_dec 0 limit then
    if Qlt_le_dec spent (gate limit) then None
    else if Qlt_le_dec (percentageOf spent limit) 80 then None
    else if Qlt_le_dec (percentageOf spent limit) 100 then Some BudgetWarning
    else Some BudgetExceeded
  else None.

(** Both notification switches are on in the stored settings. *)
Definition alertsEnabled (s : Store) : bool :=
  match settled (settings_item s) with
  | Some st => AppSettings.notificationsEnabled st && AppSettings.budgetAlerts st
  | None => false
  end.

(** The alerts the budget check owes, category by category, as
    (title, category name) pairs. *)
Definition expectedAlerts (T : list Transaction.t) (C : list Category.t) (now : Z)
  : list (AlertTitle * string) :=
  flat_map
    (fun c =>
       match verdict (spentInMonth T (Category.name c) now) (Binary64.budgetLimit c) with
       | Some t => [(t, Category.name c)]
       | None => []
       end) C.

Definition headline (n : Notification) : AlertTitle * string :=
  (title n, alert_category n).

(** The sample world with budget alerts switched off in the settings. *)
Definition Sample_muted : World :=
  with_storage
    (put STORAGE_KEYS.SETTINGS
       (Some (Json (AppSettings.mk "USD" "MM/DD/YYYY" system true false true)))
       Sample.store)
    Sample.world.

(** Seventy, eighty and ninety cents spent on food in March 2024, against
    a limit of 3 for food: 2.40 spent, which is 80% of 3. *)
Definition Sample_snacks : list Transaction.t :=
  [ Sample.tx "s1" expense (7 # 10) "Food" (JSDate.ymdhm 2024 2 3 13 0);
    Sample.tx "s2" expense (8 # 10) "Food" (JSDate.ymdhm 2024 2 4 13 0);
    Sample.tx "s3" expense (9 # 10) "Food" (JSDate.ymdhm 2024 2 5 13 0) ].

Definition Sample_smallBudget : Category.t :=
  Category.mk "k1" "Food" expense "#dc2626" "utensils" 3.

Definition Sample_snackWorld : World :=
  with_storage
    (put STORAGE_KEYS.CATEGORIES (Some (Json [Sample_smallBudget]))
       (put STORAGE_KEYS.TRANSACTIONS (Some (Json Sample_snacks)) Sample.store))
    Sample.world.

(** ** Category breakdown *)

(** The expense transactions inside the period window, in list order. *)
Definition windowExpenses (period : PeriodType) (now : Z) (T : list Transaction.t)
  : list Transaction.t :=
  filter (fun t => Reports.is_type expense t
                   && Reports.between (Reports.startDate period now) now t) T.

(** The sum of the amounts of a list of transactions. *)
Definition amountsOf (l : list Transaction.t) : Q :=
  fold_right Qplus 0%Q (map Transaction.amount l).




(** [a] may stand before [b] in the sorted breakdown. *)
Definition notSmaller (a b : CategoryData.t) : Prop :=
  (CategoryData.amount b <= CategoryData.amount a)%Q.

(** Under the comparator [compare], [a] need not follow [b]. *)
Definition precedes {A} (compare : A -> A -> Q) (a b : A) : Prop :=
  (compare a b <= 0)%Q.

(** The keys of a map and the value it holds for a key. *)
Definition keysOf (m : JSMap.t) : list string := map fst m.


(** A category whose color is the empty string. *)
Definition Sample_colorless : Category.t :=
  Category.mk "k1" "Food" expense EmptyString "utensils" 100.

(* ================================================================== *)
(** * Properties *)

(** ** The arithmetic of doubles *)

Section DoubleFacts.
Import Double.

(** [Double] against the doubles of the machine, on the decimals that
    occur in the examples below and on some others, two by two. *)
Lemma Double_agrees_with_the_machine :
  let decimals :=
    [1 # 10; 2 # 10; 3 # 10; 7 # 10; 8 # 10; 9 # 10; 11 # 10; 12 # 10; 13 # 10;
     15 # 10; 24 # 10; 3; 80; 100; 1 # 3; -5 # 7; 1234567 # 100;
     9007199254740991; 5 # 4611686018427387904]%Q in
  forallb (fun a => Qeq_bool (match Machine.value (Machine.number a) with
                               | Some v => v
                               | None => 0%Q
                               end) (number a)) decimals = true
  /\ forallb (fun a =>
                forallb (fun b => Machine.agrees (Machine.number a) (Machine.number b))
                  decimals) decimals = true.
Proof. vm_compute. split; reflexivity. Qed.

(** The figures of the examples below, computed by the machine: the two
    balances of ten, twenty and thirty cents; 0.7 + 0.8 + 0.9 against
    3 * 0.8; and 0.1 + 1.1 and 0.1 against 0.1 + 0.1 + 1.1. *)
Lemma examples_on_the_machine :
  let m := Machine.number in
  let plus := PrimFloat.add in
  let minus := PrimFloat.sub in
  let times := PrimFloat.mul in
  Machine.value (minus (plus (plus PrimFloat.zero (m (1 # 10))) (m (2 # 10))) (m (3 # 10)))
  = Some (1 # 2 ^ 54)%Q
  /\ Machine.value (plus (minus (plus PrimFloat.zero (m (1 # 10))) (m (3 # 10))) (m (2 # 10)))
     = Some (1 # 2 ^ 55)%Q
  /\ Machine.value (plus (plus (plus PrimFloat.zero (m (7 # 10))) (m (8 # 10))) (m (9 # 10)))
     = Some (number (24 # 10))
  /\ Machine.value (times (m 3%Q) (m (8 # 10))) = Some (gate (number 3%Q))
  /\ PrimFloat.ltb
       (plus (plus (plus PrimFloat.zero (m (7 # 10))) (m (8 # 10))) (m (9 # 10)))
       (times (m 3%Q) (m (8 # 10))) = true
  /\ Machine.value (plus (plus PrimFloat.zero (m (1 # 10))) (m (11 # 10)))
     = Some (add (number (1 # 10)) (number (11 # 10)))
  /\ Machine.value (plus (plus (plus PrimFloat.zero (m (1 # 10))) (m (1 # 10))) (m (11 # 10)))
     = Some (number (13 # 10))
  /\ PrimFloat.ltb
       (plus (plus (plus PrimFloat.zero (m (1 # 10))) (m (1 # 10))) (m (11 # 10)))
       (plus (plus (plus PrimFloat.zero (m (1 # 10))) (m (11 # 10))) (m (1 # 10)))
     = true.
Proof. vm_compute. repeat split. Qed.

Lemma pow2_pos (e : Z) : (0 < pow2 e)%Q.
Proof. apply Qpower_0_lt. reflexivity. Qed.

Lemma pow2_plus (a b : Z) : (pow2 (a + b) == pow2 a * pow2 b)%Q.
Proof. apply Qpower_plus. discriminate. Qed.


Lemma pow2_Z (n : Z) : 0 <= n -> (pow2 n == inject_Z (2 ^ n))%Q.
Proof. intros H. unfold pow2. rewrite Zpower_Qpower by exact H. reflexivity. Qed.

Lemma round_compat (q q' : Q) : (q == q')%Q -> round q = round q'.
Proof. intros E. unfold round. rewrite (Qred_complete _ _ E). reflexivity. Qed.

Lemma pow2_ilog2_le (q : Q) : (0 < q)%Q -> (pow2 (ilog2 q) <= q)%Q.
Proof.
  intros Hq. unfold ilog2. cbv zeta.
  destruct (Qle_bool (pow2 (Z.log2 (Qnum q) - Z.log2 (Z.pos (Qden q)))) q) eqn:E.
  - apply Qle_bool_iff, E.
  - clear E. destruct q as [n d]. simpl Qnum in *. simpl Qden in *.
    assert (Hn : 0 < n) by (unfold Qlt in Hq; simpl in Hq; lia).
    set (a := Z.log2 n). set (b := Z.log2 (Z.pos d)).
    assert (Ha : 0 <= a) by apply Z.log2_nonneg.
    assert (Hb : 0 <= b) by apply Z.log2_nonneg.
    assert (La : 2 ^ a <= n) by (apply Z.log2_spec; exact Hn).
    assert (Lb : Z.pos d < 2 ^ (b + 1)).
    { replace (b + 1) with (Z.succ b) by lia. apply Z.log2_spec. lia. }
    replace (a - b - 1) with (a + - (b + 1)) by lia.
    rewrite pow2_plus. unfold pow2 at 2. rewrite Qpower_opp.
    fold (pow2 (b + 1)). rewrite !pow2_Z by lia.
    assert (P : 0 < 2 ^ (b + 1)) by (apply Z.pow_pos_nonneg; lia).
    rewrite (Qmake_Qdiv n d).
    assert (PQ : (0 < inject_Z (2 ^ (b + 1)))%Q) by (unfold Qlt; simpl; lia).
    assert (DQ : (0 < inject_Z (Z.pos d))%Q) by (unfold Qlt; simpl; lia).
    apply Qle_shift_div_l; [exact DQ|].
    apply (Qmult_le_r _ _ _ PQ).
    setoid_replace (inject_Z (2 ^ a) * / inject_Z (2 ^ (b + 1)) * inject_Z (Z.pos d)
                    * inject_Z (2 ^ (b + 1)))%Q
      with (inject_Z (2 ^ a) * inject_Z (Z.pos d))%Q
      by (field; intros H; rewrite H in PQ; exact (Qlt_irrefl 0 PQ)).
    rewrite <- !inject_Z_mult, <- Zle_Qle.
    assert (0 < 2 ^ a) by (apply Z.pow_pos_nonneg; lia). nia.
Qed.

Lemma ilog2_lt (q : Q) (k : Z) : (0 < q)%Q -> (q < pow2 k)%Q -> ilog2 q < k.
Proof.
  intros Hq Hk. pose proof (pow2_ilog2_le q Hq) as L.
  apply (Qpower_lt_compat_l_inv 2); [|reflexivity].
  eapply Qle_lt_trans; [exact L | exact Hk].
Qed.

Lemma nearest_even_whole (z : Z) (q : Q) : (q == inject_Z z)%Q -> nearest_even q = z.
Proof.
  intros E. unfold nearest_even. cbv zeta.
  assert (F : Qfloor q = z) by (rewrite E; apply Qfloor_Z).
  rewrite F.
  assert (C : (q - inject_Z z ?= 1 # 2)%Q = Lt).
  { rewrite <- Qlt_alt. rewrite E. lra. }
  rewrite C. reflexivity.
Qed.

Lemma nearest_even_ge (q : Q) : (Qfloor q <= nearest_even q)%Z.
Proof.
  unfold nearest_even. cbv zeta.
  destruct (q - inject_Z (Qfloor q) ?= 1 # 2)%Q; [destruct (Z.even _)|..]; lia.
Qed.


Lemma nearest_even_nonneg (q : Q) : (0 <= q)%Q -> 0 <= nearest_even q.
Proof.
  intros H. pose proof (nearest_even_ge q) as G.
  assert (0 <= Qfloor q); [|lia].
  change 0 with (Qfloor 0). apply Qfloor_resp_le, H.
Qed.

Lemma round_zero (q : Q) : (q == 0)%Q -> round q = 0%Q.
Proof.
  intros E. unfold round. cbv zeta.
  assert (Qeq_bool (Qred q) 0 = true) as ->; [|reflexivity].
  apply Qeq_bool_iff. rewrite Qred_correct. exact E.
Qed.

Lemma round_cases (q : Q) :
  ((q == 0)%Q /\ round q = 0%Q)
  \/ (~ (q == 0)%Q
      /\ exists r, (r == q)%Q
           /\ (round q
               == inject_Z (nearest_even (r / pow2 (ulp_exponent r)))
                  * pow2 (ulp_exponent r))%Q).
Proof.
  destruct (Qeq_dec q 0) as [Z|N]; [left; split; [exact Z | apply round_zero, Z]|].
  right. split; [exact N|]. exists (Qred q). split; [apply Qred_correct|].
  unfold round. cbv zeta.
  assert (Qeq_bool (Qred q) 0 = false) as ->.
  { apply not_true_is_false. rewrite Qeq_bool_iff, Qred_correct. exact N. }
  apply Qred_correct.
Qed.

Lemma ulp_exponent_ge (q : Q) : -1074 <= ulp_exponent q.
Proof. unfold ulp_exponent. lia. Qed.


Lemma round_nonneg (q : Q) : (0 <= q)%Q -> (0 <= round q)%Q.
Proof.
  intros H. destruct (round_cases q) as [[_ ->] | (_ & r & E & ->)]; [lra|].
  pose proof (pow2_pos (ulp_exponent r)) as P.
  assert (N : 0 <= nearest_even (r / pow2 (ulp_exponent r))).
  { assert (Hr : (0 <= r)%Q) by (rewrite E; exact H).
    apply nearest_even_nonneg.
    apply Qle_shift_div_l; [exact P | lra]. }
  rewrite Zle_Qle in N. change (inject_Z 0) with 0%Q in N. nra.
Qed.





(** Whole numbers below 2^53 in magnitude are doubles. *)
Lemma round_whole (q : Q) (z : Z) :
  (q == inject_Z z)%Q -> Z.abs z < 2 ^ 53 -> (round q == inject_Z z)%Q.
Proof.
  intros E B. destruct (round_cases q) as [[Z ->] | (N & r & Er & ->)].
  - rewrite <- E, Z. reflexivity.
  - assert (Ez : (r == inject_Z z)%Q) by (rewrite Er; exact E).
    assert (Hz : z <> 0) by (intros ->; apply N; rewrite E; reflexivity).
    set (e := ulp_exponent r).
    assert (He : -1074 <= e <= 0).
    { split; [apply ulp_exponent_ge|]. unfold e, ulp_exponent.
      assert (ilog2 (Qabs r) < 53); [|lia].
      assert (A : (Qabs r == inject_Z (Z.abs z))%Q)
        by (rewrite Ez; reflexivity).
      apply ilog2_lt.
      - rewrite A. change 0%Q with (inject_Z 0). rewrite <- Zlt_Qlt. lia.
      - rewrite pow2_Z by lia. rewrite A, <- Zlt_Qlt. exact B. }
    assert (W : (r / pow2 e == inject_Z (z * 2 ^ (- e)))%Q).
    { rewrite Ez, inject_Z_mult, <- pow2_Z by lia.
      unfold pow2. rewrite Qpower_opp. reflexivity. }
    rewrite (nearest_even_whole _ _ W), inject_Z_mult, <- pow2_Z by lia.
    rewrite <- Qmult_assoc, <- pow2_plus.
    replace (- e + e) with 0 by lia. unfold pow2. simpl. ring.
Qed.


(** One step of a sum of whole numbers is not rounded. *)
Lemma whole_step (b a : Q) (zb za : Z) :
  (b == inject_Z zb)%Q -> (a == inject_Z za)%Q ->
  (Qabs b + Qabs a < inject_Z (2 ^ 53))%Q ->
  (add b (number a) == b + a)%Q /\ (sub b (number a) == b - a)%Q.
Proof.
  intros Eb Ea B.
  assert (Ba : (Qabs a < inject_Z (2 ^ 53))%Q).
  { pose proof (Qabs_nonneg b). lra. }
  assert (Na : (number a == a)%Q).
  { unfold number. rewrite (round_whole a za Ea); [symmetry; exact Ea|].
    rewrite Ea in Ba. change (Qabs (inject_Z za)) with (inject_Z (Z.abs za)) in Ba.
    rewrite <- Zlt_Qlt in Ba. exact Ba. }
  unfold add, sub. split.
  - rewrite (round_compat _ (b + a)) by (rewrite Na; reflexivity).
    rewrite (round_whole (b + a) (zb + za)).
    + rewrite inject_Z_plus, Eb, Ea. reflexivity.
    + rewrite inject_Z_plus, Eb, Ea. reflexivity.
    + pose proof (Qabs_triangle b a) as T.
      assert (L : (Qabs (b + a) < inject_Z (2 ^ 53))%Q) by lra.
      assert (E : (b + a == inject_Z (zb + za))%Q)
        by (rewrite inject_Z_plus, Eb, Ea; reflexivity).
      rewrite E in L. change (Qabs (inject_Z (zb + za))) with (inject_Z (Z.abs (zb + za))) in L.
      rewrite <- Zlt_Qlt in L. exact L.
  - rewrite (round_compat _ (b - a)) by (rewrite Na; reflexivity).
    rewrite (round_whole (b - a) (zb - za)).
    + unfold Z.sub, Qminus. rewrite inject_Z_plus, inject_Z_opp, Eb, Ea. reflexivity.
    + unfold Z.sub, Qminus. rewrite inject_Z_plus, inject_Z_opp, Eb, Ea. reflexivity.
    + pose proof (Qabs_triangle b (- a)) as T. rewrite Qabs_opp in T.
      assert (L : (Qabs (b - a) < inject_Z (2 ^ 53))%Q) by (unfold Qminus; lra).
      assert (E : (b - a == inject_Z (zb - za))%Q).
      { unfold Z.sub, Qminus. rewrite inject_Z_plus, inject_Z_opp, Eb, Ea. reflexivity. }
      rewrite E in L. change (Qabs (inject_Z (zb - za))) with (inject_Z (Z.abs (zb - za))) in L.
      rewrite <- Zlt_Qlt in L. exact L.
Qed.

Lemma isWhole_spec (q : Q) : isWhole q = true -> exists z, (q == inject_Z z)%Q.
Proof.
  unfold isWhole. intros H. apply Qeq_bool_iff in H.
  exists (Qfloor q). symmetry. exact H.
Qed.



End DoubleFacts.

(** ** The platform *)

Lemma with_rejections_same (w : World) : with_rejections (rejections w) w = w.
Proof. destruct w; reflexivity. Qed.

Lemma request_eq {A} (f : World -> A * World) (w : World) :
  request f w =
  if rejected w then (Thrown MediumError, served w)
  else (Ok (fst (f (served w))), snd (f (served w))).
Proof.
  unfold request, rejected, served.
  destruct (rejections w) as [|[|] rs] eqn:E; simpl.
  - rewrite <- E, with_rejections_same. destruct (f w); reflexivity.
  - reflexivity.
  - destruct (f (with_rejections rs w)); reflexivity.
Qed.

Lemma getItem_eq {V} (k : key V) (w : World) :
  AsyncStorage.getItem k w =
  if rejected w then (Thrown MediumError, served w)
  else (Ok (item k (storage w)), served w).
Proof. unfold AsyncStorage.getItem. rewrite request_eq. reflexivity. Qed.

Lemma setItem_eq {V} (k : key V) (v : V) (w : World) :
  AsyncStorage.setItem k v w =
  if rejected w then (Thrown MediumError, served w)
  else (Ok tt, with_storage (put k (Some v) (storage w)) (served w)).
Proof. unfold AsyncStorage.setItem. rewrite request_eq. reflexivity. Qed.

Lemma calm_rejected (w : World) : calm w = true -> rejected w = false.
Proof.
  unfold calm, rejected. destruct (rejections w) as [|[|] rs]; simpl; congruence.
Qed.

Lemma calm_served (w : World) : calm w = true -> calm (served w) = true.
Proof.
  unfold calm, served. destruct (rejections w) as [|[|] rs]; simpl; congruence.
Qed.

Lemma calm_with_storage (s : Store) (w : World) :
  calm (with_storage s w) = calm w.
Proof. reflexivity. Qed.


Lemma new_Date_eq (w : World) : new_Date w = (Ok (now w), ticked w).
Proof. reflexivity. Qed.

Lemma storage_ticked (w : World) : storage (ticked w) = storage w.
Proof. unfold ticked. destruct (ticks w); reflexivity. Qed.

Lemma rejections_ticked (w : World) : rejections (ticked w) = rejections w.
Proof. unfold ticked. destruct (ticks w); reflexivity. Qed.

Lemma scheduled_ticked (w : World) : scheduled (ticked w) = scheduled w.
Proof. unfold ticked. destruct (ticks w); reflexivity. Qed.

Lemma rejected_ticked (w : World) : rejected (ticked w) = rejected w.
Proof. unfold rejected. rewrite rejections_ticked. reflexivity. Qed.

Lemma calm_ticked (w : World) : calm (ticked w) = calm w.
Proof. unfold calm. rewrite rejections_ticked. reflexivity. Qed.

(** The clock reading after the coming one. *)
Lemma now_ticked (w : World) : now (ticked w) = now w + hd 0 (ticks w).
Proof. unfold ticked. destruct (ticks w); simpl; lia. Qed.

Lemma storage_drawn (w : World) : storage (drawn w) = storage w.
Proof. unfold drawn. destruct (randoms _); simpl; apply storage_ticked. Qed.

Lemma rejections_drawn (w : World) : rejections (drawn w) = rejections w.
Proof. unfold drawn. destruct (randoms _); simpl; apply rejections_ticked. Qed.

Lemma scheduled_drawn (w : World) : scheduled (drawn w) = scheduled w.
Proof. unfold drawn. destruct (randoms _); simpl; apply scheduled_ticked. Qed.

Lemma rejected_drawn (w : World) : rejected (drawn w) = rejected w.
Proof. unfold rejected. rewrite rejections_drawn. reflexivity. Qed.

Lemma calm_drawn (w : World) : calm (drawn w) = calm w.
Proof. unfold calm. rewrite rejections_drawn. reflexivity. Qed.

Lemma now_drawn (w : World) : now (drawn w) = now w + hd 0 (ticks w).
Proof. unfold drawn. destruct (randoms _); simpl; apply now_ticked. Qed.

Lemma ticks_drawn (w : World) : ticks (drawn w) = tl (ticks w).
Proof.
  unfold drawn. destruct (randoms _); simpl; unfold ticked;
    destruct (ticks w) eqn:E; simpl; auto.
Qed.

Lemma randoms_ticked (w : World) : randoms (ticked w) = randoms w.
Proof. unfold ticked. destruct (ticks w); reflexivity. Qed.

Lemma generateId_eq (w : World) :
  DatabaseService.generateId w
  = (Ok (Base36.toString36 (now w) ++ hd EmptyString (randoms w))%string, drawn w).
Proof.
  unfold DatabaseService.generateId, bind, Math_random_digits, ret, drawn.
  rewrite new_Date_eq, randoms_ticked. destruct (randoms w); reflexivity.
Qed.

Lemma storage_served (w : World) : storage (served w) = storage w.
Proof. reflexivity. Qed.

(** ** The list reads *)

Section Reads.
Import DatabaseService.

Lemma getTransactions_eq (w : World) :
  getTransactions w
  = (Ok (if rejected w then [] else listed (transactions_item (storage w))),
     served w).
Proof.
  unfold getTransactions, try_catch, bind. rewrite getItem_eq.
  destruct (rejected w); [reflexivity|]. simpl.
  destruct (transactions_item (storage w)) as [[| |l]|]; reflexivity.
Qed.

Lemma getCategories_eq (w : World) :
  getCategories w
  = (Ok (if rejected w then [] else listed (categories_item (storage w))),
     served w).
Proof.
  unfold getCategories, try_catch, bind. rewrite getItem_eq.
  destruct (rejected w); [reflexivity|]. simpl.
  destruct (categories_item (storage w)) as [[| |l]|]; reflexivity.
Qed.

Lemma getNotes_eq (w : World) :
  getNotes w
  = (Ok (if rejected w then [] else listed (notes_item (storage w))), served w).
Proof.
  unfold getNotes, try_catch, bind. rewrite getItem_eq.
  destruct (rejected w); [reflexivity|]. simpl.
  destruct (notes_item (storage w)) as [[| |l]|]; reflexivity.
Qed.

Lemma getBudgets_eq (w : World) :
  getBudgets w
  = (Ok (if rejected w then [] else listed (budgets_item (storage w))), served w).
Proof.
  unfold getBudgets, try_catch, bind. rewrite getItem_eq.
  destruct (rejected w); [reflexivity|]. simpl.
  destruct (budgets_item (storage w)) as [[| |l]|]; reflexivity.
Qed.

Lemma getSettings_eq (w : World) :
  getSettings w
  = (Ok (if rejected w then None else settled (settings_item (storage w))),
     served w).
Proof.
  unfold getSettings, try_catch, bind. rewrite getItem_eq.
  destruct (rejected w); [reflexivity|]. simpl.
  destruct (settings_item (storage w)) as [[| |l]|]; reflexivity.
Qed.

End Reads.

(** ** Arrays *)

Lemma findIndex_lower {A} (p : A -> bool) (l : list A) : -1 <= findIndex p l.
Proof.
  induction l as [|a l IH]; simpl; [lia|].
  destruct (p a); [lia|]. destruct (findIndex p l =? -1); lia.
Qed.

Lemma findIndex_none {A} (p : A -> bool) (l : list A) :
  (forall a, In a l -> p a = false) -> findIndex p l = -1.
Proof.
  induction l as [|a l IH]; intros H; simpl; [reflexivity|].
  rewrite (H a (or_introl eq_refl)), IH by (intros; apply H; now right).
  reflexivity.
Qed.

(** A hit of [findIndex] splits the array at the first match. *)
Lemma findIndex_first {A} (p : A -> bool) (l : list A) :
  (exists a, In a l /\ p a = true) ->
  exists pre old post,
    l = pre ++ old :: post
    /\ (forall a, In a pre -> p a = false)
    /\ p old = true
    /\ findIndex p l = Z.of_nat (List.length pre).
Proof.
  induction l as [|a l IH]; intros [x [Hin Hp]]; [destruct Hin|].
  destruct (p a) eqn:Ea.
  - exists [], a, l. simpl. rewrite Ea. repeat split; auto. intros ? [].
  - destruct Hin as [->|Hin]; [congruence|].
    destruct IH as (pre & old & post & -> & Hpre & Hold & Hidx); [eauto|].
    exists (a :: pre), old, post. simpl. rewrite Ea, Hidx.
    repeat split; auto.
    + intros b [<-|Hb]; auto.
    + destruct (Z.of_nat (List.length pre) =? -1) eqn:E; lia.
Qed.

Lemma nth_error_middle {A} (pre : list A) (x : A) (post : list A) :
  nth_error (pre ++ x :: post) (List.length pre) = Some x.
Proof. induction pre; simpl; auto. Qed.

Lemma array_set_middle {A} (pre : list A) (x v : A) (post : list A) :
  array_set (List.length pre) v (pre ++ x :: post) = pre ++ v :: post.
Proof. induction pre; simpl; congruence. Qed.

(** ** [updateTransaction] *)

Section UpdateTransaction.
Import DatabaseService STORAGE_KEYS.

Lemma updateTransaction_miss (w : World) (id : string)
    (updates : Transaction.partial) :
  (forall t, In t (listed (transactions_item (storage w))) -> Transaction.id t <> id) ->
  updateTransaction id updates w = (Ok tt, served w).
Proof.
  intros H. unfold updateTransaction, try_catch, bind.
  rewrite getTransactions_eq.
  set (l := if rejected w then [] else listed (transactions_item (storage w))).
  assert (Hl : forall t, In t l -> String.eqb (Transaction.id t) id = false).
  { intros t Ht. apply String.eqb_neq. subst l.
    destruct (rejected w); [destruct Ht | auto]. }
  rewrite (findIndex_none _ _ Hl). reflexivity.
Qed.

Lemma updateTransaction_hit (w : World) (id : string)
    (updates : Transaction.partial) (pre post : list Transaction.t)
    (old : Transaction.t) :
  rejected w = false ->
  listed (transactions_item (storage w)) = pre ++ old :: post ->
  (forall t, In t pre -> Transaction.id t <> id) ->
  Transaction.id old = id ->
  updateTransaction id updates w
  = if rejected (served w)
    then (Thrown MediumError, served (ticked (served w)))
    else (Ok tt,
          with_storage
            (put TRANSACTIONS
               (Some (Json (pre ++ spreadTransaction old updates (now w) :: post)))
               (storage w))
            (served (ticked (served w)))).
Proof.
  intros Hr Hl Hpre Hold. unfold updateTransaction, try_catch, bind.
  rewrite getTransactions_eq, Hr, Hl.
  assert (Hidx : findIndex (fun t => String.eqb (Transaction.id t) id)
                   (pre ++ old :: post) = Z.of_nat (List.length pre)).
  { clear Hl. induction pre as [|a pre IH]; simpl.
    - rewrite (proj2 (String.eqb_eq _ _) Hold). reflexivity.
    - rewrite (proj2 (String.eqb_neq _ _) (Hpre a (or_introl eq_refl))).
      rewrite IH by (intros; apply Hpre; now right).
      destruct (Z.of_nat (List.length pre) =? -1) eqn:E; lia. }
  rewrite Hidx, Nat2Z.id.
  replace (negb (Z.of_nat (List.length pre) =? -1)) with true
    by (symmetry; apply negb_true_iff, Z.eqb_neq; lia).
  rewrite nth_error_middle, new_Date_eq, array_set_middle, setItem_eq.
  rewrite rejected_ticked, storage_ticked.
  destruct (rejected (served w)); reflexivity.
Qed.

End UpdateTransaction.

Section UpdateTransactionClaims.
Import DatabaseService STORAGE_KEYS.

(** C3. For every world and every id carried by no transaction of the stored
    collection, [updateTransaction id updates] returns without throwing, its
    only effect is the one read request it made, and the storage is left as
    it was: a read of the transaction list made afterwards answers what the
    same read would have answered before. *)
Theorem updateTransaction_unknown_id_is_noop (w : World) (id : string)
    (updates : Transaction.partial) :
  (forall t, In t (listed (transactions_item (storage w))) -> Transaction.id t <> id) ->
  updateTransaction id updates w = (Ok tt, served w)
  /\ storage (snd (updateTransaction id updates w)) = storage w
  /\ forall r,
       fst (getTransactions (with_rejections r (snd (updateTransaction id updates w))))
       = fst (getTransactions (with_rejections r w)).
Proof.
  intros H. rewrite (updateTransaction_miss w id updates H). simpl.
  split; [reflexivity|]. split; [reflexivity|].
  intros r. rewrite !getTransactions_eq. reflexivity.
Qed.

(** C3 on the sample world: an update under an id nobody carries. *)
Lemma updateTransaction_unknown_id_is_noop_witness :
  updateTransaction "nonexistent-id" Sample.tip Sample.world
  = (Ok tt, served Sample.world)
  /\ fst (getTransactions (snd (updateTransaction "nonexistent-id" Sample.tip Sample.world)))
     = Ok Sample.ledger.
Proof.
  assert (H : forall t, In t (listed (transactions_item (storage Sample.world))) ->
                        Transaction.id t <> "nonexistent-id"%string).
  { simpl. intros t [<-|[<-|[<-|[]]]]; discriminate. }
  destruct (updateTransaction_unknown_id_is_noop Sample.world "nonexistent-id"
              Sample.tip H) as (E & _ & R).
  split; [exact E|].
  specialize (R []). rewrite E in *. exact R.
Defined.

(** C1, as the code has it.  When the stored collection holds a transaction
    with the given id and the platform serves the read and the write,
    [updateTransaction id updates] rewrites the first transaction carrying
    that id and nothing else: every other transaction, and every other
    storage key, is left as it was.  In the rewritten transaction
    [updatedAt] is the clock reading of the call, whatever [updates] names,
    and every other field, [id] and [createdAt] included, takes the value
    [updates] names for it and keeps its old value when [updates] does not
    name it. *)
Theorem updateTransaction_rewrites_first_match (w : World) (id : string)
    (updates : Transaction.partial) (T : list Transaction.t) :
  transactions_item (storage w) = Some (Json T) ->
  rejected w = false ->
  rejected (served w) = false ->
  (exists t, In t T /\ Transaction.id t = id) ->
  exists pre old post new w',
    T = pre ++ old :: post
    /\ (forall t, In t pre -> Transaction.id t <> id)
    /\ Transaction.id old = id
    /\ updateTransaction id updates w = (Ok tt, w')
    /\ storage w' = put TRANSACTIONS (Some (Json (pre ++ new :: post))) (storage w)
    /\ patched old updates (now w) new
    /\ (Transaction.p_id updates = None -> Transaction.id new = Transaction.id old)
    /\ (Transaction.p_createdAt updates = None ->
        Transaction.createdAt new = Transaction.createdAt old).
Proof.
  intros HT Hr Hw [t [Hin Hid]].
  destruct (findIndex_first (fun t => String.eqb (Transaction.id t) id) T)
    as (pre & old & post & -> & Hpre & Hold & _).
  { exists t. split; [exact Hin | now apply String.eqb_eq]. }
  apply String.eqb_eq in Hold.
  assert (Hpre' : forall t, In t pre -> Transaction.id t <> id).
  { intros x Hx. apply String.eqb_neq. now apply Hpre. }
  exists pre, old, post, (spreadTransaction old updates (now w)).
  eexists. split; [reflexivity|]. split; [exact Hpre'|]. split; [exact Hold|].
  split.
  - rewrite (updateTransaction_hit w id updates pre post old Hr); auto.
    + rewrite Hw. reflexivity.
    + rewrite HT. reflexivity.
  - simpl. split; [reflexivity|]. split.
    + unfold patched. simpl. repeat split.
    + split; intros ->; reflexivity.
Qed.

(** C1 on the sample world: [{ amount: 55, notes: 'with tip' }] applied to
    the first transaction. *)
Lemma updateTransaction_rewrites_first_match_witness :
  exists new w',
    updateTransaction "a" Sample.tip Sample.world = (Ok tt, w')
    /\ listed (transactions_item (storage w')) = [new; Sample.dinner; Sample.salary]
    /\ Transaction.id new = "a"%string
    /\ Transaction.createdAt new = Transaction.createdAt Sample.lunch
    /\ Transaction.updatedAt new = Sample.morning
    /\ Transaction.amount new = 55%Q.
Proof.
  destruct (updateTransaction_rewrites_first_match Sample.world "a" Sample.tip
              Sample.ledger eq_refl eq_refl eq_refl)
    as (pre & old & post & new & w' & HT & Hpre & Hold & Hrun & Hst & Hp & Hid & Hc).
  { exists Sample.lunch. split; [now left | reflexivity]. }
  destruct pre as [|x pre].
  - injection HT as <- <-. exists new, w'.
    split; [exact Hrun|]. rewrite Hst. simpl.
    destruct Hp as (_ & _ & Ha & _ & _ & _ & _ & _ & _ & _ & Hu).
    repeat split; auto.
  - injection HT as <- _. exfalso. apply (Hpre Sample.lunch); [now left | reflexivity].
Defined.

(** C1 refuted as stated: a partial record naming [id] changes the id of
    the transaction it is applied to. *)
Lemma updateTransaction_can_change_id :
  let w' := snd (updateTransaction "a" Sample.rename Sample.world) in
  fst (updateTransaction "a" Sample.rename Sample.world) = Ok tt
  /\ map Transaction.id (listed (transactions_item (storage Sample.world)))
     = ["a"; "b"; "c"]%string
  /\ map Transaction.id (listed (transactions_item (storage w')))
     = ["z"; "b"; "c"]%string.
Proof. vm_compute. repeat split. Qed.

End UpdateTransactionClaims.

(** ** Running the service step by step *)

Ltac step :=
  first [ rewrite getTransactions_eq | rewrite getCategories_eq
        | rewrite getNotes_eq | rewrite getBudgets_eq | rewrite getSettings_eq
        | rewrite generateId_eq | rewrite new_Date_eq
        | rewrite getItem_eq | rewrite setItem_eq | rewrite request_eq ];
  cbv beta iota.

Ltac run :=
  unfold try_catch, bind, ret, throw; cbv beta iota; repeat step;
  rewrite ?rejected_ticked, ?rejected_drawn, ?storage_ticked, ?storage_drawn,
    ?storage_served.

Section Writes.
Import DatabaseService STORAGE_KEYS.

Lemma saveTransaction_eq (d : Transaction.draft) (w : World) :
  let T := if rejected w then [] else listed (transactions_item (storage w)) in
  let w1 := drawn (served w) in
  let w2 := ticked (ticked w1) in
  let e := newTransaction d
             (Base36.toString36 (now w) ++ hd EmptyString (randoms w))%string
             (now w1) (now (ticked w1)) in
  saveTransaction d w
  = if rejected (served w) then (Thrown MediumError, served w2)
    else (Ok e, with_storage (put TRANSACTIONS (Some (Json (T ++ [e]))) (storage w))
                  (served w2)).
Proof.
  unfold saveTransaction. run.
  destruct (rejected (served w)); reflexivity.
Qed.

Lemma deleteTransaction_eq (id : string) (w : World) :
  let T := if rejected w then [] else listed (transactions_item (storage w)) in
  deleteTransaction id w
  = if rejected (served w) then (Thrown MediumError, served (served w))
    else (Ok tt,
          with_storage
            (put TRANSACTIONS
               (Some (Json (filter (fun t => negb (String.eqb (Transaction.id t) id)) T)))
               (storage w))
            (served (served w))).
Proof.
  unfold deleteTransaction. run.
  destruct (rejected (served w)); reflexivity.
Qed.

Lemma saveCategories_eq (cs : list Category.t) (w : World) :
  saveCategories cs w
  = if rejected w then (Thrown MediumError, served w)
    else (Ok tt, with_storage (put CATEGORIES (Some (Json cs)) (storage w)) (served w)).
Proof. unfold saveCategories. run. destruct (rejected w); reflexivity. Qed.

Lemma saveSettings_eq (s : AppSettings.t) (w : World) :
  saveSettings s w
  = if rejected w then (Thrown MediumError, served w)
    else (Ok tt, with_storage (put SETTINGS (Some (Json s)) (storage w)) (served w)).
Proof. unfold saveSettings. run. destruct (rejected w); reflexivity. Qed.

Lemma addCategory_eq (d : Category.draft) (w : World) :
  let C := if rejected w then [] else listed (categories_item (storage w)) in
  let w1 := drawn (served w) in
  let c := newCategory d (Base36.toString36 (now w) ++ hd EmptyString (randoms w))%string in
  addCategory d w
  = if rejected (served w) then (Thrown MediumError, served w1)
    else (Ok c, with_storage (put CATEGORIES (Some (Json (C ++ [c]))) (storage w))
                  (served w1)).
Proof.
  unfold addCategory. run. rewrite saveCategories_eq.
  rewrite rejected_drawn, storage_drawn.
  destruct (rejected (served w)); reflexivity.
Qed.

Lemma saveNote_eq (d : Note.draft) (w : World) :
  let N := if rejected w then [] else listed (notes_item (storage w)) in
  let w1 := drawn (served w) in
  let w2 := ticked (ticked w1) in
  let e := newNote d (Base36.toString36 (now w) ++ hd EmptyString (randoms w))%string
             (now w1) (now (ticked w1)) in
  saveNote d w
  = if rejected (served w) then (Thrown MediumError, served w2)
    else (Ok e, with_storage (put NOTES (Some (Json (N ++ [e]))) (storage w)) (served w2)).
Proof.
  unfold saveNote. run.
  destruct (rejected (served w)); reflexivity.
Qed.

Lemma deleteNote_eq (id : string) (w : World) :
  let N := if rejected w then [] else listed (notes_item (storage w)) in
  deleteNote id w
  = if rejected (served w) then (Thrown MediumError, served (served w))
    else (Ok tt,
          with_storage
            (put NOTES
               (Some (Json (filter (fun n => negb (String.eqb (Note.id n) id)) N)))
               (storage w))
            (served (served w))).
Proof.
  unfold deleteNote. run.
  destruct (rejected (served w)); reflexivity.
Qed.

Lemma saveBudget_eq (d : Budget.draft) (w : World) :
  let B := if rejected w then [] else listed (budgets_item (storage w)) in
  let w1 := drawn (served w) in
  let b := newBudget d (Base36.toString36 (now w) ++ hd EmptyString (randoms w))%string in
  saveBudget d w
  = if rejected (served w) then (Thrown MediumError, served w1)
    else (Ok b, with_storage (put BUDGETS (Some (Json (B ++ [b]))) (storage w))
                  (served w1)).
Proof.
  unfold saveBudget. run.
  destruct (rejected (served w)); reflexivity.
Qed.

Lemma clearAll_eq (w : World) :
  clearAll w
  = if rejected w then (Thrown MediumError, served w)
    else (Ok tt, with_storage emptyStore (served w)).
Proof.
  unfold clearAll, AsyncStorage.multiRemove. run.
  destruct (rejected w); reflexivity.
Qed.

(** A rejected write of [updateNote] reaches the caller, as for
    [updateTransaction]. *)
Lemma updateNote_rejected_write (w : World) (id : string) (updates : Note.partial) :
  rejected w = false ->
  rejected (served w) = true ->
  (exists n, In n (listed (notes_item (storage w))) /\ Note.id n = id) ->
  fst (updateNote id updates w) = Thrown MediumError.
Proof.
  intros Hr Hw [n [Hin Hid]].
  destruct (findIndex_first (fun n => String.eqb (Note.id n) id)
              (listed (notes_item (storage w))))
    as (pre & old & post & Hl & _ & _ & Hidx).
  { exists n. split; [exact Hin | now apply String.eqb_eq]. }
  unfold updateNote. run. rewrite Hr, Hidx, Hl, Nat2Z.id.
  replace (negb (Z.of_nat (List.length pre) =? -1)) with true
    by (symmetry; apply negb_true_iff, Z.eqb_neq; lia).
  rewrite nth_error_middle. run. rewrite Hw. reflexivity.
Qed.

End Writes.

Section StorageClaims.
Import DatabaseService STORAGE_KEYS.

(** C7, as the code has it.  For every draft and every world whose
    platform serves the write, [saveTransaction draft] returns an entity
    [e] and leaves under the transactions key the collection its read
    returned with [e] appended, the other keys untouched.  When the read
    is served that collection is the stored one: one more entity, the
    earlier ones unchanged and in place.  When the read is rejected the
    collection is taken as empty, and the stored collection becomes [e]
    alone.  The fields of [e] are those of the draft; its id is the one
    [generateId] produces at the call (the clock in base 36 followed by the
    random digits) and [createdAt], [updatedAt] are the next two clock
    readings. *)
Theorem saveTransaction_appends_created_entity (w : World) (d : Transaction.draft) :
  rejected (served w) = false ->
  exists e w',
    saveTransaction d w = (Ok e, w')
    /\ (rejected w = false ->
        listed (transactions_item (storage w'))
        = listed (transactions_item (storage w)) ++ [e]
        /\ List.length (listed (transactions_item (storage w')))
           = S (List.length (listed (transactions_item (storage w)))))
    /\ (rejected w = true -> listed (transactions_item (storage w')) = [e])
    /\ storage w' = put TRANSACTIONS (transactions_item (storage w')) (storage w)
    /\ (Transaction.type e, Transaction.amount e, Transaction.category e,
        Transaction.description e, Transaction.notes e, Transaction.photos e,
        Transaction.date e, Transaction.tags e)
       = (Transaction.d_type d, Transaction.d_amount d, Transaction.d_category d,
          Transaction.d_description d, Transaction.d_notes d, Transaction.d_photos d,
          Transaction.d_date d, Transaction.d_tags d)
    /\ Transaction.id e
       = (Base36.toString36 (now w) ++ hd EmptyString (randoms w))%string
    /\ Transaction.createdAt e = now w + hd 0 (ticks w)
    /\ Transaction.updatedAt e = Transaction.createdAt e + hd 0 (tl (ticks w)).
Proof.
  intros Hw. pose proof (saveTransaction_eq d w) as E. cbv zeta in E.
  rewrite Hw in E. eexists. eexists. split; [exact E|].
  simpl. rewrite now_ticked, now_drawn, ticks_drawn. simpl.
  split; [|split].
  - intros Hr. rewrite Hr. rewrite length_app. simpl. split; [reflexivity | lia].
  - intros Hr. rewrite Hr. reflexivity.
  - repeat split.
Qed.

(** C7 on the sample world: a coffee is saved after the three stored
    transactions. *)
Lemma saveTransaction_appends_created_entity_witness :
  exists e w',
    saveTransaction Sample.coffee Sample.world = (Ok e, w')
    /\ listed (transactions_item (storage w')) = Sample.ledger ++ [e]
    /\ Transaction.amount e = (7 # 2)%Q
    /\ Transaction.id e = "ltshmps0k3j9x"%string
    /\ Transaction.createdAt e = Sample.morning + 5
    /\ Transaction.updatedAt e = Sample.morning + 12.
Proof.
  destruct (saveTransaction_appends_created_entity Sample.world Sample.coffee eq_refl)
    as (e & w' & Hrun & Hl & _ & _ & Hf & Hid & Hc & Hu).
  exists e, w'. split; [exact Hrun|]. split; [apply Hl; reflexivity|].
  split; [injection Hf; intros; assumption|].
  split; [exact Hid|]. split; [exact Hc|].
  rewrite Hu, Hc. vm_compute. reflexivity.
Defined.

(** C7 refuted as stated: a call that succeeds can leave fewer entities
    than before.  With three transactions stored, a platform that rejects
    the read inside [saveTransaction] and serves its write, the call
    returns the created entity; afterwards one transaction is stored, and
    the lunch is gone. *)
Lemma saveTransaction_can_drop_the_stored_entities :
  List.length (listed (transactions_item (storage Sample_deaf))) = 3%nat
  /\ In Sample.lunch (listed (transactions_item (storage Sample_deaf)))
  /\ exists e,
       returns (saveTransaction Sample.coffee) Sample_deaf e
       /\ List.length
            (listed (transactions_item
                       (storage (snd (saveTransaction Sample.coffee Sample_deaf)))))
          = 1%nat
       /\ ~ In Sample.lunch
            (listed (transactions_item
                       (storage (snd (saveTransaction Sample.coffee Sample_deaf))))).
Proof.
  split; [reflexivity|]. split; [left; reflexivity|].
  eexists. split; [vm_compute; reflexivity|]. split; [vm_compute; reflexivity|].
  vm_compute. intros [H|[]]. discriminate.
Qed.

(** C8, as the code has it.  In every world each list read returns a list
    and never throws: the empty list when its request is rejected, when the
    key is absent and when the text under it is empty or does not parse,
    the stored collection otherwise.  A write operation throws to its caller
    when the platform rejects its write request ([setItem], [multiRemove]);
    for [updateTransaction] and [updateNote] this is when the id is found,
    since otherwise no write is requested.  A rejection of the read made
    inside a write operation does not reach the caller: the list read
    answers the empty list, so [saveTransaction] stores the new entity
    alone, [deleteTransaction] stores the empty collection and
    [updateTransaction] does nothing, and each returns normally. *)
Theorem reads_degrade_and_rejected_writes_throw (w : World) :
  (returns getTransactions w
     (if rejected w then [] else listed (transactions_item (storage w)))
   /\ returns getCategories w
        (if rejected w then [] else listed (categories_item (storage w)))
   /\ returns getNotes w (if rejected w then [] else listed (notes_item (storage w)))
   /\ returns getBudgets w (if rejected w then [] else listed (budgets_item (storage w))))
  /\ (forall A : Type,
        @listed A None = [] /\ @listed A (Some EmptyText) = []
        /\ @listed A (Some Unparseable) = [])
  /\ (rejected (served w) = true ->
      (forall d, throws (saveTransaction d) w)
      /\ (forall id, throws (deleteTransaction id) w)
      /\ (forall id updates,
            rejected w = false ->
            (exists t, In t (listed (transactions_item (storage w)))
                       /\ Transaction.id t = id) ->
            throws (updateTransaction id updates) w)
      /\ (forall d, throws (addCategory d) w)
      /\ (forall d, throws (saveNote d) w)
      /\ (forall id, throws (deleteNote id) w)
      /\ (forall id updates,
            rejected w = false ->
            (exists n, In n (listed (notes_item (storage w))) /\ Note.id n = id) ->
            throws (updateNote id updates) w)
      /\ (forall d, throws (saveBudget d) w))
  /\ (rejected w = true ->
      (forall cs, throws (saveCategories cs) w)
      /\ (forall s, throws (saveSettings s) w)
      /\ throws clearAll w)
  /\ (rejected w = true ->
      rejected (served w) = false ->
      (forall d, exists e,
           returns (saveTransaction d) w e
           /\ transactions_item (storage (snd (saveTransaction d w))) = Some (Json [e]))
      /\ (forall id,
            returns (deleteTransaction id) w tt
            /\ transactions_item (storage (snd (deleteTransaction id w))) = Some (Json []))
      /\ (forall id updates,
            returns (updateTransaction id updates) w tt
            /\ storage (snd (updateTransaction id updates w)) = storage w)).
Proof.
  unfold returns, throws. split; [|split; [|split; [|split]]].
  - rewrite getTransactions_eq, getCategories_eq, getNotes_eq, getBudgets_eq.
    repeat split.
  - intros A. repeat split.
  - intros Hw. repeat split; intros.
    + pose proof (saveTransaction_eq d w) as E. cbv zeta in E.
      rewrite Hw in E. rewrite E. eexists; reflexivity.
    + pose proof (deleteTransaction_eq id w) as E. cbv zeta in E.
      rewrite Hw in E. rewrite E. eexists; reflexivity.
    + destruct H0 as [t [Hin Hid]].
      destruct (findIndex_first (fun t => String.eqb (Transaction.id t) id)
                  (listed (transactions_item (storage w))))
        as (pre & old & post & Hl & Hpre & Hold & _).
      { exists t. split; [exact Hin | now apply String.eqb_eq]. }
      rewrite (updateTransaction_hit w id updates pre post old H Hl).
      * rewrite Hw. eexists; reflexivity.
      * intros x Hx. apply String.eqb_neq. now apply Hpre.
      * now apply String.eqb_eq.
    + pose proof (addCategory_eq d w) as E. cbv zeta in E.
      rewrite Hw in E. rewrite E. eexists; reflexivity.
    + pose proof (saveNote_eq d w) as E. cbv zeta in E.
      rewrite Hw in E. rewrite E. eexists; reflexivity.
    + pose proof (deleteNote_eq id w) as E. cbv zeta in E.
      rewrite Hw in E. rewrite E. eexists; reflexivity.
    + rewrite (updateNote_rejected_write w id updates H Hw H0).
      eexists; reflexivity.
    + pose proof (saveBudget_eq d w) as E. cbv zeta in E.
      rewrite Hw in E. rewrite E. eexists; reflexivity.
  - intros Hr. repeat split; intros.
    + rewrite saveCategories_eq, Hr. eexists; reflexivity.
    + rewrite saveSettings_eq, Hr. eexists; reflexivity.
    + rewrite clearAll_eq, Hr. eexists; reflexivity.
  - intros Hr Hw. split; [|split].
    + intros d. pose proof (saveTransaction_eq d w) as E. cbv zeta in E.
      rewrite Hr, Hw in E. rewrite E. eexists. split; reflexivity.
    + intros id. pose proof (deleteTransaction_eq id w) as E. cbv zeta in E.
      rewrite Hr, Hw in E. rewrite E. split; reflexivity.
    + intros id updates. unfold updateTransaction. run. rewrite Hr.
      split; reflexivity.
Qed.

(** C8 on the sample world, with the read rejected and with the write
    rejected. *)
Lemma reads_degrade_and_rejected_writes_throw_witness :
  returns getTransactions Sample_deaf []
  /\ returns getTransactions Sample_readonly Sample.ledger
  /\ throws (saveTransaction Sample.coffee) Sample_readonly
  /\ throws (updateTransaction "a" Sample.tip) Sample_readonly
  /\ throws (deleteTransaction "a") Sample_readonly
  /\ throws clearAll Sample_deaf.
Proof.
  destruct (reads_degrade_and_rejected_writes_throw Sample_deaf)
    as ((Hread & _) & _ & _ & Hfirst & _).
  destruct (reads_degrade_and_rejected_writes_throw Sample_readonly)
    as ((Hread' & _) & _ & Hsecond & _).
  destruct (Hsecond eq_refl) as (Hsave & Hdel & Hupd & _).
  destruct (Hfirst eq_refl) as (_ & _ & Hclear).
  split; [exact Hread|]. split; [exact Hread'|]. split; [apply Hsave|].
  split; [|split; [apply Hdel | exact Hclear]].
  apply Hupd; [reflexivity|].
  exists Sample.lunch. split; [now left | reflexivity].
Defined.

(** C8 refuted as stated: a write operation can swallow a failure of the
    medium.  When the platform rejects the read inside [saveTransaction]
    and serves the write, the operation returns the new entity without
    throwing, and the stored collection is replaced by that entity alone. *)
Lemma saveTransaction_swallows_rejected_read :
  rejected Sample_deaf = true
  /\ listed (transactions_item (storage Sample_deaf)) = Sample.ledger
  /\ ~ throws (saveTransaction Sample.coffee) Sample_deaf
  /\ exists e,
       returns (saveTransaction Sample.coffee) Sample_deaf e
       /\ listed (transactions_item
                    (storage (snd (saveTransaction Sample.coffee Sample_deaf))))
          = [e].
Proof.
  split; [reflexivity|]. split; [reflexivity|]. split.
  - intros [e He]. vm_compute in He. discriminate.
  - eexists. split; vm_compute; reflexivity.
Qed.

End StorageClaims.

(** ** Bootstrap and reset *)

Section Bootstrap.
Import DatabaseService STORAGE_KEYS.

Lemma seed_categories (l : list Category.draft) (w : World) :
  exists cats w',
    mapM withGeneratedId l w = (Ok cats, w')
    /\ map withoutId cats = l
    /\ storage w' = storage w
    /\ rejections w' = rejections w.
Proof.
  revert w. induction l as [|d l IH]; intros w; simpl.
  - exists [], w. repeat split.
  - unfold bind at 1. unfold withGeneratedId at 1. unfold bind at 1.
    rewrite generateId_eq. cbv beta iota. unfold ret at 1.
    destruct (IH (drawn w)) as (cats & w' & E & Hm & Hs & Hr).
    unfold bind at 1. rewrite E. eexists. eexists. split; [reflexivity|].
    simpl. rewrite Hm, Hs, Hr, storage_drawn, rejections_drawn.
    destruct d; repeat split.
Qed.

(** [initialize] never throws. *)
Lemma initialize_returns (w : World) : fst (initialize w) = Ok tt.
Proof.
  unfold initialize, try_catch.
  match goal with |- context [match ?b w with _ => _ end] => destruct (b w) as [[[]|e] w'] end;
    reflexivity.
Qed.

Lemma initialize_marked (w : World) :
  truthy (initialized_item (storage w)) = true ->
  initialize w = (Ok tt, served w).
Proof.
  intros H. unfold initialize. run.
  destruct (rejected w); [reflexivity|]. simpl. rewrite H. reflexivity.
Qed.

Lemma initialize_unmarked (w : World) :
  truthy (initialized_item (storage w)) = false ->
  calm w = true ->
  exists w',
    initialize w = (Ok tt, w')
    /\ seeded (storage w')
    /\ transactions_item (storage w') = transactions_item (storage w)
    /\ notes_item (storage w') = notes_item (storage w)
    /\ budgets_item (storage w') = budgets_item (storage w).
Proof.
  intros H Hc. unfold initialize. run.
  rewrite (calm_rejected w Hc). cbv beta iota.
  change (item INITIALIZED (storage w)) with (initialized_item (storage w)).
  rewrite H. cbn [negb]. cbv beta iota.
  destruct (seed_categories DEFAULT_INCOME_CATEGORIES (served w))
    as (inc & w1 & E1 & Hm1 & Hs1 & Hr1).
  destruct (seed_categories DEFAULT_EXPENSE_CATEGORIES w1)
    as (exp & w2 & E2 & Hm2 & Hs2 & Hr2).
  rewrite E1. cbv beta iota. rewrite E2. cbv beta iota.
  assert (C1 : calm w2 = true).
  { unfold calm. rewrite Hr2, Hr1. apply (calm_served w Hc). }
  rewrite saveCategories_eq, (calm_rejected _ C1). cbv beta iota.
  set (w3 := with_storage _ (served w2)).
  assert (C2 : calm w3 = true) by apply (calm_served _ C1).
  rewrite saveSettings_eq, (calm_rejected _ C2). cbv beta iota.
  set (w4 := with_storage _ (served w3)).
  assert (C3 : calm w4 = true) by apply (calm_served _ C2).
  rewrite setItem_eq, (calm_rejected _ C3). subst w4 w3.
  eexists. split; [reflexivity|]. simpl. rewrite Hs2, Hs1. simpl.
  repeat split. exists (inc ++ exp). rewrite map_app, Hm1, Hm2. repeat split.
Qed.

End Bootstrap.

Section BootstrapClaims.
Import DatabaseService STORAGE_KEYS.

(** C9. [initialize] never throws.  When the marker key holds a non-empty
    text (the service writes ['true']), [initialize] seeds nothing: it
    makes its one read request and leaves the whole storage, categories and
    settings included, as it was, whatever the category collection holds.
    So the storage changes only when the marker is missing; and then, on a
    platform that serves the requests, the default categories (each under a
    generated id) and the default settings are stored and the marker is
    written, the other collections staying as they were. *)
Theorem initialize_is_idempotent (w : World) :
  returns initialize w tt
  /\ (truthy (initialized_item (storage w)) = true ->
      initialize w = (Ok tt, served w)
      /\ storage (snd (initialize w)) = storage w)
  /\ (storage (snd (initialize w)) <> storage w ->
      truthy (initialized_item (storage w)) = false)
  /\ (truthy (initialized_item (storage w)) = false ->
      calm w = true ->
      seeded (storage (snd (initialize w)))
      /\ transactions_item (storage (snd (initialize w))) = transactions_item (storage w)
      /\ notes_item (storage (snd (initialize w))) = notes_item (storage w)
      /\ budgets_item (storage (snd (initialize w))) = budgets_item (storage w)).
Proof.
  split; [apply initialize_returns|]. split; [|split].
  - intros H. rewrite (initialize_marked w H). split; reflexivity.
  - intros H. destruct (truthy (initialized_item (storage w))) eqn:E; [|reflexivity].
    exfalso. apply H. rewrite (initialize_marked w E). reflexivity.
  - intros H Hc. destruct (initialize_unmarked w H Hc) as (w' & E & Hs).
    rewrite E. exact Hs.
Qed.

(** C9 on the sample world once its categories have been deleted (the
    marker is there: nothing is seeded) and on a first run. *)
Lemma initialize_is_idempotent_witness :
  (listed (categories_item (storage Sample_emptied)) = []
   /\ storage (snd (initialize Sample_emptied)) = storage Sample_emptied)
  /\ seeded (storage (snd (initialize Sample_fresh))).
Proof.
  destruct (initialize_is_idempotent Sample_emptied) as (_ & Hkeep & _).
  destruct (initialize_is_idempotent Sample_fresh) as (_ & _ & _ & Hseed).
  split.
  - split; [reflexivity|]. apply (Hkeep eq_refl).
  - apply (Hseed eq_refl eq_refl).
Defined.

(** C10. When the platform serves its request, [clearAll] returns and
    leaves every key absent: whatever the platform does next, the four list
    reads then answer the empty list and [getSettings] answers no settings,
    and the marker is gone.  A following [initialize], on a platform that
    serves the requests, seeds the default categories and settings and
    writes the marker again. *)
Theorem clearAll_rearms_bootstrap (w : World) :
  rejected w = false ->
  clearAll w = (Ok tt, with_storage emptyStore (served w))
  /\ (forall r,
        let w' := with_rejections r (snd (clearAll w)) in
        returns getTransactions w' [] /\ returns getCategories w' []
        /\ returns getNotes w' [] /\ returns getBudgets w' []
        /\ returns getSettings w' None)
  /\ initialized_item (storage (snd (clearAll w))) = None
  /\ (calm (snd (clearAll w)) = true ->
      returns initialize (snd (clearAll w)) tt
      /\ seeded (storage (snd (initialize (snd (clearAll w)))))).
Proof.
  intros Hr. rewrite clearAll_eq, Hr. cbn [snd].
  split; [reflexivity|]. split; [|split; [reflexivity|]].
  - intros r. cbv zeta. unfold returns.
    rewrite getTransactions_eq, getCategories_eq, getNotes_eq, getBudgets_eq,
      getSettings_eq.
    simpl. destruct (rejected (with_rejections r _)); repeat split.
  - intros Hc. split; [apply initialize_returns|].
    destruct (initialize_unmarked (with_storage emptyStore (served w)) eq_refl Hc)
      as (w' & E & Hs & _).
    rewrite E. exact Hs.
Qed.

(** C10 on the sample world. *)
Lemma clearAll_rearms_bootstrap_witness :
  storage (snd (clearAll Sample.world)) = emptyStore
  /\ returns getTransactions (snd (clearAll Sample.world)) []
  /\ returns getSettings (snd (clearAll Sample.world)) None
  /\ seeded (storage (snd (initialize (snd (clearAll Sample.world))))).
Proof.
  destruct (clearAll_rearms_bootstrap Sample.world eq_refl)
    as (E & Hreads & _ & Hinit).
  destruct (Hreads []) as (Ht & _ & _ & _ & Hs).
  destruct (Hinit eq_refl) as (_ & Hseed).
  split; [rewrite E; reflexivity|].
  split; [exact Ht|]. split; [exact Hs|]. exact Hseed.
Defined.

End BootstrapClaims.

(** ** The rounding error of a sum *)

Section Tolerance.
Import Double.





Lemma magnitude_nonneg (l : list Transaction.t) : (0 <= magnitude l)%Q.
Proof.
  unfold magnitude. induction l as [|t l IH]; simpl; [lra|].
  pose proof (Qabs_nonneg (Transaction.amount t)). lra.
Qed.










End Tolerance.

(** ** The balance *)

Section Balance.
Import DatabaseService.

Lemma sumOf_cons (ty : TransactionType) (t : Transaction.t) (T : list Transaction.t) :
  sumOf ty (t :: T)
  = if Reports.is_type ty t then (Transaction.amount t + sumOf ty T)%Q else sumOf ty T.
Proof. unfold sumOf. simpl. destruct (Reports.is_type ty t); reflexivity. Qed.

(** The reducer of [getBalance], started from any balance. *)
Lemma balance_fold (T : list Transaction.t) (acc : Q) :
  (fold_left
     (fun balance transaction =>
        match Transaction.type transaction with
        | income => balance + Transaction.amount transaction
        | expense => balance - Transaction.amount transaction
        end) T acc
   == acc + sumOf income T - sumOf expense T)%Q.
Proof.
  revert acc. induction T as [|t T IH]; intros acc.
  - unfold sumOf. simpl. ring.
  - simpl fold_left. rewrite IH, !sumOf_cons. unfold Reports.is_type.
    destruct (Transaction.type t); simpl; ring.
Qed.


Lemma getBalance_eq (w : World) :
  exists b,
    getBalance w = (Ok b, served w)
    /\ let T := if rejected w then [] else listed (transactions_item (storage w)) in
       (b == sumOf income T - sumOf expense T)%Q.
Proof.
  unfold getBalance. run. eexists. split; [reflexivity|].
  cbv zeta. rewrite balance_fold. ring.
Qed.

(** [getBalance] in the arithmetic of doubles, in every world. *)
Lemma runningBalance_fold (T : list Transaction.t) (b : Q) :
  fold_left
    (fun balance transaction =>
       match Transaction.type transaction with
       | income => Double.add balance (Binary64.amount transaction)
       | expense => Double.sub balance (Binary64.amount transaction)
       end) T b
  = runningBalance b T.
Proof. revert b. induction T as [|t T IH]; intros b; [reflexivity | apply IH]. Qed.

Lemma rounded_getBalance_eq (w : World) :
  Binary64.getBalance w
  = (Ok (runningBalance 0
           (if rejected w then [] else listed (transactions_item (storage w)))),
     served w).
Proof. unfold Binary64.getBalance. run. rewrite runningBalance_fold. reflexivity. Qed.

(** Whole amounts: the running balance is not rounded. *)
Lemma whole_runningBalance (T : list Transaction.t) :
  forall (b : Q) (z : Z),
    (b == inject_Z z)%Q ->
    forallb (fun t => isWhole (Transaction.amount t)) T = true ->
    (Qabs b + magnitude T < inject_Z (2 ^ 53))%Q ->
    (runningBalance b T == b + sumOf income T - sumOf expense T)%Q.
Proof.
  induction T as [|t T IH]; intros b z Eb W B.
  - unfold sumOf. simpl. ring.
  - cbn [forallb] in W. apply andb_prop in W as [Wt W].
    destruct (isWhole_spec _ Wt) as (za & Ea).
    unfold magnitude in B. cbn [map fold_right] in B. fold (magnitude T) in B.
    assert (M : (0 <= magnitude T)%Q).
    { clear. unfold magnitude. induction T as [|t T IH]; simpl; [lra|].
      pose proof (Qabs_nonneg (Transaction.amount t)). lra. }
    destruct (whole_step b (Transaction.amount t) z za Eb Ea) as [A S]; [lra|].
    cbn [runningBalance]. rewrite !sumOf_cons. unfold Reports.is_type, Binary64.amount.
    destruct (Transaction.type t); cbn [TransactionType_eqb].
    + rewrite (IH _ (z + za)).
      * rewrite A. ring.
      * rewrite A, inject_Z_plus, Eb, Ea. reflexivity.
      * exact W.
      * rewrite A. pose proof (Qabs_triangle b (Transaction.amount t)). lra.
    + rewrite (IH _ (z - za)).
      * rewrite S. ring.
      * rewrite S. unfold Z.sub, Qminus.
        rewrite inject_Z_plus, inject_Z_opp, Eb, Ea. reflexivity.
      * exact W.
      * rewrite S. pose proof (Qabs_triangle b (- Transaction.amount t)) as T3.
        rewrite Qabs_opp in T3. unfold Qminus. lra.
Qed.


Lemma whole_balance (T : list Transaction.t) :
  wholeAmounts T = true ->
  (runningBalance 0 T == sumOf income T - sumOf expense T)%Q.
Proof.
  intros W. unfold wholeAmounts in W. apply andb_prop in W as [W B].
  rewrite (whole_runningBalance T 0 0); [ring | reflexivity | exact W |].
  apply negb_true_iff, not_true_iff_false in B. rewrite Qle_bool_iff in B.
  change (Qabs 0) with 0%Q. lra.
Qed.




End Balance.

(** ** The monthly trend *)

Section Calendar.
Import JSDate.

(** The two calendar conversions agree on every day from 1 January 1970 to
    the year 2134, and on known dates. *)
Example civil_days_roundtrip :
  Z.iter 60000
    (fun st : Z * bool =>
       let (n, ok) := st in
       let '(y, m, d) := civil_from_days n in
       (n + 1, ok && (days_from_civil y m d =? n)))
    (0, true)
  = (60000, true).
Proof. vm_compute. reflexivity. Qed.

Example civil_known_dates :
  civil_from_days 0 = (1970, 1, 1)
  /\ civil_from_days (-1) = (1969, 12, 31)
  /\ civil_from_days 11016 = (2000, 2, 29)
  /\ civil_from_days 19782 = (2024, 2, 29)
  /\ civil_from_days 19783 = (2024, 3, 1)
  /\ days_from_civil 2100 3 1 - days_from_civil 2100 2 1 = 28.
Proof. vm_compute. repeat split. Qed.

(** [new Date(y, m, d)] carries months and days over: month -1 is December
    of the year before, day 0 is the last day of the month before. *)
Example ymd_carries_over :
  ymd 2024 (-1) 1 = ymd 2023 11 1
  /\ ymd 2024 12 1 = ymd 2025 0 1
  /\ civil_from_days (Day (ymd 2024 2 0)) = (2024, 2, 29)
  /\ civil_from_days (Day (ymd 2023 2 0)) = (2023, 2, 28)
  /\ civil_from_days (Day (ymd 2024 0 0)) = (2023, 12, 31).
Proof. vm_compute. repeat split. Qed.

Lemma ymd_is_midnight (year month date : Z) : ymd year month date mod msPerDay = 0.
Proof. unfold ymd. apply Z_mod_mult. Qed.

End Calendar.

Section MonthlyTrend.
Import Reports.

Lemma monthlyLoop_length (now : Z) (T : list Transaction.t) (i : nat)
    (acc : list MonthlyData.t) :
  List.length (monthlyLoop now T i acc) = (List.length acc + S i)%nat.
Proof.
  revert acc. induction i as [|i IH]; intros acc; simpl.
  - rewrite length_app. reflexivity.
  - rewrite IH, length_app. simpl. lia.
Qed.

(** The loop pushes six points, whatever the transactions and the clock. *)
Lemma monthlyTrend_length (period : PeriodType) (now : Z)
    (T : list Transaction.t) (C : list Category.t) :
  List.length (monthlyData (calculateAnalytics period now T C)) = 6%nat.
Proof.
  change (monthlyData (calculateAnalytics period now T C)) with (monthlyTrend now T).
  unfold monthlyTrend. rewrite monthlyLoop_length. reflexivity.
Qed.

(** The window of a month ends at the midnight that opens its last day:
    a transaction dated on the day of [monthEnd], at any later time of day,
    is outside the window. *)
Lemma month_window_excludes_rest_of_last_day (year month : Z) (t : Transaction.t) :
  let monthStart := JSDate.ymd year month 1 in
  let monthEnd := JSDate.ymd year (month + 1) 0 in
  JSDate.Day (Transaction.date t) = JSDate.Day monthEnd ->
  Transaction.date t mod JSDate.msPerDay <> 0 ->
  between monthStart monthEnd t = false.
Proof.
  cbv zeta. intros Hday Htime. unfold between.
  apply andb_false_iff. right. apply Z.leb_gt.
  pose proof (ymd_is_midnight year (month + 1) 0) as Hmid.
  unfold JSDate.Day in Hday.
  assert (Hpos : 0 < JSDate.msPerDay) by reflexivity.
  pose proof (Z.div_mod (Transaction.date t) JSDate.msPerDay) as D1.
  pose proof (Z.div_mod (JSDate.ymd year (month + 1) 0) JSDate.msPerDay) as D2.
  pose proof (Z.mod_pos_bound (Transaction.date t) JSDate.msPerDay Hpos) as B.
  rewrite Hday in D1. lia.
Qed.

(** The points are pushed for the months 5, 4, ..., 0 back, oldest first. *)
Lemma monthlyTrend_points (now : Z) (T : list Transaction.t) :
  monthlyTrend now T = map (monthPoint now T) [5; 4; 3; 2; 1; 0].
Proof. reflexivity. Qed.

(** A month without transactions in its window gets zero sums. *)
Lemma monthPoint_empty (now i : Z) :
  MonthlyData.income (monthPoint now [] i) = 0%Q
  /\ MonthlyData.expenses (monthPoint now [] i) = 0%Q.
Proof. split; reflexivity. Qed.

(** C4, where the code departs from it.  On 15 March 2024 the trend over a
    history holding one expense of 7 entered on 29 February 2024 at noon
    has six points, October to March, oldest first, and every one of them
    is zero: the expense lies in February (year 2024, month index 1, day
    29) but is counted in no month, since the upper bound of a month is
    the midnight opening its last day.  [getMonthlySpending], which tells
    the month by [getMonth] and [getFullYear], counts it. *)
Theorem monthlyTrend_misses_last_day_of_month :
  (JSDate.getFullYear (Transaction.date Sample_leapDayTea),
   JSDate.getMonth (Transaction.date Sample_leapDayTea),
   JSDate.getDate (Transaction.date Sample_leapDayTea)) = (2024, 1, 29)
  /\ map pointOf
       (monthlyData (calculateAnalytics month Sample.morning [Sample_leapDayTea] [Sample.food]))
     = [("Oct", 0, 0); ("Nov", 0, 0); ("Dec", 0, 0);
        ("Jan", 0, 0); ("Feb", 0, 0); ("Mar", 0, 0)]%string%Q
  /\ returns (DatabaseService.getMonthlySpending 1 2024) Sample_leapWorld 7%Q.
Proof. vm_compute. repeat split. Qed.

End MonthlyTrend.

(** ** The budget check *)

Section BudgetCheck.
Import NotificationService.


Lemma monthlySpent_spec (T : list Transaction.t) (c : Category.t) (now : Z) :
  monthlySpent T c (JSDate.getMonth now) (JSDate.getFullYear now)
  = spentInMonth T (Category.name c) now.
Proof.
  unfold monthlySpent, spentInMonth, roundedSum, Double.reduce_sum. f_equal.
  apply filter_ext. intros t. unfold inMonthOf, Reports.is_type.
  cbv zeta. rewrite <- !andb_assoc. reflexivity.
Qed.

(** The two tests of the code, the gate of [checkBudgetAlerts] and the
    percentage ladder of [scheduleBudgetAlert], amount to [verdict]. *)
Lemma code_verdict (spent limit : Q) :
  (if num_gt limit 0 then
     if num_ge spent (Double.mul limit (Double.number (8 # 10))) then
       if num_ge (Double.mul (Double.div spent limit) 100) 100 then Some BudgetExceeded
       else if num_ge (Double.mul (Double.div spent limit) 100) 80 then Some BudgetWarning
       else None
     else None
   else None)
  = verdict spent limit.
Proof.
  unfold verdict, gate, percentageOf, num_gt, num_ge.
  set (g := Double.mul limit (Double.number (8 # 10))).
  set (p := Double.mul (Double.div spent limit) 100).
  destruct (Qlt_le_dec 0 limit) as [Hl|Hl].
  - replace (Qle_bool limit 0) with false
      by (symmetry; apply not_true_is_false; rewrite Qle_bool_iff; lra).
    cbn [negb].
    destruct (Qlt_le_dec spent g) as [G|G].
    + replace (Qle_bool g spent) with false
        by (symmetry; apply not_true_is_false; rewrite Qle_bool_iff; lra).
      reflexivity.
    + replace (Qle_bool g spent) with true by (symmetry; apply Qle_bool_iff; exact G).
      destruct (Qlt_le_dec p 80) as [P80|P80].
      * replace (Qle_bool 100 p) with false
          by (symmetry; apply not_true_is_false; rewrite Qle_bool_iff; lra).
        replace (Qle_bool 80 p) with false
          by (symmetry; apply not_true_is_false; rewrite Qle_bool_iff; lra).
        reflexivity.
      * replace (Qle_bool 80 p) with true by (symmetry; apply Qle_bool_iff; exact P80).
        destruct (Qlt_le_dec p 100) as [P100|P100].
        -- replace (Qle_bool 100 p) with false
             by (symmetry; apply not_true_is_false; rewrite Qle_bool_iff; lra).
           reflexivity.
        -- replace (Qle_bool 100 p) with true
             by (symmetry; apply Qle_bool_iff; exact P100).
           reflexivity.
  - replace (Qle_bool limit 0) with true
      by (symmetry; apply Qle_bool_iff; exact Hl).
    reflexivity.
Qed.

End BudgetCheck.

Section BudgetAlerts.
Import NotificationService.

Lemma scheduleNotificationAsync_eq (n : Notification) (w : World) :
  Notifications.scheduleNotificationAsync n w
  = if rejected w then (Thrown MediumError, served w)
    else (Ok tt, with_scheduled (scheduled w ++ [n]) (served w)).
Proof.
  unfold Notifications.scheduleNotificationAsync. rewrite request_eq. reflexivity.
Qed.

(** [scheduleBudgetAlert] on a platform that serves the requests. *)
Lemma scheduleBudgetAlert_calm (name : string) (spent limit : Q) (w : World) :
  calm w = true ->
  exists w',
    scheduleBudgetAlert name spent limit w = (Ok tt, w')
    /\ storage w' = storage w
    /\ calm w' = true
    /\ scheduled w'
       = scheduled w
         ++ (if alertsEnabled (storage w) then
               match (if num_ge (Double.mul (Double.div spent limit) 100) 100
                      then Some BudgetExceeded
                      else if num_ge (Double.mul (Double.div spent limit) 100) 80
                      then Some BudgetWarning
                      else None) with
               | Some t => [mkNotification t name spent limit]
               | None => []
               end
             else []).
Proof.
  intros Hc. unfold scheduleBudgetAlert. run. rewrite (calm_rejected w Hc).
  unfold alertsEnabled, flag.
  assert (Hs : calm (served w) = true) by apply (calm_served w Hc).
  destruct (settled (settings_item (storage w))) as [st|].
  - destruct (AppSettings.notificationsEnabled st); simpl;
      [|eexists; repeat split; [exact Hs | now rewrite app_nil_r]].
    destruct (AppSettings.budgetAlerts st); simpl;
      [|eexists; repeat split; [exact Hs | now rewrite app_nil_r]].
    destruct (num_ge (Double.mul (Double.div spent limit) 100) 100).
    + rewrite scheduleNotificationAsync_eq, (calm_rejected _ Hs).
      eexists. repeat split. apply (calm_served _ Hs).
    + destruct (num_ge (Double.mul (Double.div spent limit) 100) 80).
      * rewrite scheduleNotificationAsync_eq, (calm_rejected _ Hs).
        eexists. repeat split. apply (calm_served _ Hs).
      * eexists. repeat split; [exact Hs | now rewrite app_nil_r].
  - simpl. eexists. repeat split; [exact Hs | now rewrite app_nil_r].
Qed.

(** The loop of [checkBudgetAlerts] over the categories. *)
Lemma alert_loop (T : list Transaction.t) (nowv : Z) (C : list Category.t) (w : World) :
  calm w = true ->
  exists w' new,
    for_of C
      (fun category =>
         if num_gt (Binary64.budgetLimit category) 0 then
           let spent :=
             monthlySpent T category (JSDate.getMonth nowv) (JSDate.getFullYear nowv) in
           if num_ge spent
                (Double.mul (Binary64.budgetLimit category) (Double.number (8 # 10)))
           then
             scheduleBudgetAlert (Category.name category) spent
               (Binary64.budgetLimit category)
           else ret tt
         else ret tt) w
    = (Ok tt, w')
    /\ storage w' = storage w
    /\ calm w' = true
    /\ scheduled w' = scheduled w ++ new
    /\ map headline new
       = (if alertsEnabled (storage w) then expectedAlerts T C nowv else [])
    /\ Forall (fun n =>
                 exists c, In c C
                           /\ alert_category n = Category.name c
                           /\ alert_spent n = spentInMonth T (Category.name c) nowv
                           /\ alert_limit n = Binary64.budgetLimit c) new.
Proof.
  revert w. induction C as [|c C IH]; intros w Hc.
  - exists w, []. simpl. rewrite app_nil_r.
    destruct (alertsEnabled (storage w)); repeat split; auto; constructor.
  - cbn [for_of]. unfold bind at 1. cbv zeta.
    rewrite (monthlySpent_spec T c nowv).
    set (spent := spentInMonth T (Category.name c) nowv).
    pose proof (code_verdict spent (Binary64.budgetLimit c)) as V.
    assert (Step : exists w1 new1,
      (if num_gt (Binary64.budgetLimit c) 0 then
         if num_ge spent
              (Double.mul (Binary64.budgetLimit c) (Double.number (8 # 10)))
         then
           scheduleBudgetAlert (Category.name c) spent (Binary64.budgetLimit c)
         else ret tt
       else ret tt) w = (Ok tt, w1)
      /\ storage w1 = storage w /\ calm w1 = true
      /\ scheduled w1 = scheduled w ++ new1
      /\ map headline new1
         = (if alertsEnabled (storage w) then
              match verdict spent (Binary64.budgetLimit c) with
              | Some t => [(t, Category.name c)]
              | None => []
              end
            else [])
      /\ Forall (fun n => alert_category n = Category.name c
                          /\ alert_spent n = spent
                          /\ alert_limit n = Binary64.budgetLimit c) new1).
    { rewrite <- V. clear V.
      destruct (num_gt (Binary64.budgetLimit c) 0);
        [|exists w, []; rewrite app_nil_r;
          destruct (alertsEnabled (storage w)); repeat split; auto; constructor].
      destruct (num_ge spent
                  (Double.mul (Binary64.budgetLimit c) (Double.number (8 # 10))));
        [|exists w, []; rewrite app_nil_r;
          destruct (alertsEnabled (storage w)); repeat split; auto; constructor].
      destruct (scheduleBudgetAlert_calm (Category.name c) spent
                  (Binary64.budgetLimit c) w Hc) as (w1 & R & Hs & Hc1 & Hsch).
      exists w1. eexists. split; [exact R|]. split; [exact Hs|]. split; [exact Hc1|].
      split; [exact Hsch|].
      destruct (alertsEnabled (storage w)); [|split; constructor].
      destruct (num_ge (Double.mul (Double.div spent (Binary64.budgetLimit c)) 100) 100);
        [split; [reflexivity | repeat constructor]|].
      destruct (num_ge (Double.mul (Double.div spent (Binary64.budgetLimit c)) 100) 80);
        [split; [reflexivity | repeat constructor]|].
      split; constructor. }
    destruct Step as (w1 & new1 & R1 & Hs1 & Hc1 & Hsch1 & Hh1 & Hf1).
    rewrite R1. cbv beta iota.
    destruct (IH w1 Hc1) as (w2 & new2 & R2 & Hs2 & Hc2 & Hsch2 & Hh2 & Hf2).
    exists w2, (new1 ++ new2). split; [exact R2|].
    split; [congruence|]. split; [exact Hc2|].
    split; [rewrite Hsch2, Hsch1, app_assoc; reflexivity|].
    split.
    + rewrite map_app, Hh1, Hh2, Hs1. unfold expectedAlerts. cbn [flat_map].
      destruct (alertsEnabled (storage w)); reflexivity.
    + apply Forall_app. split.
      * eapply Forall_impl; [|exact Hf1]. intros n (Hn & Hsp & Hl).
        exists c. split; [now left|]. split; [exact Hn|]. split; [exact Hsp | exact Hl].
      * eapply Forall_impl; [|exact Hf2]. intros n (c' & Hin & H').
        exists c'. split; [now right | exact H'].
Qed.

End BudgetAlerts.

Section BudgetClaims.
Import NotificationService.

Lemma verdict_cases (spent limit : Q) :
  (verdict spent limit = Some BudgetExceeded
   <-> (0 < limit /\ gate limit <= spent /\ 100 <= percentageOf spent limit)%Q)
  /\ (verdict spent limit = Some BudgetWarning
      <-> (0 < limit /\ gate limit <= spent
           /\ 80 <= percentageOf spent limit /\ percentageOf spent limit < 100)%Q)
  /\ (verdict spent limit = None
      <-> (~ 0 < limit \/ spent < gate limit \/ percentageOf spent limit < 80)%Q).
Proof.
  unfold verdict.
  destruct (Qlt_le_dec 0 limit) as [Hl|Hl];
    [destruct (Qlt_le_dec spent (gate limit)) as [G|G];
       [|destruct (Qlt_le_dec (percentageOf spent limit) 80) as [Lo|Lo];
           [|destruct (Qlt_le_dec (percentageOf spent limit) 100) as [Hi|Hi]]]|];
    (split; [|split]); split;
    try discriminate; try reflexivity; intros; try lra; tauto || (try lra).
Qed.

Lemma checkBudgetAlerts_calm (w : World) :
  calm w = true ->
  exists w' new,
    checkBudgetAlerts w = (Ok tt, w')
    /\ storage w' = storage w
    /\ scheduled w' = scheduled w ++ new
    /\ map headline new
       = (if alertsEnabled (storage w)
          then expectedAlerts (listed (transactions_item (storage w)))
                 (listed (categories_item (storage w))) (now w)
          else [])
    /\ Forall (fun n =>
                 exists c, In c (listed (categories_item (storage w)))
                           /\ alert_category n = Category.name c
                           /\ alert_spent n
                              = spentInMonth (listed (transactions_item (storage w)))
                                  (Category.name c) (now w)
                           /\ alert_limit n = Binary64.budgetLimit c) new.
Proof.
  intros Hc.
  assert (H1 : calm (served w) = true) by apply (calm_served _ Hc).
  assert (H2 : calm (served (served w)) = true) by apply (calm_served _ H1).
  assert (H3 : calm (served (served (served w))) = true) by apply (calm_served _ H2).
  assert (H4 : calm (ticked (served (served (served w)))) = true)
    by (rewrite calm_ticked; exact H3).
  unfold checkBudgetAlerts, try_catch.
  unfold bind at 1. rewrite getTransactions_eq, (calm_rejected _ Hc). cbv beta iota.
  unfold bind at 1. rewrite getCategories_eq, (calm_rejected _ H1). cbv beta iota.
  unfold bind at 1. rewrite getBudgets_eq. cbv beta iota.
  unfold bind at 1. rewrite new_Date_eq. cbv beta iota zeta.
  destruct (alert_loop (listed (transactions_item (storage w)))
              (now w) (listed (categories_item (storage w))) _ H4)
    as (w' & new & R & Hs & _ & Hsch & Hh & Hf).
  change (now (served (served (served w)))) with (now w).
  change (storage (served w)) with (storage w).
  cbv zeta in R. rewrite R. exists w', new.
  rewrite Hs, storage_ticked in *. rewrite Hsch, scheduled_ticked.
  repeat split; assumption.
Qed.

(** C6, as the code has it.  On a platform that serves the requests,
    [checkBudgetAlerts] returns and schedules, in the order of the stored
    categories, exactly the alerts the budget check owes, provided the
    stored settings have both [notificationsEnabled] and [budgetAlerts]
    on; with either switch off, or without settings, it schedules nothing.
    The alerts owed: for each category the expenses of the current
    calendar month carrying its name are added up in stored order, in the
    arithmetic of doubles.  A category gets nothing when its limit is not
    positive, when the sum is below the double computed for
    [limit * 0.8], or when the percentage computed as
    [(sum / limit) * 100] is below 80; it gets a warning when the sum
    passes the first test and the percentage is from 80 to below 100, and
    an exceeded alert when the sum passes the first test and the
    percentage is 100 or more.  Each alert carries the name, the sum and
    the limit of its category. *)
Theorem checkBudgetAlerts_schedules_owed_alerts (w : World) :
  calm w = true ->
  (exists new,
     returns checkBudgetAlerts w tt
     /\ scheduled (snd (checkBudgetAlerts w)) = scheduled w ++ new
     /\ map headline new
        = (if alertsEnabled (storage w)
           then expectedAlerts (listed (transactions_item (storage w)))
                  (listed (categories_item (storage w))) (now w)
           else [])
     /\ Forall (fun n =>
                  exists c, In c (listed (categories_item (storage w)))
                            /\ alert_category n = Category.name c
                            /\ alert_spent n
                               = spentInMonth (listed (transactions_item (storage w)))
                                   (Category.name c) (now w)
                            /\ alert_limit n = Binary64.budgetLimit c) new)
  /\ (forall spent limit,
        (verdict spent limit = Some BudgetExceeded
         <-> (0 < limit /\ gate limit <= spent
              /\ 100 <= percentageOf spent limit)%Q)
        /\ (verdict spent limit = Some BudgetWarning
            <-> (0 < limit /\ gate limit <= spent
                 /\ 80 <= percentageOf spent limit
                 /\ percentageOf spent limit < 100)%Q)
        /\ (verdict spent limit = None
            <-> (~ 0 < limit \/ spent < gate limit
                 \/ percentageOf spent limit < 80)%Q)).
Proof.
  intros Hc. split; [|apply verdict_cases].
  destruct (checkBudgetAlerts_calm w Hc) as (w' & new & R & _ & Hsch & Hh & Hf).
  exists new. unfold returns. rewrite R. repeat split; assumption.
Qed.

(** C6 on the sample world: 80 spent on food in March against a limit of
    100, alerts switched on. *)
Lemma checkBudgetAlerts_schedules_owed_alerts_witness :
  exists new,
    scheduled (snd (checkBudgetAlerts Sample.world)) = new
    /\ map headline new = [(BudgetWarning, "Food"%string)].
Proof.
  destruct (checkBudgetAlerts_schedules_owed_alerts Sample.world eq_refl)
    as ((new & _ & Hsch & Hh & _) & _).
  exists new. split; [exact Hsch|]. rewrite Hh. vm_compute. reflexivity.
Defined.

(** C6 refuted as stated.  Seventy, eighty and ninety cents spent on food
    come to 2.40, which is 80% of the limit of 3; the settings allow the
    alerts and the platform serves the requests, and no alert is raised:
    the doubles add up to the double nearest to 2.4, which lies below the
    double computed for [3 * 0.8].  And with budget alerts switched off
    in the settings, the sample category at 80% of its limit raises no
    alert either. *)
Lemma checkBudgetAlerts_silent_at_80_percent :
  (listed (transactions_item (storage Sample_snackWorld)) = Sample_snacks
   /\ listed (categories_item (storage Sample_snackWorld)) = [Sample_smallBudget]
   /\ alertsEnabled (storage Sample_snackWorld) = true
   /\ (amountsOf Sample_snacks == (80 # 100) * Category.budgetLimit Sample_smallBudget)%Q
   /\ spentInMonth Sample_snacks "Food" Sample.morning = Double.number (24 # 10)
   /\ (spentInMonth Sample_snacks "Food" Sample.morning
       < gate (Binary64.budgetLimit Sample_smallBudget))%Q
   /\ returns checkBudgetAlerts Sample_snackWorld tt
   /\ scheduled (snd (checkBudgetAlerts Sample_snackWorld)) = [])
  /\ (spentInMonth Sample.ledger "Food" Sample.morning = 80%Q
      /\ Binary64.budgetLimit Sample.food = 100%Q
      /\ listed (categories_item (storage Sample_muted)) = [Sample.food]
      /\ listed (transactions_item (storage Sample_muted)) = Sample.ledger
      /\ now Sample_muted = Sample.morning
      /\ returns checkBudgetAlerts Sample_muted tt
      /\ scheduled (snd (checkBudgetAlerts Sample_muted)) = []).
Proof. vm_compute. repeat split; discriminate. Qed.

End BudgetClaims.

(** ** Maps and sorting *)

Section MapFacts.



Lemma get_none (k : string) (m : JSMap.t) :
  JSMap.get k m = None <-> ~ In k (keysOf m).
Proof.
  induction m as [|[k' v'] m IH]; simpl.
  - tauto.
  - destruct (String.eqb k' k) eqn:E.
    + apply String.eqb_eq in E. split; [discriminate | intros H; exfalso; auto].
    + apply String.eqb_neq in E. rewrite IH. tauto.
Qed.

Lemma keysOf_set (k : string) (v : Q) (m : JSMap.t) :
  keysOf (JSMap.set k v m)
  = if in_dec string_dec k (keysOf m) then keysOf m else keysOf m ++ [k].
Proof.
  induction m as [|[k' v'] m IH]; simpl; [reflexivity|].
  destruct (String.eqb k' k) eqn:E.
  - apply String.eqb_eq in E. subst k'.
    destruct (string_dec k k) as [Y|N]; [reflexivity | congruence].
  - apply String.eqb_neq in E. simpl. rewrite IH.
    destruct (string_dec k' k) as [Y|N]; [congruence|].
    destruct (in_dec string_dec k (keysOf m)); reflexivity.
Qed.





End MapFacts.

Section SortFacts.
Context {A : Type} (compare : A -> A -> Q).

Hypothesis compare_total : forall a b, precedes compare a b \/ precedes compare b a.
Hypothesis compare_trans :
  forall a b c, precedes compare a b -> precedes compare b c -> precedes compare a c.

Lemma insert_Permutation (x : A) (l : list A) :
  Permutation (JSArray.insert compare x l) (x :: l).
Proof.
  induction l as [|y l IH]; simpl; [apply Permutation_refl|].
  destruct (Qle_bool (compare x y) 0); [apply Permutation_refl|].
  apply perm_trans with (y :: x :: l); [apply perm_skip, IH | apply perm_swap].
Qed.

Lemma sort_Permutation (l : list A) : Permutation (JSArray.sort compare l) l.
Proof.
  induction l as [|x l IH]; simpl; [apply perm_nil|].
  apply perm_trans with (x :: JSArray.sort compare l);
    [apply insert_Permutation | apply perm_skip, IH].
Qed.

Lemma insert_sorted (x : A) (l : list A) :
  StronglySorted (precedes compare) l -> StronglySorted (precedes compare) (JSArray.insert compare x l).
Proof.
  induction l as [|y l IH]; intros S; simpl.
  - repeat constructor.
  - inversion S as [|? ? S' F]; subst.
    destruct (Qle_bool (compare x y) 0) eqn:E.
    + apply Qle_bool_iff in E. constructor; [exact S|].
      constructor; [exact E|].
      eapply Forall_impl; [|exact F]. intros z Hz. eapply compare_trans; eauto.
    + constructor; [apply IH, S'|].
      assert (Hyx : precedes compare y x).
      { destruct (compare_total x y) as [H|H]; [|exact H].
        apply Qle_bool_iff in H. unfold precedes in *. congruence. }
      eapply Permutation_Forall.
      * apply Permutation_sym, insert_Permutation.
      * constructor; assumption.
Qed.

Lemma sort_sorted (l : list A) : StronglySorted (precedes compare) (JSArray.sort compare l).
Proof.
  induction l as [|x l IH]; simpl; [constructor | apply insert_sorted, IH].
Qed.

End SortFacts.

(** The same for a comparator that is consistent on the elements that
    satisfy [P] only. *)
Section SortFactsOn.
Context {A : Type} (compare : A -> A -> Q) (P : A -> Prop).

Hypothesis compare_total :
  forall a b, P a -> P b -> precedes compare a b \/ precedes compare b a.
Hypothesis compare_trans :
  forall a b c, P a -> P b -> P c ->
                precedes compare a b -> precedes compare b c -> precedes compare a c.



End SortFactsOn.

Section BreakdownFacts.
Import Reports.

Lemma filter_filter_and {A} (f g : A -> bool) (l : list A) :
  filter f (filter g l) = filter (fun x => f x && g x) l.
Proof.
  induction l as [|a l IH]; simpl; [reflexivity|].
  destruct (g a); simpl; rewrite ?andb_true_r, ?andb_false_r;
    [destruct (f a)|]; rewrite IH; reflexivity.
Qed.

Lemma window_expenses (period : PeriodType) (now : Z) (T : list Transaction.t) :
  filter (is_type expense) (periodTransactions period now T)
  = windowExpenses period now T.
Proof. apply filter_filter_and. Qed.


End BreakdownFacts.

(** *** The breakdown in the arithmetic of doubles *)

Section RoundedBreakdown.
Import Reports.




(** Whole amounts: the sums of the code are not rounded. *)

Lemma whole_roundedSum (l : list Transaction.t) :
  forall (b : Q) (z : Z),
    (b == inject_Z z)%Q ->
    forallb (fun t => isWhole (Transaction.amount t)) l = true ->
    (Qabs b + magnitude l < inject_Z (2 ^ 53))%Q ->
    (fold_left (fun sum t => Double.add sum (Binary64.amount t)) l b
     == b + amountsOf l)%Q.
Proof.
  induction l as [|t l IH]; intros b z Eb W B.
  - unfold amountsOf. simpl. ring.
  - cbn [forallb] in W. apply andb_prop in W as [Wt W].
    destruct (isWhole_spec _ Wt) as (za & Ea).
    unfold magnitude in B. cbn [map fold_right] in B. fold (magnitude l) in B.
    pose proof (magnitude_nonneg l) as M.
    destruct (whole_step b (Transaction.amount t) z za Eb Ea) as [A _]; [lra|].
    cbn [fold_left]. unfold Binary64.amount at 2.
    rewrite (IH _ (z + za)).
    + rewrite A. unfold amountsOf. simpl. ring.
    + rewrite A, inject_Z_plus, Eb, Ea. reflexivity.
    + exact W.
    + rewrite A. pose proof (Qabs_triangle b (Transaction.amount t)). lra.
Qed.

Lemma wholeAmounts_filter (p : Transaction.t -> bool) (l : list Transaction.t) :
  wholeAmounts l = true -> wholeAmounts (filter p l) = true.
Proof.
  unfold wholeAmounts. intros H. apply andb_prop in H as [W B].
  apply andb_true_intro. split.
  - clear B. induction l as [|t l IH]; [reflexivity|].
    cbn [forallb] in W. apply andb_prop in W as [Wt W]. cbn [filter].
    destruct (p t); cbn [forallb]; [rewrite Wt|]; apply IH, W.
  - apply negb_true_iff, not_true_iff_false. rewrite Qle_bool_iff.
    apply negb_true_iff, not_true_iff_false in B. rewrite Qle_bool_iff in B.
    assert (L : (magnitude (filter p l) <= magnitude l)%Q).
    { clear. induction l as [|t l IH]; [unfold magnitude; simpl; lra|].
      cbn [filter]. pose proof (Qabs_nonneg (Transaction.amount t)).
      destruct (p t); unfold magnitude in *; simpl; lra. }
    lra.
Qed.

Lemma whole_sum (l : list Transaction.t) :
  wholeAmounts l = true -> (roundedSum l == amountsOf l)%Q.
Proof.
  intros W. unfold wholeAmounts in W. apply andb_prop in W as [W B].
  unfold roundedSum. rewrite (whole_roundedSum l 0 0); [ring | reflexivity | exact W |].
  apply negb_true_iff, not_true_iff_false in B. rewrite Qle_bool_iff in B.
  change (Qabs 0) with 0%Q. lra.
Qed.



End RoundedBreakdown.

Section BreakdownClaims.
Import Reports.

Lemma StronglySorted_weaken {A} (R R' : A -> A -> Prop) (l : list A) :
  (forall a b, R a b -> R' a b) -> StronglySorted R l -> StronglySorted R' l.
Proof.
  intros H. induction 1 as [|a l S IH F]; constructor; auto.
  eapply Forall_impl; [|exact F]. auto.
Qed.





End BreakdownClaims.

(* ================================================================== *)
(** * The rest of the storage service *)

Section MoreStorage.
Import DatabaseService STORAGE_KEYS.

Lemma filter_idempotent {A} (f : A -> bool) (l : list A) :
  filter f (filter f l) = filter f l.
Proof.
  induction l as [|a l IH]; simpl; [reflexivity|].
  destruct (f a) eqn:E; simpl; rewrite ?E, IH; reflexivity.
Qed.

Lemma filter_all {A} (f : A -> bool) (l : list A) :
  (forall a, In a l -> f a = true) -> filter f l = l.
Proof.
  induction l as [|a l IH]; intros H; simpl; [reflexivity|].
  rewrite (H a (or_introl eq_refl)), IH; [reflexivity|].
  intros b Hb. apply H. now right.
Qed.

Lemma deleteTransaction_served (id : string) (w : World) :
  rejected w = false ->
  rejected (served w) = false ->
  deleteTransaction id w
  = (Ok tt,
     with_storage
       (put TRANSACTIONS
          (Some (Json (filter (fun t => negb (String.eqb (Transaction.id t) id))
                         (listed (transactions_item (storage w))))))
          (storage w))
       (served (served w))).
Proof.
  intros Hr Hw. pose proof (deleteTransaction_eq id w) as E. cbv zeta in E.
  rewrite Hr, Hw in E. exact E.
Qed.

(** X1. [deleteTransaction], when its read and its write are served, returns
    and leaves under the transactions key exactly the stored transactions
    that do not carry the id, in their order (the stored list filtered):
    every transaction carrying it goes, also when several do, and when
    none does the list read afterwards is the list read before.  The other
    keys are untouched. *)
Theorem deleteTransaction_removes_every_match (w : World) (id : string) :
  rejected w = false ->
  rejected (served w) = false ->
  let before := listed (transactions_item (storage w)) in
  let w' := snd (deleteTransaction id w) in
  let after := listed (transactions_item (storage w')) in
  returns (deleteTransaction id) w tt
  /\ after = filter (fun t => negb (String.eqb (Transaction.id t) id)) before
  /\ (forall t, In t after <-> In t before /\ Transaction.id t <> id)
  /\ (exists dropped,
        Permutation before (after ++ dropped)
        /\ Forall (fun t => Transaction.id t = id) dropped)
  /\ ((forall t, In t before -> Transaction.id t <> id) -> after = before)
  /\ storage w' = put TRANSACTIONS (transactions_item (storage w')) (storage w).
Proof.
  intros Hr Hw. cbv zeta. unfold returns.
  rewrite (deleteTransaction_served id w Hr Hw). simpl.
  set (T := listed (transactions_item (storage w))).
  split; [reflexivity|]. split; [reflexivity|]. split; [|split; [|split; [|reflexivity]]].
  - intros t. rewrite filter_In, negb_true_iff, String.eqb_neq. reflexivity.
  - exists (filter (fun t => String.eqb (Transaction.id t) id) T). split.
    + clear. induction T as [|t T IH]; simpl; [constructor|].
      destruct (String.eqb (Transaction.id t) id); simpl.
      * apply Permutation_cons_app, IH.
      * apply perm_skip, IH.
    + apply Forall_forall. intros t Ht. apply filter_In in Ht.
      apply String.eqb_eq, Ht.
  - intros H. apply filter_all. intros t Ht.
    apply negb_true_iff, String.eqb_neq, H, Ht.
Qed.

(** X1 on the sample world: the lunch goes, dinner and salary stay. *)
Lemma deleteTransaction_removes_every_match_witness :
  returns (deleteTransaction "a") Sample.world tt
  /\ listed (transactions_item (storage (snd (deleteTransaction "a" Sample.world))))
     = [Sample.dinner; Sample.salary].
Proof.
  destruct (deleteTransaction_removes_every_match Sample.world "a" eq_refl eq_refl)
    as (R & _).
  split; [exact R | vm_compute; reflexivity].
Defined.

(** X2. Deleting the same id twice leaves the storage as deleting it once
    did, on a platform that serves the requests. *)
Theorem deleteTransaction_twice (w : World) (id : string) :
  calm w = true ->
  let once := snd (deleteTransaction id w) in
  returns (deleteTransaction id) once tt
  /\ storage (snd (deleteTransaction id once)) = storage once.
Proof.
  intros Hc. cbv zeta. unfold returns.
  pose proof (calm_served w Hc) as H1.
  rewrite (deleteTransaction_served id w (calm_rejected w Hc) (calm_rejected _ H1)).
  cbn [snd].
  set (w1 := with_storage _ (served (served w))).
  assert (C1 : calm w1 = true) by apply (calm_served _ H1).
  rewrite (deleteTransaction_served id w1 (calm_rejected _ C1)
             (calm_rejected _ (calm_served _ C1))).
  subst w1. simpl. rewrite filter_idempotent. split; reflexivity.
Qed.

Lemma deleteTransaction_twice_witness :
  storage (snd (deleteTransaction "a" (snd (deleteTransaction "a" Sample.world))))
  = storage (snd (deleteTransaction "a" Sample.world)).
Proof.
  destruct (deleteTransaction_twice Sample.world "a" eq_refl) as (_ & E). exact E.
Defined.

End MoreStorage.

Section SaveAndAfter.
Import DatabaseService STORAGE_KEYS.

(** [saveTransaction] on a platform that serves the requests. *)
Lemma saveTransaction_calm (d : Transaction.draft) (w : World) :
  calm w = true ->
  exists e w',
    saveTransaction d w = (Ok e, w')
    /\ calm w' = true
    /\ transactions_item (storage w')
       = Some (Json (listed (transactions_item (storage w)) ++ [e]))
    /\ Transaction.id e
       = (Base36.toString36 (now w) ++ hd EmptyString (randoms w))%string
    /\ Transaction.type e = Transaction.d_type d
    /\ Transaction.amount e = Transaction.d_amount d.
Proof.
  intros Hc. pose proof (saveTransaction_eq d w) as E. cbv zeta in E.
  pose proof (calm_served w Hc) as H1.
  rewrite (calm_rejected w Hc), (calm_rejected _ H1) in E.
  eexists. eexists. split; [exact E|]. split; [|repeat split].
  change (calm (served (ticked (ticked (drawn (served w))))) = true).
  apply calm_served. rewrite !calm_ticked, calm_drawn. exact H1.
Qed.

(** X3. On a platform that serves the requests, saving a draft and then
    deleting the entity that was returned brings the stored list back to
    what it was, provided the id generated for the entity is carried by no
    stored transaction (the delete removes every transaction of that id). *)
Theorem saveTransaction_then_delete (w : World) (d : Transaction.draft) :
  calm w = true ->
  (forall t, In t (listed (transactions_item (storage w))) ->
             Transaction.id t
             <> (Base36.toString36 (now w) ++ hd EmptyString (randoms w))%string) ->
  exists e w1 w2,
    saveTransaction d w = (Ok e, w1)
    /\ deleteTransaction (Transaction.id e) w1 = (Ok tt, w2)
    /\ listed (transactions_item (storage w2)) = listed (transactions_item (storage w)).
Proof.
  intros Hc Hfresh.
  destruct (saveTransaction_calm d w Hc) as (e & w1 & Hsave & C1 & Hst & Hid & _).
  exists e, w1. eexists. split; [exact Hsave|].
  rewrite (deleteTransaction_served (Transaction.id e) w1 (calm_rejected _ C1)
             (calm_rejected _ (calm_served _ C1))).
  split; [reflexivity|]. simpl. rewrite Hst. simpl.
  rewrite filter_app. simpl. rewrite String.eqb_refl. simpl. rewrite app_nil_r.
  apply filter_all. intros t Ht. apply negb_true_iff, String.eqb_neq.
  rewrite Hid. apply Hfresh, Ht.
Qed.

Lemma saveTransaction_then_delete_witness :
  exists e w1 w2,
    saveTransaction Sample.coffee Sample.world = (Ok e, w1)
    /\ deleteTransaction (Transaction.id e) w1 = (Ok tt, w2)
    /\ listed (transactions_item (storage w2)) = Sample.ledger.
Proof.
  apply (saveTransaction_then_delete Sample.world Sample.coffee eq_refl).
  simpl. intros t [<-|[<-|[<-|[]]]]; vm_compute; discriminate.
Defined.





End SaveAndAfter.

Section VerbatimWrites.
Import DatabaseService STORAGE_KEYS.

(** X5. [saveCategories] stores the collection it is given verbatim: when
    its write is served it returns, and a served [getCategories] then
    answers exactly that collection, whatever was under the key before
    (nothing, an unparseable text, another collection) and whatever the
    collection holds (repeated names or ids included).  The other keys are
    untouched. *)
Theorem saveCategories_then_getCategories (w : World) (categories : list Category.t) :
  rejected w = false ->
  let w' := snd (saveCategories categories w) in
  returns (saveCategories categories) w tt
  /\ (rejected w' = false -> returns getCategories w' categories)
  /\ storage w' = put CATEGORIES (Some (Json categories)) (storage w).
Proof.
  intros Hr. cbv zeta. unfold returns. rewrite saveCategories_eq, Hr. cbn [fst snd].
  split; [reflexivity|]. split; [|reflexivity].
  intros Hr'. rewrite getCategories_eq, Hr'. reflexivity.
Qed.

Lemma saveCategories_then_getCategories_witness :
  returns getCategories (snd (saveCategories [Sample_colorless; Sample.food] Sample.world))
    [Sample_colorless; Sample.food].
Proof.
  destruct (saveCategories_then_getCategories Sample.world
              [Sample_colorless; Sample.food] eq_refl) as (_ & H & _).
  apply H. reflexivity.
Defined.

(** X6. [saveSettings] followed by [getSettings], both served, answers the
    settings that were saved, whatever was stored before; [getSettings]
    answers no settings when its read is rejected, when the key is absent
    and when the text under it is empty or does not parse, and never
    throws. *)
Theorem saveSettings_then_getSettings (w : World) (settings : AppSettings.t) :
  (rejected w = false ->
   let w' := snd (saveSettings settings w) in
   returns (saveSettings settings) w tt
   /\ (rejected w' = false -> returns getSettings w' (Some settings)))
  /\ returns getSettings w
       (if rejected w then None else settled (settings_item (storage w)))
  /\ settled None = None
  /\ settled (Some EmptyText) = None
  /\ settled (Some Unparseable) = None.
Proof.
  unfold returns. split; [|rewrite getSettings_eq; repeat split].
  intros Hr. cbv zeta. rewrite saveSettings_eq, Hr. cbn [fst snd].
  split; [reflexivity|]. intros Hr'. rewrite getSettings_eq, Hr'. reflexivity.
Qed.

Lemma saveSettings_then_getSettings_witness :
  returns getSettings (snd (saveSettings defaultSettings Sample_fresh))
    (Some defaultSettings)
  /\ returns getSettings Sample_fresh None.
Proof.
  destruct (saveSettings_then_getSettings Sample_fresh defaultSettings) as (H & G & _).
  destruct (H eq_refl) as (_ & H').
  split; [apply H'; reflexivity | exact G].
Defined.

(** X7. [addCategory], when its read and its write are served, returns the
    draft under a generated id and leaves under the categories key the
    collection read before with that category appended; it does not look
    at the names already there, so a name can be stored twice. *)
Theorem addCategory_appends (w : World) (d : Category.draft) :
  rejected w = false ->
  rejected (served w) = false ->
  exists c w',
    addCategory d w = (Ok c, w')
    /\ withoutId c = d
    /\ Category.id c = (Base36.toString36 (now w) ++ hd EmptyString (randoms w))%string
    /\ listed (categories_item (storage w')) = listed (categories_item (storage w)) ++ [c]
    /\ storage w' = put CATEGORIES (categories_item (storage w')) (storage w).
Proof.
  intros Hr Hw. pose proof (addCategory_eq d w) as E. cbv zeta in E.
  rewrite Hr, Hw in E. eexists. eexists. split; [exact E|].
  destruct d. repeat split.
Qed.

Lemma addCategory_appends_witness :
  exists c w',
    addCategory (withoutId Sample.food) Sample.world = (Ok c, w')
    /\ map Category.name (listed (categories_item (storage w'))) = ["Food"; "Food"]%string.
Proof.
  destruct (addCategory_appends Sample.world (withoutId Sample.food) eq_refl eq_refl)
    as (c & w' & E & Hd & _ & Hl & _).
  exists c, w'. split; [exact E|]. rewrite Hl, map_app. simpl.
  apply (f_equal Category.d_name) in Hd. simpl in Hd. rewrite Hd. reflexivity.
Defined.

(** X8. [saveBudget], when its read and its write are served, returns the
    draft under a generated id and leaves under the budgets key the
    collection read before with that budget appended, the other keys
    untouched.  The budget's [categoryId] is not looked up: a budget can be
    stored for a category that does not exist. *)
Theorem saveBudget_appends (w : World) (d : Budget.draft) :
  rejected w = false ->
  rejected (served w) = false ->
  exists b w',
    saveBudget d w = (Ok b, w')
    /\ (Budget.categoryId b, Budget.amount b, Budget.period b,
        Budget.startDate b, Budget.notifications b)
       = (Budget.d_categoryId d, Budget.d_amount d, Budget.d_period d,
          Budget.d_startDate d, Budget.d_notifications d)
    /\ Budget.id b = (Base36.toString36 (now w) ++ hd EmptyString (randoms w))%string
    /\ listed (budgets_item (storage w')) = listed (budgets_item (storage w)) ++ [b]
    /\ storage w' = put BUDGETS (budgets_item (storage w')) (storage w).
Proof.
  intros Hr Hw. pose proof (saveBudget_eq d w) as E. cbv zeta in E.
  rewrite Hr, Hw in E. eexists. eexists. split; [exact E|]. repeat split.
Qed.

Lemma saveBudget_appends_witness :
  exists b w',
    saveBudget (Budget.mkDraft "no-such-category" 250 monthly Sample.morning true)
      Sample.world = (Ok b, w')
    /\ listed (budgets_item (storage w')) = [b]
    /\ Budget.categoryId b = "no-such-category"%string.
Proof.
  destruct (saveBudget_appends Sample.world
              (Budget.mkDraft "no-such-category" 250 monthly Sample.morning true)
              eq_refl eq_refl) as (b & w' & E & Hf & _ & Hl & _).
  exists b, w'. split; [exact E|]. split; [exact Hl|].
  injection Hf; intros; assumption.
Defined.

End VerbatimWrites.

(** * Notes *)

(** [new] is the note [old] with the fields named in [updates] replaced and
    [updatedAt] set to [stamp]. *)
Definition patchedNote (old : Note.t) (updates : Note.partial) (stamp : Z)
    (new : Note.t) : Prop :=
  Note.id new = or_else (Note.p_id updates) (Note.id old)
  /\ Note.title new = or_else (Note.p_title updates) (Note.title old)
  /\ Note.content new = or_else (Note.p_content updates) (Note.content old)
  /\ Note.tags new = or_else (Note.p_tags updates) (Note.tags old)
  /\ Note.attachments new = or_else (Note.p_attachments updates) (Note.attachments old)
  /\ Note.transactionId new
     = or_else (Note.p_transactionId updates) (Note.transactionId old)
  /\ Note.createdAt new = or_else (Note.p_createdAt updates) (Note.createdAt old)
  /\ Note.updatedAt new = stamp.

(** Two notes, the first about the sample lunch. *)
Definition Sample_receipt : Note.t :=
  Note.mk "n1" "Receipt" "keep for taxes" ["tax"]%string [] (Some "a"%string)
    (JSDate.ymdhm 2024 2 3 14 0) (JSDate.ymdhm 2024 2 3 14 0).
Definition Sample_idea : Note.t :=
  Note.mk "n2" "Idea" "save more" ["plan"; "tax"]%string [] None
    (JSDate.ymdhm 2024 2 10 8 0) (JSDate.ymdhm 2024 2 10 8 0).
Definition Sample_notebook : World :=
  with_storage (put STORAGE_KEYS.NOTES (Some (Json [Sample_receipt; Sample_idea]))
                  Sample.store)
    Sample.world.

(** [{ title: 'Receipt (lunch)' }] *)
Definition Sample_retitle : Note.partial :=
  Note.mkPartial None (Some "Receipt (lunch)"%string) None None None None None None.

Section Notes.
Import DatabaseService STORAGE_KEYS.

(** X9. [saveNote], when its read and its write are served, returns the
    draft under a generated id with [createdAt] and [updatedAt] read from
    the clock, and leaves under the notes key the collection read before
    with that note appended, the other keys untouched.  The
    [transactionId] of the draft is stored as given, whether or not a
    transaction carries it. *)
Theorem saveNote_appends (w : World) (d : Note.draft) :
  rejected w = false ->
  rejected (served w) = false ->
  exists n w',
    saveNote d w = (Ok n, w')
    /\ listed (notes_item (storage w')) = listed (notes_item (storage w)) ++ [n]
    /\ storage w' = put NOTES (notes_item (storage w')) (storage w)
    /\ (Note.title n, Note.content n, Note.tags n, Note.attachments n,
        Note.transactionId n)
       = (Note.d_title d, Note.d_content d, Note.d_tags d, Note.d_attachments d,
          Note.d_transactionId d)
    /\ Note.id n = (Base36.toString36 (now w) ++ hd EmptyString (randoms w))%string
    /\ Note.createdAt n = now w + hd 0 (ticks w)
    /\ Note.updatedAt n = Note.createdAt n + hd 0 (tl (ticks w)).
Proof.
  intros Hr Hw. pose proof (saveNote_eq d w) as E. cbv zeta in E.
  rewrite Hr, Hw in E. eexists. eexists. split; [exact E|].
  simpl. rewrite now_ticked, now_drawn, ticks_drawn. simpl. repeat split.
Qed.

Lemma saveNote_appends_witness :
  exists n w',
    saveNote (Note.mkDraft "Gone" "about a deleted transaction" [] [] (Some "zzz"%string))
      Sample_notebook = (Ok n, w')
    /\ listed (notes_item (storage w')) = [Sample_receipt; Sample_idea; n]
    /\ Note.transactionId n = Some "zzz"%string.
Proof.
  destruct (saveNote_appends Sample_notebook
              (Note.mkDraft "Gone" "about a deleted transaction" [] [] (Some "zzz"%string))
              eq_refl eq_refl) as (n & w' & E & Hl & _ & Hf & _).
  exists n, w'. split; [exact E|]. split; [exact Hl|].
  injection Hf; intros; assumption.
Defined.

Lemma updateNote_hit (w : World) (id : string) (updates : Note.partial)
    (pre post : list Note.t) (old : Note.t) :
  rejected w = false ->
  listed (notes_item (storage w)) = pre ++ old :: post ->
  (forall n, In n pre -> Note.id n <> id) ->
  Note.id old = id ->
  updateNote id updates w
  = if rejected (served w)
    then (Thrown MediumError, served (ticked (served w)))
    else (Ok tt,
          with_storage
            (put NOTES (Some (Json (pre ++ spreadNote old updates (now w) :: post)))
               (storage w))
            (served (ticked (served w)))).
Proof.
  intros Hr Hl Hpre Hold. unfold updateNote, try_catch, bind.
  rewrite getNotes_eq, Hr, Hl.
  assert (Hidx : findIndex (fun n => String.eqb (Note.id n) id) (pre ++ old :: post)
                 = Z.of_nat (List.length pre)).
  { clear Hl. induction pre as [|a pre IH]; simpl.
    - rewrite (proj2 (String.eqb_eq _ _) Hold). reflexivity.
    - rewrite (proj2 (String.eqb_neq _ _) (Hpre a (or_introl eq_refl))).
      rewrite IH by (intros; apply Hpre; now right).
      destruct (Z.of_nat (List.length pre) =? -1) eqn:E; lia. }
  rewrite Hidx, Nat2Z.id.
  replace (negb (Z.of_nat (List.length pre) =? -1)) with true
    by (symmetry; apply negb_true_iff, Z.eqb_neq; lia).
  rewrite nth_error_middle, new_Date_eq, array_set_middle, setItem_eq.
  rewrite rejected_ticked, storage_ticked.
  destruct (rejected (served w)); reflexivity.
Qed.

(** X10. [updateNote] under an id that no stored note carries returns
    without throwing and requests no write, whatever the platform does.
    Under an id that is carried, with the read and the write served, it
    rewrites the first note carrying the id and nothing else: [updatedAt]
    becomes the clock reading of the call and every other field takes the
    value [updates] names for it ([id] and [createdAt] included) and keeps
    its old value otherwise. *)
Theorem updateNote_rewrites_first_match (w : World) (id : string)
    (updates : Note.partial) :
  ((forall n, In n (listed (notes_item (storage w))) -> Note.id n <> id) ->
   updateNote id updates w = (Ok tt, served w))
  /\ (rejected w = false ->
      rejected (served w) = false ->
      (exists n, In n (listed (notes_item (storage w))) /\ Note.id n = id) ->
      exists pre old post new w',
        listed (notes_item (storage w)) = pre ++ old :: post
        /\ (forall n, In n pre -> Note.id n <> id)
        /\ Note.id old = id
        /\ updateNote id updates w = (Ok tt, w')
        /\ storage w' = put NOTES (Some (Json (pre ++ new :: post))) (storage w)
        /\ patchedNote old updates (now w) new).
Proof.
  split.
  - intros H. unfold updateNote, try_catch, bind. rewrite getNotes_eq.
    set (l := if rejected w then [] else listed (notes_item (storage w))).
    assert (Hl : forall n, In n l -> String.eqb (Note.id n) id = false).
    { intros n Hn. apply String.eqb_neq. subst l.
      destruct (rejected w); [destruct Hn | auto]. }
    rewrite (findIndex_none _ _ Hl). reflexivity.
  - intros Hr Hw [n [Hin Hid]].
    destruct (findIndex_first (fun n => String.eqb (Note.id n) id)
                (listed (notes_item (storage w))))
      as (pre & old & post & Hl & Hpre & Hold & _).
    { exists n. split; [exact Hin | now apply String.eqb_eq]. }
    apply String.eqb_eq in Hold.
    assert (Hpre' : forall n, In n pre -> Note.id n <> id).
    { intros x Hx. apply String.eqb_neq. now apply Hpre. }
    exists pre, old, post, (spreadNote old updates (now w)).
    eexists. split; [exact Hl|]. split; [exact Hpre'|]. split; [exact Hold|].
    rewrite (updateNote_hit w id updates pre post old Hr Hl Hpre' Hold), Hw.
    split; [reflexivity|]. split; [reflexivity|].
    unfold patchedNote. simpl. repeat split.
Qed.

Lemma updateNote_rewrites_first_match_witness :
  updateNote "n9" Sample_retitle Sample_notebook = (Ok tt, served Sample_notebook)
  /\ exists new w',
       updateNote "n1" Sample_retitle Sample_notebook = (Ok tt, w')
       /\ listed (notes_item (storage w')) = [new; Sample_idea]
       /\ Note.title new = "Receipt (lunch)"%string
       /\ Note.createdAt new = Note.createdAt Sample_receipt
       /\ Note.updatedAt new = Sample.morning.
Proof.
  destruct (updateNote_rewrites_first_match Sample_notebook "n9" Sample_retitle)
    as (Hmiss & _).
  destruct (updateNote_rewrites_first_match Sample_notebook "n1" Sample_retitle)
    as (_ & Hhit).
  split.
  - apply Hmiss. simpl. intros n [<-|[<-|[]]]; discriminate.
  - destruct (Hhit eq_refl eq_refl) as
      (pre & old & post & new & w' & Hl & Hpre & Hold & Hrun & Hst & Hp).
    { exists Sample_receipt. split; [now left | reflexivity]. }
    destruct pre as [|x pre].
    + injection Hl as <- <-. exists new, w'. split; [exact Hrun|].
      rewrite Hst. destruct Hp as (_ & Ht & _ & _ & _ & _ & Hc & Hu).
      repeat split; assumption.
    + injection Hl as <- _. exfalso.
      apply (Hpre Sample_receipt); [now left | reflexivity].
Defined.

(** X11. [deleteNote], when its read and its write are served, returns and
    leaves under the notes key exactly the stored notes that do not carry
    the id, in their order (the stored list filtered); the other keys, the
    transactions among them, are untouched; and deleting the same id once
    more changes nothing. *)
Theorem deleteNote_removes_every_match (w : World) (id : string) :
  calm w = true ->
  let before := listed (notes_item (storage w)) in
  let w' := snd (deleteNote id w) in
  let after := listed (notes_item (storage w')) in
  returns (deleteNote id) w tt
  /\ after = filter (fun n => negb (String.eqb (Note.id n) id)) before
  /\ (forall n, In n after <-> In n before /\ Note.id n <> id)
  /\ (exists dropped,
        Permutation before (after ++ dropped)
        /\ Forall (fun n => Note.id n = id) dropped)
  /\ storage w' = put NOTES (notes_item (storage w')) (storage w)
  /\ storage (snd (deleteNote id w')) = storage w'.
Proof.
  intros Hc. cbv zeta. unfold returns.
  pose proof (calm_served w Hc) as H1.
  pose proof (deleteNote_eq id w) as E. cbv zeta in E.
  rewrite (calm_rejected w Hc), (calm_rejected _ H1) in E. rewrite E. cbn [fst snd].
  set (w1 := with_storage _ (served (served w))).
  assert (C1 : calm w1 = true) by apply (calm_served _ H1).
  pose proof (deleteNote_eq id w1) as E1. cbv zeta in E1.
  rewrite (calm_rejected _ C1), (calm_rejected _ (calm_served _ C1)) in E1.
  rewrite E1. subst w1. simpl.
  set (N := listed (notes_item (storage w))).
  split; [reflexivity|]. split; [reflexivity|]. split; [|split; [|split; [reflexivity|]]].
  - intros n. rewrite filter_In, negb_true_iff, String.eqb_neq. reflexivity.
  - exists (filter (fun n => String.eqb (Note.id n) id) N). split.
    + clear. induction N as [|n N IH]; simpl; [constructor|].
      destruct (String.eqb (Note.id n) id); simpl.
      * apply Permutation_cons_app, IH.
      * apply perm_skip, IH.
    + apply Forall_forall. intros n Hn. apply filter_In in Hn.
      apply String.eqb_eq, Hn.
  - rewrite filter_idempotent. reflexivity.
Qed.

Lemma deleteNote_removes_every_match_witness :
  returns (deleteNote "n1") Sample_notebook tt
  /\ listed (notes_item (storage (snd (deleteNote "n1" Sample_notebook)))) = [Sample_idea].
Proof.
  destruct (deleteNote_removes_every_match Sample_notebook "n1" eq_refl) as (R & _).
  split; [exact R | vm_compute; reflexivity].
Defined.

End Notes.

(** * Spending reads and an interrupted bootstrap *)


Section Spending.
Import DatabaseService STORAGE_KEYS.






End Spending.

Section InterruptedBootstrap.
Import DatabaseService STORAGE_KEYS.

(** [initialize] from a world without the marker, whatever the platform
    does: the storage afterwards is fully seeded, or the marker is as it
    was and the collections other than categories and settings too. *)
Lemma initialize_unmarked_any (w : World) :
  truthy (initialized_item (storage w)) = false ->
  exists w',
    initialize w = (Ok tt, w')
    /\ (seeded (storage w')
        \/ initialized_item (storage w') = initialized_item (storage w))
    /\ transactions_item (storage w') = transactions_item (storage w)
    /\ notes_item (storage w') = notes_item (storage w)
    /\ budgets_item (storage w') = budgets_item (storage w).
Proof.
  intros H. unfold initialize, try_catch. unfold bind at 1. rewrite getItem_eq.
  destruct (rejected w) eqn:R0.
  { eexists. split; [reflexivity|]. simpl. auto. }
  cbv beta iota.
  change (item INITIALIZED (storage w)) with (initialized_item (storage w)).
  rewrite H. cbn [negb]. cbv beta iota.
  destruct (seed_categories DEFAULT_INCOME_CATEGORIES (served w))
    as (inc & w1 & E1 & Hm1 & Hs1 & Hr1).
  destruct (seed_categories DEFAULT_EXPENSE_CATEGORIES w1)
    as (exp & w2 & E2 & Hm2 & Hs2 & Hr2).
  unfold bind at 1. rewrite E1. cbv beta iota.
  unfold bind at 1. rewrite E2. cbv beta iota.
  unfold bind at 1. rewrite saveCategories_eq.
  destruct (rejected w2) eqn:R1.
  { eexists. split; [reflexivity|]. simpl. rewrite Hs2, Hs1. simpl. auto. }
  cbv beta iota. unfold bind at 1. rewrite saveSettings_eq.
  match goal with |- context [rejected ?x] =>
    lazymatch x with with_storage _ _ => destruct (rejected x) eqn:R2 end end.
  { eexists. split; [reflexivity|]. simpl. rewrite Hs2, Hs1. simpl. auto. }
  cbv beta iota. rewrite setItem_eq.
  match goal with |- context [rejected ?x] =>
    lazymatch x with with_storage _ (served (with_storage _ _)) =>
      destruct (rejected x) eqn:R3 end end.
  { eexists. split; [reflexivity|]. simpl. rewrite Hs2, Hs1. simpl. auto. }
  eexists. split; [reflexivity|]. simpl. rewrite Hs2, Hs1. simpl.
  split; [|auto]. left. exists (inc ++ exp). rewrite map_app, Hm1, Hm2. repeat split.
Qed.

(** X14. [initialize] writes the marker last: started without the marker,
    whatever requests the platform rejects, it returns without throwing
    and the marker is present afterwards only if the default categories
    and the default settings are stored with it.  When the run was cut
    short the marker is still missing, so the next [initialize] on a
    platform that serves the requests seeds everything.  Transactions,
    notes and budgets are never touched. *)
Theorem initialize_marks_only_after_seeding (w : World) :
  truthy (initialized_item (storage w)) = false ->
  let w' := snd (initialize w) in
  returns initialize w tt
  /\ (truthy (initialized_item (storage w')) = true -> seeded (storage w'))
  /\ (truthy (initialized_item (storage w')) = false ->
      calm w' = true ->
      seeded (storage (snd (initialize w'))))
  /\ transactions_item (storage w') = transactions_item (storage w)
  /\ notes_item (storage w') = notes_item (storage w)
  /\ budgets_item (storage w') = budgets_item (storage w).
Proof.
  intros H. cbv zeta.
  destruct (initialize_unmarked_any w H) as (w' & E & Hs & Hrest).
  unfold returns. rewrite E. cbn [fst snd].
  split; [reflexivity|]. split; [|split; [|exact Hrest]].
  - intros Ht. destruct Hs as [Hs|Hs]; [exact Hs|].
    rewrite Hs, H in Ht. discriminate.
  - intros Hf Hc. destruct (initialize_unmarked w' Hf Hc) as (w'' & E' & Hs' & _).
    rewrite E'. exact Hs'.
Qed.

(** X14 on a first run whose settings write is rejected: the categories
    are stored, the marker is not, and the next run completes the seed. *)
Lemma initialize_marks_only_after_seeding_witness :
  let w := with_rejections [false; false; true] Sample_fresh in
  let w' := snd (initialize w) in
  returns initialize w tt
  /\ List.length (listed (categories_item (storage w'))) = 14%nat
  /\ initialized_item (storage w') = None
  /\ seeded (storage (snd (initialize w'))).
Proof.
  cbv zeta.
  destruct (initialize_marks_only_after_seeding
              (with_rejections [false; false; true] Sample_fresh) eq_refl)
    as (R & _ & Hnext & _).
  split; [exact R|]. split; [vm_compute; reflexivity|].
  split; [vm_compute; reflexivity|].
  apply Hnext; vm_compute; reflexivity.
Defined.

End InterruptedBootstrap.

(** * More on the reports screen *)

(** The categories of a list of transactions in the order in which they
    are first met. *)
Definition firstSeen (l : list string) : list string :=
  fold_left (fun ks k => if in_dec string_dec k ks then ks else ks ++ [k]) l [].

(** The group has the amount [v]. *)
Definition hasAmount (v : Q) (g : CategoryData.t) : bool :=
  Qeq_bool (CategoryData.amount g) v.

Definition Sample_rent : Transaction.t :=
  Sample.tx "d" expense 80 "Rent" (JSDate.ymdhm 2024 2 5 9 0).

(** An expense dated a week after the sample instant. *)
Definition Sample_postdated : Transaction.t :=
  Sample.tx "f" expense 40 "Food" (JSDate.ymdhm 2024 2 22 9 0).

Section MoreReports.
Import Reports.

(** X15. The top categories are the first five groups of the breakdown:
    at most five, all of them when the breakdown has five groups or fewer,
    and no group left out has a larger amount than a group kept. *)
Theorem topCategories_are_the_largest (period : PeriodType) (now : Z)
    (T : list Transaction.t) (C : list Category.t) :
  let A := calculateAnalytics period now T C in
  (List.length (topCategories A) <= 5)%nat
  /\ (exists rest,
        categoryData A = topCategories A ++ rest
        /\ forall g r, In g (topCategories A) -> In r rest ->
                       (CategoryData.amount r <= CategoryData.amount g)%Q)
  /\ ((List.length (categoryData A) <= 5)%nat -> topCategories A = categoryData A).
Proof.
  cbv zeta. unfold calculateAnalytics. cbv zeta. cbn [topCategories categoryData].
  set (data := categoryDataArray C _ _).
  assert (S : StronglySorted notSmaller data).
  { unfold data, categoryDataArray.
    apply (StronglySorted_weaken
             (precedes (fun a b => CategoryData.amount b - CategoryData.amount a)%Q)).
    - intros a b H. unfold precedes, notSmaller in *. lra.
    - apply sort_sorted.
      + intros a b. unfold precedes.
        destruct (Qlt_le_dec (CategoryData.amount a) (CategoryData.amount b));
          [right | left]; lra.
      + intros a b c. unfold precedes. lra. }
  split; [apply firstn_le_length|]. split.
  - exists (skipn 5 data). split; [symmetry; apply firstn_skipn|].
    rewrite <- (firstn_skipn 5 data) in S. revert S.
    generalize (firstn 5 data) (skipn 5 data). intros top rest.
    induction top as [|a top IH]; intros S g r Hg Hr; [destruct Hg|].
    simpl in S. inversion S as [|? ? S' F]; subst.
    destruct Hg as [<-|Hg].
    + rewrite Forall_forall in F. apply (F r). apply in_or_app. now right.
    + apply (IH S' g r Hg Hr).
  - intros H. apply firstn_all2. exact H.
Qed.

Lemma insert_keeps_ties {A} (amount : A -> Q) (v : Q) (x : A) (l : list A) :
  filter (fun g => Qeq_bool (amount g) v)
    (JSArray.insert (fun a b => amount b - amount a)%Q x l)
  = filter (fun g => Qeq_bool (amount g) v) (x :: l).
Proof.
  induction l as [|y l IH]; [reflexivity|].
  cbn [JSArray.insert].
  destruct (Qle_bool (amount y - amount x) 0) eqn:E; [reflexivity|].
  cbn [filter] in *. rewrite IH.
  destruct (Qeq_bool (amount x) v) eqn:Ex; [|reflexivity].
  destruct (Qeq_bool (amount y) v) eqn:Ey; [|reflexivity].
  exfalso. apply Qeq_bool_iff in Ex, Ey.
  apply not_true_iff_false in E. apply E. apply Qle_bool_iff. lra.
Qed.

Lemma sort_keeps_ties {A} (amount : A -> Q) (v : Q) (l : list A) :
  filter (fun g => Qeq_bool (amount g) v)
    (JSArray.sort (fun a b => amount b - amount a)%Q l)
  = filter (fun g => Qeq_bool (amount g) v) l.
Proof.
  induction l as [|x l IH]; [reflexivity|].
  cbn [JSArray.sort fold_right].
  change (fold_right (JSArray.insert (fun a b => amount b - amount a)%Q) [] l)
    with (JSArray.sort (fun a b => amount b - amount a)%Q l).
  rewrite insert_keeps_ties. cbn [filter]. rewrite IH. reflexivity.
Qed.

Lemma keysOf_breakdown_fold (l : list Transaction.t) (m : JSMap.t) :
  keysOf
    (fold_left
       (fun m t =>
          let current := or_zero (JSMap.get (Transaction.category t) m) in
          JSMap.set (Transaction.category t) (current + Transaction.amount t)%Q m)
       l m)
  = fold_left (fun ks k => if in_dec string_dec k ks then ks else ks ++ [k])
      (map Transaction.category l) (keysOf m).
Proof.
  revert m. induction l as [|t l IH]; intros m; [reflexivity|].
  cbn [fold_left map]. rewrite IH. cbv zeta. rewrite keysOf_set. reflexivity.
Qed.

(** X16. Groups of equal amount keep the order in which their categories
    are first met among the expenses of the window: the sort is stable and
    the map keeps insertion order.  Precisely, the groups of any one amount
    appear in the breakdown as they appear in the unsorted entries, whose
    names are the categories in first-met order. *)
Theorem categoryData_ties_keep_first_met_order (period : PeriodType) (now : Z)
    (T : list Transaction.t) (C : list Category.t) :
  let A := calculateAnalytics period now T C in
  let entries :=
    map (categoryEntry C (totalExpenses A))
        (categoryBreakdown (periodTransactions period now T)) in
  (forall v, filter (hasAmount v) (categoryData A) = filter (hasAmount v) entries)
  /\ map CategoryData.name entries
     = firstSeen (map Transaction.category (windowExpenses period now T)).
Proof.
  cbv zeta. unfold calculateAnalytics. cbv zeta. cbn [totalExpenses categoryData].
  split.
  - intros v. unfold categoryDataArray, hasAmount. apply sort_keeps_ties.
  - unfold categoryBreakdown. rewrite window_expenses.
    rewrite map_map.
    transitivity (keysOf (fold_left
       (fun m t =>
          let current := or_zero (JSMap.get (Transaction.category t) m) in
          JSMap.set (Transaction.category t) (current + Transaction.amount t)%Q m)
       (windowExpenses period now T) [])).
    + unfold keysOf. apply map_ext. intros [k v]. reflexivity.
    + rewrite keysOf_breakdown_fold. reflexivity.
Qed.

(** X17. A transaction dated after the reference instant changes neither
    the period totals nor the breakdown nor the top categories, whatever
    the period: every window ends at [now]. *)
Theorem postdated_transaction_is_outside_every_period (period : PeriodType) (now : Z)
    (t : Transaction.t) (T : list Transaction.t) (C : list Category.t) :
  now < Transaction.date t ->
  let A := calculateAnalytics period now T C in
  let A' := calculateAnalytics period now (t :: T) C in
  totalIncome A' = totalIncome A
  /\ totalExpenses A' = totalExpenses A
  /\ categoryData A' = categoryData A
  /\ topCategories A' = topCategories A.
Proof.
  intros H. cbv zeta. unfold calculateAnalytics. cbv zeta.
  assert (E : periodTransactions period now (t :: T) = periodTransactions period now T).
  { unfold periodTransactions. cbn [filter]. unfold between at 1.
    replace (Transaction.date t <=? now) with false
      by (symmetry; apply Z.leb_gt; exact H).
    rewrite andb_false_r. reflexivity. }
  rewrite E. repeat split.
Qed.

Lemma postdated_transaction_is_outside_every_period_witness :
  totalExpenses (calculateAnalytics week Sample.morning
                   (Sample_postdated :: Sample.ledger) [Sample.food])
  = totalExpenses (calculateAnalytics week Sample.morning Sample.ledger [Sample.food]).
Proof.
  destruct (postdated_transaction_is_outside_every_period week Sample.morning
              Sample_postdated Sample.ledger [Sample.food]) as (_ & E & _).
  - vm_compute. reflexivity.
  - exact E.
Defined.

End MoreReports.

Section MoreReports2.
Import Reports.

(** X16 on the sample ledger with a rent of 80 added after the food
    expenses: food (80) and rent (80) tie, and food, met first, comes
    first. *)
Lemma categoryData_ties_keep_first_met_order_witness :
  let A := calculateAnalytics month Sample.morning (Sample.ledger ++ [Sample_rent]) [] in
  map CategoryData.name (filter (hasAmount 80) (categoryData A))
  = ["Food"; "Rent"]%string.
Proof.
  cbv zeta.
  destruct (categoryData_ties_keep_first_met_order month Sample.morning
              (Sample.ledger ++ [Sample_rent]) []) as (Hties & _).
  rewrite (Hties 80%Q). vm_compute. reflexivity.
Defined.

Lemma filter_between_all (lo hi : Z) (T : list Transaction.t) :
  (forall t, In t T -> lo <= Transaction.date t <= hi) ->
  filter (between lo hi) T = T.
Proof.
  intros H. apply filter_all. intros t Ht. unfold between.
  destruct (H t Ht). apply andb_true_iff. split; apply Z.leb_le; assumption.
Qed.

(** X18. When every stored transaction is dated inside the period window
    and the stored amounts are whole numbers whose magnitudes add up to
    less than 2^53, so that no sum is rounded, the period income less the
    period expenses is the balance that [getBalance] returns for the same
    store (both reads served); the three figures are those computed in the
    arithmetic of doubles. *)
Theorem period_totals_match_the_balance (w : World) (period : PeriodType) (C : list Category.t) :
  rejected w = false ->
  let T := listed (transactions_item (storage w)) in
  let A := Binary64.calculateAnalytics period (now w) T C in
  (forall t, In t T -> startDate period (now w) <= Transaction.date t <= now w) ->
  wholeAmounts T = true ->
  exists b,
    returns Binary64.getBalance w b
    /\ (totalIncome A - totalExpenses A == b)%Q.
Proof.
  intros Hr. cbv zeta. intros Hin W.
  exists (runningBalance 0 (listed (transactions_item (storage w)))).
  unfold returns. rewrite rounded_getBalance_eq, Hr. split; [reflexivity|].
  unfold Binary64.calculateAnalytics. cbv zeta. cbn [totalIncome totalExpenses].
  unfold periodTransactions. rewrite (filter_between_all _ _ _ Hin).
  rewrite (whole_balance _ W).
  change (Double.reduce_sum Binary64.amount ?l) with (roundedSum l).
  rewrite !whole_sum by (apply wholeAmounts_filter, W).
  unfold sumOf, amountsOf. reflexivity.
Qed.

Lemma period_totals_match_the_balance_witness :
  exists b,
    returns Binary64.getBalance Sample.world b
    /\ (totalIncome (Binary64.calculateAnalytics month Sample.morning Sample.ledger
                       [Sample.food])
        - totalExpenses (Binary64.calculateAnalytics month Sample.morning Sample.ledger
                           [Sample.food])
        == b)%Q.
Proof.
  apply (period_totals_match_the_balance Sample.world month [Sample.food] eq_refl).
  - simpl. intros t [<-|[<-|[<-|[]]]]; vm_compute; split; discriminate.
  - reflexivity.
Defined.

(** X19. The monthly trend always has six points, the points of the months
    five, four, ..., zero months back in that order, whatever the
    transactions, the categories, the period and the clock; over an empty
    history each of the six has zero income and zero expenses. *)
Theorem monthlyData_has_six_points (period : PeriodType) (now : Z)
    (T : list Transaction.t) (C : list Category.t) :
  List.length (monthlyData (calculateAnalytics period now T C)) = 6%nat
  /\ monthlyData (calculateAnalytics period now T C)
     = map (monthPoint now T) [5; 4; 3; 2; 1; 0]
  /\ Forall (fun p => MonthlyData.income p = 0%Q /\ MonthlyData.expenses p = 0%Q)
       (monthlyData (calculateAnalytics period now [] C)).
Proof.
  change (monthlyData (calculateAnalytics period now T C)) with (monthlyTrend now T).
  change (monthlyData (calculateAnalytics period now [] C)) with (monthlyTrend now []).
  split; [|split].
  - unfold monthlyTrend. rewrite monthlyLoop_length. reflexivity.
  - reflexivity.
  - repeat constructor.
Qed.

(** X20. The window of a trend point ends at the midnight that opens the
    last day of its month.  A transaction dated on that day at any later
    time of day is therefore left out of the point: the point is the same
    with and without it. *)
Theorem monthPoint_leaves_out_the_last_day (now i : Z) (t : Transaction.t)
    (T : list Transaction.t) :
  let first := JSDate.ymd (JSDate.getFullYear now) (JSDate.getMonth now - i) 1 in
  let monthEnd := JSDate.ymd (JSDate.getFullYear first) (JSDate.getMonth first + 1) 0 in
  JSDate.Day (Transaction.date t) = JSDate.Day monthEnd ->
  Transaction.date t mod JSDate.msPerDay <> 0 ->
  monthPoint now (t :: T) i = monthPoint now T i.
Proof.
  cbv zeta. intros Hday Htime. unfold monthPoint. cbv zeta. cbn [filter].
  rewrite (month_window_excludes_rest_of_last_day _ _ t Hday Htime). reflexivity.
Qed.

Lemma monthPoint_leaves_out_the_last_day_witness :
  monthPoint Sample.morning [Sample_leapDayTea] 1 = monthPoint Sample.morning [] 1.
Proof.
  apply (monthPoint_leaves_out_the_last_day Sample.morning 1 Sample_leapDayTea []);
    vm_compute; [reflexivity | discriminate].
Defined.

End MoreReports2.

(* ================================================================== *)
(** * The dashboard ([index.tsx]) *)

Module Dashboard.
Import DatabaseService.

(** The state of the screen that [loadDashboardData] sets. *)
Record State := mkState {
  appSettings : option AppSettings.t;
  balance : Q;
  recentTransactions : list Transaction.t;
  monthlyIncome : Q;
  monthlyExpenses : Q
}.

Definition initialState : State := mkState None 0 [] 0 0.

(** [(a, b) => new Date(b.date).getTime() - new Date(a.date).getTime()] *)
Definition newestFirst (a b : Transaction.t) : Q :=
  inject_Z (Transaction.date b - Transaction.date a).

(** [allTransactions.sort(...)] sorts the array in place, so the monthly
    figures are computed from the sorted array.  None of the calls inside
    the [try] throws; the handler (an alert) leaves the state as it was. *)
Definition loadDashboardData (state : State) : Promise State :=
  try (initialize ;;;
       s <- getSettings ;;
       currentBalance <- getBalance ;;
       allTransactions <- getTransactions ;;
       let sorted := JSArray.sort newestFirst allTransactions in
       let recent := firstn 5 sorted in
       currentDate <- new_Date ;;
       let currentMonth := JSDate.getMonth currentDate in
       let currentYear := JSDate.getFullYear currentDate in
       let monthlyTransactions :=
         filter (fun t =>
                   let transactionDate := Transaction.date t in
                   (JSDate.getMonth transactionDate =? currentMonth)
                   && (JSDate.getFullYear transactionDate =? currentYear))
                sorted in
       let income :=
         reduce_sum Transaction.amount
           (filter (Reports.is_type income) monthlyTransactions) in
       let expenses :=
         reduce_sum Transaction.amount
           (filter (Reports.is_type expense) monthlyTransactions) in
       ret (mkState s currentBalance recent income expenses))
  catch (fun _ => ret state).

End Dashboard.

(** [a] is dated no earlier than [b]. *)
Definition notOlder (a b : Transaction.t) : Prop :=
  Transaction.date b <= Transaction.date a.

Section DashboardFacts.
Import DatabaseService Dashboard.

(** [loadDashboardData] once the marker is there, on a platform that
    serves the requests. *)
Lemma loadDashboardData_calm (state : State) (w : World) :
  calm w = true ->
  truthy (initialized_item (storage w)) = true ->
  exists b w',
    getBalance (served (served w)) = (Ok b, served (served (served w)))
    /\ loadDashboardData state w
       = (Ok (let T := listed (transactions_item (storage w)) in
              let sorted := JSArray.sort newestFirst T in
              let monthly :=
                filter (fun t =>
                          (JSDate.getMonth (Transaction.date t) =? JSDate.getMonth (now w))
                          && (JSDate.getFullYear (Transaction.date t)
                              =? JSDate.getFullYear (now w))) sorted in
              mkState (settled (settings_item (storage w))) b (firstn 5 sorted)
                (reduce_sum Transaction.amount (filter (Reports.is_type income) monthly))
                (reduce_sum Transaction.amount (filter (Reports.is_type expense) monthly))),
          w')
    /\ storage w' = storage w.
Proof.
  intros Hc Hm.
  pose proof (calm_served w Hc) as H1.
  pose proof (calm_served _ H1) as H2.
  pose proof (calm_served _ H2) as H3.
  destruct (getBalance_eq (served (served w))) as (b & Eb & _).
  exists b. eexists. split; [exact Eb|].
  unfold loadDashboardData, try_catch.
  unfold bind at 1. rewrite (initialize_marked w Hm). cbv beta iota.
  unfold bind at 1. rewrite getSettings_eq, (calm_rejected _ H1). cbv beta iota.
  unfold bind at 1. rewrite Eb. cbv beta iota.
  unfold bind at 1. rewrite getTransactions_eq, (calm_rejected _ H3). cbv beta iota.
  unfold bind at 1. rewrite new_Date_eq. cbv beta iota.
  unfold ret. split; [reflexivity|].
  rewrite storage_ticked. reflexivity.
Qed.

End DashboardFacts.

Section DashboardClaims.
Import DatabaseService Dashboard.

Lemma newestFirst_sorted (T : list Transaction.t) :
  StronglySorted notOlder (JSArray.sort newestFirst T).
Proof.
  apply (StronglySorted_weaken (precedes newestFirst)).
  - intros a b H. unfold precedes, newestFirst, notOlder in *.
    change 0%Q with (inject_Z 0) in H. rewrite <- Zle_Qle in H. lia.
  - apply sort_sorted.
    + intros a b. unfold precedes, newestFirst. change 0%Q with (inject_Z 0).
      rewrite <- !Zle_Qle. lia.
    + intros a b c. unfold precedes, newestFirst. change 0%Q with (inject_Z 0).
      rewrite <- !Zle_Qle. lia.
Qed.

(** X21. Once the marker is there and on a platform that serves the
    requests, the recent transactions of the dashboard are the newest
    stored ones: at most five, newest first, all of the stored
    transactions when there are five or fewer, and no stored transaction
    left out is dated later than one that is shown. *)
Theorem dashboard_shows_the_newest_five (state : State) (w : World) :
  calm w = true ->
  truthy (initialized_item (storage w)) = true ->
  exists view,
    returns (loadDashboardData state) w view
    /\ (List.length (recentTransactions view) <= 5)%nat
    /\ StronglySorted notOlder (recentTransactions view)
    /\ (exists rest,
          Permutation (listed (transactions_item (storage w)))
            (recentTransactions view ++ rest)
          /\ forall g r, In g (recentTransactions view) -> In r rest -> notOlder g r)
    /\ ((List.length (listed (transactions_item (storage w))) <= 5)%nat ->
        Permutation (listed (transactions_item (storage w))) (recentTransactions view)).
Proof.
  intros Hc Hm.
  destruct (loadDashboardData_calm state w Hc Hm) as (b & w' & _ & E & _).
  eexists. unfold returns. rewrite E. split; [reflexivity|].
  cbv zeta. cbn [recentTransactions].
  set (T := listed (transactions_item (storage w))).
  pose proof (newestFirst_sorted T) as S.
  pose proof (sort_Permutation newestFirst T) as P.
  set (sorted := JSArray.sort newestFirst T) in *.
  split; [apply firstn_le_length|]. split; [|split].
  - rewrite <- (firstn_skipn 5 sorted) in S. revert S.
    generalize (firstn 5 sorted) (skipn 5 sorted). intros top rest.
    induction top as [|a top IH]; intros S; [constructor|].
    simpl in S. inversion S as [|? ? S' F]; subst. constructor; [apply IH, S'|].
    rewrite Forall_app in F. apply F.
  - exists (skipn 5 sorted). split.
    + rewrite firstn_skipn. apply Permutation_sym, P.
    + rewrite <- (firstn_skipn 5 sorted) in S. revert S.
      generalize (firstn 5 sorted) (skipn 5 sorted). intros top rest.
      induction top as [|a top IH]; intros S g r Hg Hr; [destruct Hg|].
      simpl in S. inversion S as [|? ? S' F]; subst.
      destruct Hg as [<-|Hg].
      * rewrite Forall_forall in F. apply (F r). apply in_or_app. now right.
      * apply (IH S' g r Hg Hr).
  - intros H. rewrite firstn_all2.
    + apply Permutation_sym, P.
    + rewrite (Permutation_length P). exact H.
Qed.

Lemma dashboard_shows_the_newest_five_witness :
  exists view,
    returns (loadDashboardData initialState) Sample.world view
    /\ map Transaction.id (recentTransactions view) = ["b"; "a"; "c"]%string.
Proof.
  destruct (dashboard_shows_the_newest_five initialState Sample.world eq_refl eq_refl)
    as (view & R & _).
  exists view. split; [exact R|].
  unfold returns in R. vm_compute in R. injection R as <-. reflexivity.
Defined.




End DashboardClaims.

(* ================================================================== *)
(** * Version comparison ([githubUpdate.ts]) *)

(** A JavaScript number as far as version parts go: not a number, a finite
    value (an exact rational here) or an infinity. *)
Module JSNumber.
Inductive t := NaN | Fin (q : Q) | PosInf | NegInf.

(** [a > b] and [a < b]: false as soon as one side is not a number. *)
Definition gt (a b : t) : bool :=
  match a, b with
  | NaN, _ | _, NaN => false
  | Fin x, Fin y => num_gt x y
  | PosInf, PosInf => false
  | PosInf, _ => true
  | NegInf, _ => false
  | Fin _, PosInf => false
  | Fin _, NegInf => true
  end.
Definition lt (a b : t) : bool := gt b a.

(** [x || 0] for [x] a number or [undefined]: zero and not-a-number are
    falsy. *)
Definition or_zero (x : option t) : t :=
  match x with
  | None | Some NaN => Fin 0
  | Some (Fin q) => if Qeq_bool q 0 then Fin 0 else Fin q
  | Some PosInf => PosInf
  | Some NegInf => NegInf
  end.
End JSNumber.

(** [s.split(sep)] for a separator of one character: always at least one
    part. *)
Fixpoint split_on (sep : ascii) (s : string) : list string :=
  match s with
  | EmptyString => [EmptyString]
  | String c s' =>
      if Ascii.eqb c sep then EmptyString :: split_on sep s'
      else match split_on sep s' with
           | p :: ps => String c p :: ps
           | [] => [String c EmptyString]
           end
  end.

Module GithubUpdate.
Section IsNewerVersion.

(** The conversion [Number(part)] of a text to a number is the
    platform's. *)
Variable Number : string -> JSNumber.t.

(** The loop [for (let i = ...; i < Math.max(...); i++)], with [steps]
    passes left. *)
Fixpoint compareFrom (currentParts latestParts : list JSNumber.t)
    (i steps : nat) : bool :=
  match steps with
  | O => false
  | S steps' =>
      let currentPart := JSNumber.or_zero (nth_error currentParts i) in
      let latestPart := JSNumber.or_zero (nth_error latestParts i) in
      if JSNumber.gt latestPart currentPart then true
      else if JSNumber.lt latestPart currentPart then false
      else compareFrom currentParts latestParts (S i) steps'
  end.

Definition isNewerVersion (current latest : string) : bool :=
  let currentParts := map Number (split_on "."%char current) in
  let latestParts := map Number (split_on "."%char latest) in
  compareFrom currentParts latestParts 0
    (Nat.max (List.length currentParts) (List.length latestParts)).

End IsNewerVersion.

(** [release.tag_name.replace(/^v/, '')] *)
Definition stripV (tag_name : string) : string :=
  match tag_name with
  | String "v"%char rest => rest
  | _ => tag_name
  end.

End GithubUpdate.

Section VersionFacts.
Import GithubUpdate.
Variable Number : string -> JSNumber.t.

Lemma or_zero_gt_irrefl (x : option JSNumber.t) :
  JSNumber.gt (JSNumber.or_zero x) (JSNumber.or_zero x) = false.
Proof.
  destruct x as [[|q| |]|]; simpl; try reflexivity.
  destruct (Qeq_bool q 0); simpl; unfold num_gt;
    apply negb_false_iff, Qle_bool_iff, Qle_refl.
Qed.

Lemma gt_asym (a b : JSNumber.t) :
  JSNumber.gt a b = true -> JSNumber.gt b a = false.
Proof.
  destruct a as [|x| |], b as [|y| |]; simpl; try reflexivity; try discriminate.
  unfold num_gt. rewrite negb_true_iff, negb_false_iff.
  intros H. apply not_true_iff_false in H. rewrite Qle_bool_iff in *. lra.
Qed.

Lemma compareFrom_same (parts : list JSNumber.t) (i steps : nat) :
  compareFrom parts parts i steps = false.
Proof.
  revert i. induction steps as [|n IH]; intros i; simpl; [reflexivity|].
  unfold JSNumber.lt. rewrite or_zero_gt_irrefl. apply IH.
Qed.

Lemma compareFrom_asym (c l : list JSNumber.t) (i steps : nat) :
  compareFrom c l i steps = true -> compareFrom l c i steps = false.
Proof.
  revert i. induction steps as [|n IH]; intros i; simpl; [discriminate|].
  unfold JSNumber.lt.
  destruct (JSNumber.gt (JSNumber.or_zero (nth_error l i))
              (JSNumber.or_zero (nth_error c i))) eqn:G.
  - intros _. rewrite (gt_asym _ _ G). reflexivity.
  - destruct (JSNumber.gt (JSNumber.or_zero (nth_error c i))
                (JSNumber.or_zero (nth_error l i))) eqn:G'; [discriminate|].
    apply IH.
Qed.

(** X23. [isNewerVersion] never finds a version newer than itself, and
    never finds each of two versions newer than the other, whatever the
    texts are and however the platform converts their parts to numbers. *)
Theorem isNewerVersion_is_a_strict_comparison (a b : string) :
  isNewerVersion Number a a = false
  /\ (isNewerVersion Number a b = true -> isNewerVersion Number b a = false).
Proof.
  unfold isNewerVersion. cbv zeta. split; [apply compareFrom_same|].
  rewrite (Nat.max_comm (List.length (map Number (split_on "." b)))).
  apply compareFrom_asym.
Qed.

End VersionFacts.

(** A part counts as zero: it converts to zero or to no number at all. *)
Definition countsAsZero (x : JSNumber.t) : Prop :=
  JSNumber.or_zero (Some x) = JSNumber.Fin 0.

(** A conversion for the examples: the value of a text of decimal digits
    (0 for the empty text), no number for any other text. *)
Fixpoint digitsValue (s : string) (acc : Z) : option Z :=
  match s with
  | EmptyString => Some acc
  | String c s' =>
      let n := Z.of_nat (nat_of_ascii c) in
      if (48 <=? n) && (n <=? 57) then digitsValue s' (10 * acc + (n - 48)) else None
  end.
Definition digitsNumber (s : string) : JSNumber.t :=
  match digitsValue s 0 with
  | Some z => JSNumber.Fin (inject_Z z)
  | None => JSNumber.NaN
  end.

Section VersionPadding.
Import GithubUpdate.
Variable Number : string -> JSNumber.t.

Lemma split_on_nonempty (sep : ascii) (s : string) : split_on sep s <> [].
Proof.
  destruct s as [|c s]; simpl; [discriminate|].
  destruct (Ascii.eqb c sep); [discriminate|].
  destruct (split_on sep s); discriminate.
Qed.

Lemma split_on_app (sep : ascii) (s s' : string) :
  split_on sep (s ++ String sep s') = split_on sep s ++ split_on sep s'.
Proof.
  induction s as [|c s IH]; simpl.
  - rewrite Ascii.eqb_refl. reflexivity.
  - destruct (Ascii.eqb c sep); [rewrite IH; reflexivity|].
    rewrite IH. pose proof (split_on_nonempty sep s) as N.
    destruct (split_on sep s); [congruence | reflexivity].
Qed.

Lemma compareFrom_ext (c c' l l' : list JSNumber.t) (i steps : nat) :
  (forall j, JSNumber.or_zero (nth_error c j) = JSNumber.or_zero (nth_error c' j)) ->
  (forall j, JSNumber.or_zero (nth_error l j) = JSNumber.or_zero (nth_error l' j)) ->
  compareFrom c l i steps = compareFrom c' l' i steps.
Proof.
  intros Hc Hl. revert i. induction steps as [|n IH]; intros i; simpl; [reflexivity|].
  rewrite (Hc i), (Hl i), IH. reflexivity.
Qed.

Lemma compareFrom_beyond (c l : list JSNumber.t) (i steps : nat) :
  (List.length c <= i)%nat -> (List.length l <= i)%nat ->
  compareFrom c l i steps = false.
Proof.
  revert i. induction steps as [|n IH]; intros i Hc Hl; simpl; [reflexivity|].
  rewrite (proj2 (nth_error_None c i) Hc), (proj2 (nth_error_None l i) Hl). simpl.
  apply IH; lia.
Qed.

Lemma compareFrom_fuel (c l : list JSNumber.t) (i steps extra : nat) :
  (Nat.max (List.length c) (List.length l) <= i + steps)%nat ->
  compareFrom c l i (steps + extra) = compareFrom c l i steps.
Proof.
  revert i. induction steps as [|n IH]; intros i H.
  - simpl. apply compareFrom_beyond; lia.
  - simpl. rewrite IH by lia. reflexivity.
Qed.

Lemma padded_parts (l zeros : list JSNumber.t) :
  Forall countsAsZero zeros ->
  forall j, JSNumber.or_zero (nth_error (l ++ zeros) j) = JSNumber.or_zero (nth_error l j).
Proof.
  intros Hz j. destruct (Nat.lt_ge_cases j (List.length l)) as [H|H].
  - rewrite nth_error_app1 by exact H. reflexivity.
  - rewrite nth_error_app2 by exact H.
    rewrite (proj2 (nth_error_None l j) H).
    destruct (nth_error zeros (j - List.length l)) as [z|] eqn:E; [|reflexivity].
    rewrite Forall_forall in Hz. apply Hz. eapply nth_error_In, E.
Qed.

Lemma compareFrom_padded (c l zc zl : list JSNumber.t) :
  Forall countsAsZero zc ->
  Forall countsAsZero zl ->
  compareFrom (c ++ zc) (l ++ zl) 0
    (Nat.max (List.length (c ++ zc)) (List.length (l ++ zl)))
  = compareFrom c l 0 (Nat.max (List.length c) (List.length l)).
Proof.
  intros Hc Hl.
  rewrite (compareFrom_ext (c ++ zc) c (l ++ zl) l 0 _
             (padded_parts c zc Hc) (padded_parts l zl Hl)).
  rewrite !length_app.
  set (n := Nat.max (List.length c) (List.length l)).
  replace (Nat.max (List.length c + List.length zc) (List.length l + List.length zl))
    with (n + (Nat.max (List.length c + List.length zc)
                 (List.length l + List.length zl) - n))%nat by lia.
  apply compareFrom_fuel. lia.
Qed.

(** X24. Parts appended to a version after a further dot do not change
    the outcome of [isNewerVersion] when each of them counts as zero
    (converts to 0 or to no number): ['1.2'], ['1.2.0'] and ['1.2.beta']
    are the same version for the check, on either side. *)
Theorem isNewerVersion_ignores_zero_suffix (current latest suffix : string) :
  Forall (fun part => countsAsZero (Number part)) (split_on "." suffix) ->
  isNewerVersion Number current (latest ++ String "." suffix)
  = isNewerVersion Number current latest
  /\ isNewerVersion Number (current ++ String "." suffix) latest
     = isNewerVersion Number current latest.
Proof.
  intros H. unfold isNewerVersion. cbv zeta.
  assert (Hz : Forall countsAsZero (map Number (split_on "." suffix))).
  { apply Forall_map. exact H. }
  rewrite !split_on_app, !map_app. split.
  - pose proof (compareFrom_padded (map Number (split_on "." current))
                  (map Number (split_on "." latest)) [] _ (Forall_nil _) Hz) as E.
    rewrite app_nil_r in E. exact E.
  - pose proof (compareFrom_padded (map Number (split_on "." current))
                  (map Number (split_on "." latest)) _ [] Hz (Forall_nil _)) as E.
    rewrite app_nil_r in E. exact E.
Qed.

End VersionPadding.

(** X24 with the sample conversion: a release tagged 1.2.0 or 1.2.beta is
    not newer than an installed 1.2, and 1.10 is newer than 1.9. *)
Lemma isNewerVersion_ignores_zero_suffix_witness :
  GithubUpdate.isNewerVersion digitsNumber "1.2" "1.2.0" = false
  /\ GithubUpdate.isNewerVersion digitsNumber "1.2" "1.2.beta" = false
  /\ GithubUpdate.isNewerVersion digitsNumber "1.9" "1.10" = true.
Proof.
  destruct (isNewerVersion_ignores_zero_suffix digitsNumber "1.2" "1.2" "0") as (E0 & _).
  { repeat constructor. }
  destruct (isNewerVersion_ignores_zero_suffix digitsNumber "1.2" "1.2" "beta") as (E1 & _).
  { repeat constructor. }
  simpl String.append in E0, E1. rewrite E0, E1.
  repeat split; vm_compute; reflexivity.
Defined.

(** X23 with the sample conversion. *)
Lemma isNewerVersion_is_a_strict_comparison_witness :
  GithubUpdate.isNewerVersion digitsNumber "2.0.1" "2.0.1" = false
  /\ GithubUpdate.isNewerVersion digitsNumber "2.1" "2.0.9" = false.
Proof.
  destruct (isNewerVersion_is_a_strict_comparison digitsNumber "2.0.1" "2.0.1") as (I & _).
  destruct (isNewerVersion_is_a_strict_comparison digitsNumber "2.0.9" "2.1") as (_ & A).
  split; [exact I | apply A; vm_compute; reflexivity].
Defined.

(* ================================================================== *)
(** * The amount field of the entry form ([add-transaction.tsx]) *)

Module AddTransaction.

Definition isDigit (c : ascii) : bool :=
  let n := nat_of_ascii c in (48 <=? n)%nat && (n <=? 57)%nat.
Definition isDot (c : ascii) : bool := Ascii.eqb c "."%char.

(** [text.replace(/[^0-9.]/g, '')] *)
Fixpoint clean (text : string) : string :=
  match text with
  | EmptyString => EmptyString
  | String c text' =>
      if isDigit c || isDot c then String c (clean text') else clean text'
  end.

(** [handleAmountChange]: the new content of the amount field, which is
    left as it is when the handler returns early. *)
Definition handleAmountChange (amount text : string) : string :=
  let cleanedText := clean text in
  let parts := split_on "."%char cleanedText in
  if (2 <? List.length parts)%nat then amount
  else
    match nth_error parts 1 with
    | Some p =>
        if negb (is_empty p) && (2 <? String.length p)%nat then amount
        else cleanedText
    | None => cleanedText
    end.

(** The digits at the head of a text, as a number with the count of
    digits read, and what follows them. *)
Fixpoint leadingDigits (s : string) (acc : Z) (count : nat) : Z * nat * string :=
  match s with
  | String c s' =>
      if isDigit c
      then leadingDigits s' (10 * acc + (Z.of_nat (nat_of_ascii c) - 48)) (S count)
      else (acc, count, s)
  | EmptyString => (acc, count, s)
  end.

(** [parseFloat] on the texts the amount field can hold (digits and dots):
    the decimal number at the head of the text, not a number when the
    text starts neither with a digit nor with a dot followed by a digit. *)
Definition parseFloat (s : string) : JSNumber.t :=
  let '(int, n, rest) := leadingDigits s 0 0 in
  let '(frac, k, _) :=
    match rest with
    | String c rest' => if isDot c then leadingDigits rest' 0 0 else (0, O, rest)
    | EmptyString => (0, O, rest)
    end in
  match n, k with
  | O, O => JSNumber.NaN
  | _, _ => JSNumber.Fin (inject_Z int + inject_Z frac / inject_Z (10 ^ Z.of_nat k))
  end.

(** [x <= 0] *)
Definition le_zero (x : JSNumber.t) : bool :=
  match x with
  | JSNumber.NaN | JSNumber.PosInf => false
  | JSNumber.Fin q => Qle_bool q 0
  | JSNumber.NegInf => true
  end.

(** The first test of [handleSave]: the form goes on when
    [!amount || parseFloat(amount) <= 0] is false. *)
Definition amountPasses (amount : string) : bool :=
  negb (is_empty amount || le_zero (parseFloat amount)).

End AddTransaction.

(** The number of dots of a text and the text after its first dot. *)
Fixpoint dots (s : string) : nat :=
  match s with
  | EmptyString => O
  | String c s' => if AddTransaction.isDot c then S (dots s') else dots s'
  end.
Fixpoint afterDot (s : string) : string :=
  match s with
  | EmptyString => EmptyString
  | String c s' => if AddTransaction.isDot c then s' else afterDot s'
  end.
Fixpoint onlyDigitsAndDots (s : string) : bool :=
  match s with
  | EmptyString => true
  | String c s' =>
      (AddTransaction.isDigit c || AddTransaction.isDot c) && onlyDigitsAndDots s'
  end.

(** A text of digits with at most one dot and at most two characters after
    it. *)
Definition wellFormedAmount (s : string) : bool :=
  onlyDigitsAndDots s && (dots s <=? 1)%nat && (String.length (afterDot s) <=? 2)%nat.

Section AmountField.
Import AddTransaction.

Lemma clean_onlyDigitsAndDots (text : string) : onlyDigitsAndDots (clean text) = true.
Proof.
  induction text as [|c t IH]; simpl; [reflexivity|].
  destruct (isDigit c || isDot c) eqn:E; simpl; [rewrite E|]; exact IH.
Qed.

Lemma split_on_length (s : string) :
  List.length (split_on "." s) = S (dots s).
Proof.
  induction s as [|c s IH]; simpl; [reflexivity|].
  unfold isDot. destruct (Ascii.eqb c "."); simpl; [rewrite IH; reflexivity|].
  destruct (split_on "." s); simpl in *; [discriminate | exact IH].
Qed.

Lemma split_on_second (s : string) :
  dots s = 1%nat -> nth_error (split_on "." s) 1 = Some (afterDot s).
Proof.
  induction s as [|c s IH]; simpl; [discriminate|].
  unfold isDot. destruct (Ascii.eqb c ".") eqn:E; simpl.
  - intros H. injection H as H.
    pose proof (split_on_length s) as L. rewrite H in L.
    destruct (split_on "." s) as [|p [|q ps]] eqn:S; try discriminate.
    simpl. f_equal. clear IH L. revert p S H.
    induction s as [|d s IH]; simpl; intros p S H; [congruence|].
    unfold isDot in *. destruct (Ascii.eqb d "."); [discriminate|].
    destruct (split_on "." s) as [|p' [|q' ps']] eqn:S'; try discriminate.
    + exfalso. apply (split_on_nonempty "." s S').
    + injection S as <-. f_equal. apply IH; [reflexivity | exact H].
  - intros H. specialize (IH H).
    pose proof (split_on_nonempty "." s) as N.
    destruct (split_on "." s) as [|p ps]; [congruence|]. simpl in *. exact IH.
Qed.

Lemma afterDot_no_dot (s : string) : dots s = 0%nat -> afterDot s = EmptyString.
Proof.
  induction s as [|c s IH]; simpl; [reflexivity|].
  destruct (isDot c); [discriminate | exact IH].
Qed.

(** X25. The amount field only ever holds digits with at most one dot and
    at most two digits after it: the empty field is such a text, and
    whatever text is typed or pasted, [handleAmountChange] leaves such a
    text in the field (the cleaned text when it has this shape, the
    previous content otherwise). *)
Theorem handleAmountChange_keeps_the_field_well_formed (amount text : string) :
  wellFormedAmount EmptyString = true
  /\ (wellFormedAmount amount = true ->
      wellFormedAmount (handleAmountChange amount text) = true)
  /\ (wellFormedAmount (clean text) = true ->
      handleAmountChange amount text = clean text)
  /\ (wellFormedAmount (clean text) = false ->
      handleAmountChange amount text = amount).
Proof.
  split; [reflexivity|].
  assert (Shape : handleAmountChange amount text
                  = if wellFormedAmount (clean text) then clean text else amount).
  { unfold handleAmountChange, wellFormedAmount. cbv zeta.
    rewrite clean_onlyDigitsAndDots, split_on_length. cbn [andb].
    set (s := clean text).
    destruct (dots s) as [|[|n]] eqn:D.
    - assert (E : nth_error (split_on "." s) 1 = None).
      { apply nth_error_None. rewrite split_on_length, D. lia. }
      rewrite E, (afterDot_no_dot s D). reflexivity.
    - rewrite (split_on_second s D). cbn [Nat.ltb Nat.leb andb].
      destruct (afterDot s) as [|a [|b [|c r]]]; reflexivity.
    - reflexivity. }
  rewrite Shape. destruct (wellFormedAmount (clean text)) eqn:W.
  - repeat split; congruence.
  - repeat split; congruence.
Qed.

Lemma handleAmountChange_keeps_the_field_well_formed_witness :
  handleAmountChange "12.5" "12.50 USD" = "12.50"%string
  /\ handleAmountChange "12.50" "12.505" = "12.50"%string
  /\ handleAmountChange "12.50" "1.2.3" = "12.50"%string
  /\ wellFormedAmount (handleAmountChange "12.50" "1.2.3") = true.
Proof.
  destruct (handleAmountChange_keeps_the_field_well_formed "12.5" "12.50 USD")
    as (_ & _ & A & _).
  destruct (handleAmountChange_keeps_the_field_well_formed "12.50" "12.505")
    as (_ & _ & _ & B).
  destruct (handleAmountChange_keeps_the_field_well_formed "12.50" "1.2.3")
    as (_ & K & _ & C).
  split; [apply A; reflexivity|]. split; [apply B; reflexivity|].
  split; [apply C; reflexivity | apply K; reflexivity].
Defined.

End AmountField.

Section AmountValidation.
Import AddTransaction.

Lemma leadingDigits_spec (s : string) :
  forall acc n acc' n' rest,
    leadingDigits s acc n = (acc', n', rest) ->
    (n <= n')%nat
    /\ (n' = n -> rest = s)
    /\ match rest with String c _ => isDigit c = false | EmptyString => True end.
Proof.
  induction s as [|c s IH]; simpl; intros acc n acc' n' rest E.
  - injection E as <- <- <-. repeat split; lia.
  - destruct (isDigit c) eqn:D.
    + destruct (IH _ _ _ _ _ E) as (L & _ & R). repeat split; [lia | lia | exact R].
    + injection E as <- <- <-. repeat split; [lia | exact D].
Qed.

Lemma isDot_eq (c : ascii) : isDot c = true -> c = "."%char.
Proof. unfold isDot. apply Ascii.eqb_eq. Qed.

Lemma parseFloat_NaN (amount : string) :
  wellFormedAmount amount = true -> amount <> EmptyString ->
  parseFloat amount = JSNumber.NaN -> amount = "."%string.
Proof.
  unfold wellFormedAmount, parseFloat. intros W N.
  apply andb_prop in W as [W _]. apply andb_prop in W as [A D].
  apply Nat.leb_le in D.
  destruct (leadingDigits amount 0 0) as [[int n] rest] eqn:L.
  destruct (leadingDigits_spec _ _ _ _ _ _ L) as (_ & Same & Head).
  destruct rest as [|c rest'].
  - destruct n; [|discriminate]. intros _. exfalso. apply N. symmetry. apply Same. reflexivity.
  - destruct (isDot c) eqn:Dot.
    + destruct (leadingDigits rest' 0 0) as [[frac k] r2] eqn:L2.
      destruct (leadingDigits_spec _ _ _ _ _ _ L2) as (_ & Same2 & Head2).
      destruct n; [|discriminate]. destruct k; [|discriminate]. intros _.
      specialize (Same eq_refl). specialize (Same2 eq_refl). subst r2 amount.
      apply isDot_eq in Dot. subst c. simpl in A, D.
      destruct rest' as [|d r]; [reflexivity|]. exfalso.
      simpl in A, D. rewrite Head2 in A. cbn [orb] in A.
      apply andb_prop in A as [A _]. rewrite A in D. lia.
    + destruct n; [|discriminate]. intros _. exfalso.
      specialize (Same eq_refl). subst amount. simpl in A.
      rewrite Head, Dot in A. discriminate.
Qed.

Lemma parseFloat_NaN_or_finite (s : string) :
  parseFloat s = JSNumber.NaN \/ exists q, parseFloat s = JSNumber.Fin q.
Proof.
  unfold parseFloat. destruct (leadingDigits s 0 0) as [[int n] rest].
  destruct (match rest with
            | String c rest' => if isDot c then leadingDigits rest' 0 0 else (0, O, rest)
            | EmptyString => (0, O, rest)
            end) as [[frac k] r].
  destruct n, k; [left; reflexivity | right; eexists; reflexivity ..].
Qed.

(** X26. The amount test of [handleSave] on a text the amount field can
    hold: the form goes on exactly when the text reads as a number above
    zero, or is the lone dot.  The lone dot is not a number, and
    [parseFloat(amount) <= 0] is false for it, so the test lets it through. *)
Theorem amountPasses_above_zero_or_lone_dot (amount : string) :
  wellFormedAmount amount = true ->
  (amountPasses amount = true <->
   (amount = "."%string /\ parseFloat amount = JSNumber.NaN)
   \/ exists q, parseFloat amount = JSNumber.Fin q /\ (0 < q)%Q).
Proof.
  intros W. unfold amountPasses. split.
  - intros P. apply negb_true_iff, orb_false_iff in P as [E Z].
    assert (N : amount <> EmptyString) by (intros ->; discriminate).
    destruct (parseFloat_NaN_or_finite amount) as [F | (q & F)]; rewrite F in Z.
    + left. split; [apply parseFloat_NaN; assumption | exact F].
    + right. exists q. split; [exact F|]. simpl in Z.
      apply Qnot_le_lt. intros Le. apply Qle_bool_iff in Le. congruence.
  - intros [[-> _] | (q & F & Pos)]; [reflexivity|].
    rewrite F. simpl. destruct amount; [discriminate|]. simpl.
    apply negb_true_iff. destruct (Qle_bool q 0) eqn:Le; [|reflexivity].
    apply Qle_bool_iff in Le. exfalso. apply (Qlt_not_le _ _ Pos Le).
Qed.

Lemma amountPasses_above_zero_or_lone_dot_witness :
  (amountPasses "12.50" = true /\ amountPasses "0.00" = false)
  /\ amountPasses "." = true.
Proof.
  split; [split|].
  - apply (amountPasses_above_zero_or_lone_dot "12.50" eq_refl).
    right. exists (inject_Z 12 + inject_Z 50 / inject_Z 100)%Q.
    split; reflexivity.
  - destruct (amountPasses "0.00") eqn:P; [|reflexivity]. exfalso.
    apply (amountPasses_above_zero_or_lone_dot "0.00" eq_refl) in P.
    destruct P as [[D _] | (q & F & Pos)]; [discriminate|].
    vm_compute in F. injection F as <-. vm_compute in Pos. discriminate.
  - apply (amountPasses_above_zero_or_lone_dot "." eq_refl).
    left. split; reflexivity.
Defined.

End AmountValidation.

(* ================================================================== *)
(** * Tag lists of the forms ([add-transaction.tsx], [notes.tsx]) *)

(** [tags.includes(tag)] *)
Definition includesTag (tags : list string) (tag : string) : bool :=
  existsb (String.eqb tag) tags.

Module TagInput.
Section WithTrim.
(** [String.prototype.trim] *)
Variable trim : string -> string.

(** [addTag] of the entry form and [addTagToNewNote] of the notes screen
    have the same body: the state is the tag list and the content of the
    tag field. *)
Definition addTag (tags : list string) (newTag : string) : list string * string :=
  if negb (is_empty (trim newTag)) && negb (includesTag tags (trim newTag))
  then (tags ++ [trim newTag], EmptyString)
  else (tags, newTag).

(** [removeTag] and [removeTagFromNewNote] *)
Definition removeTag (tags : list string) (tagToRemove : string) : list string :=
  filter (fun tag => negb (String.eqb tag tagToRemove)) tags.

End WithTrim.

(** [toggleTagFilter] of the notes screen *)
Definition toggleTagFilter (prev : list string) (tag : string) : list string :=
  if includesTag prev tag
  then filter (fun t => negb (String.eqb t tag)) prev
  else prev ++ [tag].

End TagInput.

Lemma includesTag_In (tags : list string) (tag : string) :
  includesTag tags tag = true <-> In tag tags.
Proof.
  unfold includesTag. rewrite existsb_exists. split.
  - intros (x & I & E). apply String.eqb_eq in E. subst. exact I.
  - intros I. exists tag. split; [exact I | apply String.eqb_refl].
Qed.

Section TagFacts.
Import TagInput.
Variable trim : string -> string.

Lemma removeTag_absent (tags : list string) (tag : string) :
  ~ In tag tags -> removeTag tags tag = tags.
Proof.
  intros N. unfold removeTag. apply filter_all.
  intros x I. apply negb_true_iff. apply String.eqb_neq. intros ->. exact (N I).
Qed.

Lemma NoDup_snoc (tags : list string) (tag : string) :
  NoDup tags -> ~ In tag tags -> NoDup (tags ++ [tag]).
Proof.
  intros ND N. apply NoDup_app; [exact ND | repeat constructor; intros [] |].
  intros x I [<- | []]. exact (N I).
Qed.

(** X27. The tag list of a form never holds a tag twice and never holds
    the empty tag: [addTag] and [removeTag] keep both facts, [removeTag]
    leaves no occurrence of the tag it is given, and removing the tag that
    [addTag] has just appended gives the list back. *)
Theorem tag_list_stays_duplicate_free (tags : list string) (newTag t : string) :
  NoDup tags -> ~ In EmptyString tags ->
  let tags' := fst (addTag trim tags newTag) in
  (NoDup tags' /\ ~ In EmptyString tags')
  /\ (NoDup (removeTag tags t) /\ ~ In EmptyString (removeTag tags t)
      /\ ~ In t (removeTag tags t))
  /\ (tags' <> tags -> tags' = tags ++ [trim newTag] /\ removeTag tags' (trim newTag) = tags).
Proof.
  intros ND NE. cbv zeta. unfold addTag.
  destruct (is_empty (trim newTag)) eqn:E; cbn [negb andb fst].
  - repeat split; try assumption.
    + apply NoDup_filter, ND.
    + intros I. apply filter_In in I. tauto.
    + intros I. apply filter_In in I as [_ I]. rewrite String.eqb_refl in I. discriminate.
    + congruence.
    + congruence.
  - destruct (includesTag tags (trim newTag)) eqn:I; cbn [negb fst].
    + repeat split; try assumption.
      * apply NoDup_filter, ND.
      * intros J. apply filter_In in J. tauto.
      * intros J. apply filter_In in J as [_ J]. rewrite String.eqb_refl in J. discriminate.
      * congruence.
      * congruence.
    + assert (N : ~ In (trim newTag) tags).
      { intros J. apply includesTag_In in J. congruence. }
      repeat split.
      * apply NoDup_snoc; assumption.
      * intros J. apply in_app_or in J as [J | [J | []]]; [exact (NE J)|].
        rewrite J in E. discriminate.
      * apply NoDup_filter, ND.
      * intros J. apply filter_In in J. tauto.
      * intros J. apply filter_In in J as [_ J]. rewrite String.eqb_refl in J. discriminate.
      * unfold removeTag. rewrite filter_app. cbn [filter].
        rewrite String.eqb_refl. cbn [negb]. rewrite app_nil_r.
        apply removeTag_absent. exact N.
Qed.

End TagFacts.

(** X28. [toggleTagFilter] changes the selection at the toggled tag only:
    a tag is selected afterwards exactly when it is another tag that was
    selected, or the toggled tag and was not.  A selection without repeats
    stays without repeats. *)
Theorem toggleTagFilter_flips_one_tag (prev : list string) (tag t : string) :
  (In t (TagInput.toggleTagFilter prev tag)
   <-> (t <> tag /\ In t prev) \/ (t = tag /\ ~ In tag prev))
  /\ (NoDup prev -> NoDup (TagInput.toggleTagFilter prev tag)).
Proof.
  unfold TagInput.toggleTagFilter. destruct (includesTag prev tag) eqn:I.
  - apply includesTag_In in I. split.
    + rewrite filter_In. split.
      * intros [J E]. left. split; [|exact J].
        apply negb_true_iff, String.eqb_neq in E. exact E.
      * intros [[N J] | [-> N]]; [|tauto]. split; [exact J|].
        apply negb_true_iff, String.eqb_neq. exact N.
    + intros ND. apply NoDup_filter, ND.
  - assert (N : ~ In tag prev).
    { intros J. apply includesTag_In in J. congruence. }
    split.
    + rewrite in_app_iff. split.
      * intros [J | [<- | []]]; [|right; tauto].
        left. split; [intros ->; exact (N J) | exact J].
      * intros [[_ J] | [-> _]]; [left; exact J | right; left; reflexivity].
    + intros ND. apply NoDup_snoc; assumption.
Qed.

Lemma tag_list_stays_duplicate_free_witness :
  fst (TagInput.addTag (fun s => s) ["food"; "work"]%string "trip")
  = ["food"; "work"; "trip"]%string
  /\ TagInput.removeTag ["food"; "work"; "trip"]%string "trip"
     = ["food"; "work"]%string.
Proof.
  assert (ND : NoDup ["food"; "work"]%string).
  { constructor; [simpl; intuition discriminate|].
    constructor; [simpl; intuition discriminate | constructor]. }
  assert (NE : ~ In EmptyString ["food"; "work"]%string).
  { simpl. intuition discriminate. }
  destruct (tag_list_stays_duplicate_free (fun s => s) ["food"; "work"]%string
              "trip" "trip" ND NE) as (_ & _ & R).
  destruct R as [A B]; [discriminate|].
  split; [exact A | exact B].
Defined.

Lemma toggleTagFilter_flips_one_tag_witness :
  NoDup (TagInput.toggleTagFilter ["food"; "work"]%string "food").
Proof.
  apply (toggleTagFilter_flips_one_tag ["food"; "work"]%string "food" "food").
  constructor; [simpl; intuition discriminate|].
  constructor; [simpl; intuition discriminate | constructor].
Defined.

(* ================================================================== *)
(** * The history screen *)

Inductive FilterType := all | only (type : TransactionType).
Inductive SortType := byDate | byAmount | byCategory.

Module History.
Section WithStrings.
(** [String.prototype.trim], [toLowerCase], [includes] and
    [localeCompare]. *)
Variable trim : string -> string.
Variable toLowerCase : string -> string.
Variable includes : string -> string -> bool.
Variable localeCompare : string -> string -> Q.

(** The test of the search filter; [query] is the lowered text of the
    search field. *)
Definition matches (query : string) (transaction : Transaction.t) : bool :=
  includes (toLowerCase (Transaction.description transaction)) query
  || includes (toLowerCase (Transaction.notes transaction)) query
  || includes (toLowerCase (Transaction.category transaction)) query
  || existsb (fun tag => includes (toLowerCase tag) query)
       (Transaction.tags transaction).

(** The comparator handed to [filtered.sort]. *)
Definition compare (sortType : SortType) (a b : Transaction.t) : Q :=
  match sortType with
  | byDate => inject_Z (Transaction.date b - Transaction.date a)
  | byAmount => Transaction.amount b - Transaction.amount a
  | byCategory => localeCompare (Transaction.category a) (Transaction.category b)
  end.

(** [applyFiltersAndSort]: the list handed to [setFilteredTransactions]. *)
Definition applyFiltersAndSort (transactions : list Transaction.t)
    (searchQuery : string) (filterType : FilterType) (sortType : SortType)
  : list Transaction.t :=
  let filtered := transactions in
  let filtered :=
    if negb (is_empty (trim searchQuery))
    then filter (matches (toLowerCase searchQuery)) filtered
    else filtered in
  let filtered :=
    match filterType with
    | all => filtered
    | only type =>
        filter (fun transaction =>
                  TransactionType_eqb (Transaction.type transaction) type) filtered
    end in
  JSArray.sort (compare sortType) filtered.

End WithStrings.
End History.

(** The entry passes the type filter. *)
Definition ofType (filterType : FilterType) (t : Transaction.t) : bool :=
  match filterType with
  | all => true
  | only type => TransactionType_eqb (Transaction.type t) type
  end.

(** [a] is listed before [b] under the sort key: no older, no smaller. *)
Definition listedBefore (sortType : SortType) (a b : Transaction.t) : Prop :=
  match sortType with
  | byDate => Transaction.date b <= Transaction.date a
  | byAmount => (Transaction.amount b <= Transaction.amount a)%Q
  | byCategory => True
  end.

Section HistoryFacts.
Import History.
Variable trim : string -> string.
Variable toLowerCase : string -> string.
Variable includes : string -> string -> bool.
Variable localeCompare : string -> string -> Q.

Lemma byAmount_sorted (T : list Transaction.t) :
  StronglySorted (listedBefore byAmount) (JSArray.sort (compare localeCompare byAmount) T).
Proof.
  apply (StronglySorted_weaken (precedes (compare localeCompare byAmount))).
  - intros a b H. unfold precedes, compare, listedBefore in *. lra.
  - apply sort_sorted.
    + intros a b. unfold precedes, compare. lra.
    + intros a b c. unfold precedes, compare. lra.
Qed.

Lemma byDate_sorted (T : list Transaction.t) :
  StronglySorted (listedBefore byDate) (JSArray.sort (compare localeCompare byDate) T).
Proof.
  apply (StronglySorted_weaken (precedes (compare localeCompare byDate))).
  - intros a b H. unfold precedes, compare, listedBefore in *.
    change 0%Q with (inject_Z 0) in H. rewrite <- Zle_Qle in H. lia.
  - apply sort_sorted.
    + intros a b. unfold precedes, compare. change 0%Q with (inject_Z 0).
      rewrite <- !Zle_Qle. lia.
    + intros a b c. unfold precedes, compare. change 0%Q with (inject_Z 0).
      rewrite <- !Zle_Qle. lia.
Qed.

(** X29. The list of the history screen.  Whatever the search text, the
    entries shown are stored entries of the chosen type, never more of
    them than are stored, and under the date and amount orders they run
    from newest to oldest and from largest to smallest.  When the search
    text is blank, every stored entry of the chosen type is shown: the
    list is a rearrangement of them. *)
Theorem history_shows_the_chosen_type_in_order
    (transactions : list Transaction.t) (searchQuery : string)
    (filterType : FilterType) (sortType : SortType) :
  let shown := applyFiltersAndSort trim toLowerCase includes localeCompare
                 transactions searchQuery filterType sortType in
  Forall (fun t => ofType filterType t = true /\ In t transactions) shown
  /\ (List.length shown <= List.length (filter (ofType filterType) transactions))%nat
  /\ (sortType <> byCategory -> StronglySorted (listedBefore sortType) shown)
  /\ (is_empty (trim searchQuery) = true ->
      Permutation shown (filter (ofType filterType) transactions)).
Proof.
  cbv zeta. unfold applyFiltersAndSort. cbv zeta.
  set (searched := if negb (is_empty (trim searchQuery))
                   then filter (matches toLowerCase includes (toLowerCase searchQuery))
                          transactions
                   else transactions).
  set (typed := match filterType with
                | all => searched
                | only type =>
                    filter (fun transaction =>
                              TransactionType_eqb (Transaction.type transaction) type)
                      searched
                end).
  assert (Typed : typed = filter (ofType filterType) searched).
  { unfold typed, ofType. destruct filterType; [|reflexivity].
    symmetry. apply filter_all. reflexivity. }
  assert (P : Permutation (JSArray.sort (compare localeCompare sortType) typed) typed)
    by apply sort_Permutation.
  assert (Sub : forall t, In t searched -> In t transactions).
  { unfold searched. destruct (negb _); [|tauto]. intros t H.
    apply filter_In in H. tauto. }
  repeat split.
  - apply Forall_forall. intros t H.
    apply (Permutation_in _ P) in H. rewrite Typed in H.
    apply filter_In in H as [H O]. split; [exact O | apply Sub, H].
  - rewrite (Permutation_length P), Typed. unfold searched.
    destruct (negb _); [|lia].
    rewrite filter_filter_and.
    clear. induction transactions as [|t T IH]; simpl; [lia|].
    destruct (ofType filterType t); cbn [andb]; [|exact IH].
    destruct (matches _ _ _ t); simpl; lia.
  - intros N. destruct sortType; [apply byDate_sorted | apply byAmount_sorted | congruence].
  - intros B. eapply perm_trans; [exact P|]. rewrite Typed. unfold searched.
    rewrite B. apply Permutation_refl.
Qed.

End HistoryFacts.

Lemma history_shows_the_chosen_type_in_order_witness :
  Permutation
    (History.applyFiltersAndSort (fun s => s) (fun s => s) (fun _ _ => true)
       (fun _ _ => 0%Q) Sample.ledger EmptyString (only expense) byDate)
    (filter (ofType (only expense)) Sample.ledger).
Proof.
  pose proof (history_shows_the_chosen_type_in_order (fun s => s) (fun s => s)
                (fun _ _ => true) (fun _ _ => 0%Q) Sample.ledger EmptyString
                (only expense) byDate) as H.
  cbv zeta in H. destruct H as (_ & _ & _ & P). apply P. reflexivity.
Defined.
